(** * PICORadar benchmark report generator

    A shallow embedding of [scripts/generate_performance_report.py]
    (class [BenchmarkReportGenerator] and [main]) together with the
    properties of its classifier, aggregator, formatter, renderer and
    driver.

    Python values are modelled as follows.
    - [str] is a [string] holding the UTF-8 bytes of the text, a lone
      surrogate being written as the three bytes it would take.  Every
      pattern the program searches for is ASCII, and an ASCII byte never
      occurs inside a multi-byte UTF-8 sequence, so containment on bytes
      and containment on code points agree.
    - a JSON number is a [num]: a Python [int] (unbounded, [Z]) or a
      Python [float] (IEEE binary64, [spec_float] with [prec = 53] and
      [emax = 1024]).
    - a JSON object read through [dict.get(key, default)] is a record of
      optional fields; [None] is an absent key.
    - a call that can raise returns a [result]: [Ok] with the value or
      [Raise] with the exception.
    - the files, the working directory, the clock and the standard
      output are a [world] that the driver passes along; the standard
      output is taken to accept every line.

    The library functions ([sorted], [statistics.mean],
    [statistics.median], [min], [max], [format], [pathlib.Path]) are
    modelled as CPython 3.11 has them. *)

From Stdlib Require Import ZArith QArith Qabs List String Ascii Bool Lia.
From Stdlib Require Import Permutation Sorted Decimal DecimalString DecimalPos.
From Stdlib Require Import Floats.SpecFloat.
Import ListNotations.

Local Open Scope list_scope.
Local Open Scope string_scope.
Local Open Scope Z_scope.

(** ** Python numbers *)

Inductive num : Type :=
| PyInt (z : Z)
| PyFloat (f : spec_float).

(** ** Measurement records and the loaded document *)

Record benchmark : Type := {
  name : option string;
  real_time : option num;
  cpu_time : option num;
  iterations : option Z;
  items_per_second : option num
}.

Record cpu_info : Type := {
  cpu_name : option string;
  num_cpus : option Z
}.

Record context : Type := {
  host_name : option string;
  cpu : option cpu_info
}.

(** A loaded JSON object.  [other_keys] tells whether the object has keys
    besides [benchmarks] and [context]; it only matters for truthiness. *)
Record document : Type := {
  benchmarks : option (list benchmark);
  context_info : option context;
  other_keys : bool
}.

(** [d.get(key, default)] on an optional field. *)
Definition get {A : Type} (field : option A) (default : A) : A :=
  match field with
  | Some v => v
  | None => default
  end.

(** ** Substring containment: Python's [pat in s] on [str] *)

Fixpoint starts_with (pat s : string) : bool :=
  match pat, s with
  | EmptyString, _ => true
  | String _ _, EmptyString => false
  | String a pat', String b s' => Ascii.eqb a b && starts_with pat' s'
  end.

Fixpoint contains (pat s : string) : bool :=
  starts_with pat s ||
  match s with
  | EmptyString => false
  | String _ s' => contains pat s'
  end.

(** ** Classifier: [categorize_benchmarks] *)

Definition categories : Type := list (string * list benchmark).

Definition empty_categories : categories :=
  [("Core", []); ("Network", []); ("Config", []); ("Memory", []);
   ("Other", [])].

(** [categories[key].append(b)] *)
Fixpoint append_to (key : string) (b : benchmark) (cats : categories)
  : categories :=
  match cats with
  | [] => []
  | (k, l) :: rest =>
      if String.eqb k key then (k, (l ++ [b])%list) :: rest
      else (k, l) :: append_to key b rest
  end.

(** The branch of the [if]/[elif] chain taken for a name. *)
Definition category_of_name (nm : string) : string :=
  if contains "PlayerRegistry" nm then "Core"
  else if contains "Protobuf" nm || contains "Batch" nm
          || contains "Serialization" nm then "Network"
  else if contains "Config" nm then "Config"
  else if contains "Memory" nm then "Memory"
  else "Other".

Definition category_of (b : benchmark) : string :=
  category_of_name (get (name b) EmptyString).

Definition categorize_step (cats : categories) (b : benchmark) : categories :=
  append_to (category_of b) b cats.

Definition categorize_benchmarks (data : document) : categories :=
  fold_left categorize_step (get (benchmarks data) []) empty_categories.

(** [categories[key]] *)
Fixpoint lookup (key : string) (cats : categories) : list benchmark :=
  match cats with
  | [] => []
  | (k, l) :: rest => if String.eqb k key then l else lookup key rest
  end.

(** ** Exceptions

    A raised exception ends the computation; [str_exn] is the text that
    [print(f"...{e}")] shows for it. *)

Inductive exn : Type :=
| OverflowError (msg : string)
| ZeroDivisionError (msg : string)
| AttributeError (msg : string)
| KeyError (msg : string)
| StatisticsError (msg : string)
| ValueError (msg : string)
| OSError (msg : string)
| JSONDecodeError (msg : string)
| UnicodeEncodeError (msg : string).

Definition str_exn (e : exn) : string :=
  match e with
  | OverflowError msg | ZeroDivisionError msg | AttributeError msg
  | KeyError msg | StatisticsError msg | ValueError msg | OSError msg
  | JSONDecodeError msg | UnicodeEncodeError msg => msg
  end.

Inductive result (A : Type) : Type :=
| Ok (a : A)
| Raise (e : exn).
Arguments Ok {A} a.
Arguments Raise {A} e.

Definition bind {A B : Type} (r : result A) (k : A -> result B) : result B :=
  match r with
  | Ok a => k a
  | Raise e => Raise e
  end.

Notation "x <- r ;; k" := (bind r (fun x => k))
  (at level 61, r at next level, right associativity).

(** ** Arithmetic on Python numbers *)

Definition prec : Z := 53.
Definition emax : Z := 1024.

(** The real number a [num] stands for. *)
Inductive value : Type :=
| Vnan
| Vneginf
| Vfin (q : Q)
| Vposinf.

Definition finite_value (s : bool) (m : positive) (e : Z) : Q :=
  if 0 <=? e then inject_Z (cond_Zopp s (Zpos m) * 2 ^ e)
  else Qmake (cond_Zopp s (Zpos m)) (Z.to_pos (2 ^ (- e))).

Definition float_value (f : spec_float) : value :=
  match f with
  | S754_zero _ => Vfin 0
  | S754_infinity s => if s then Vneginf else Vposinf
  | S754_nan => Vnan
  | S754_finite s m e => Vfin (finite_value s m e)
  end.

Definition num_value (x : num) : value :=
  match x with
  | PyInt z => Vfin (inject_Z z)
  | PyFloat f => float_value f
  end.

Definition Qltb (p q : Q) : bool :=
  match (p ?= q)%Q with
  | Lt => true
  | _ => false
  end.

Definition value_ltb (u v : value) : bool :=
  match u, v with
  | Vnan, _ | _, Vnan => false
  | _, Vneginf => false
  | Vneginf, _ => true
  | Vposinf, _ => false
  | Vfin _, Vposinf => true
  | Vfin p, Vfin q => Qltb p q
  end.

(** [a < b]: Python compares [int] and [float] operands by their exact
    values; any comparison with a NaN is false. *)
Definition num_ltb (a b : num) : bool :=
  value_ltb (num_value a) (num_value b).

(** [a > b] *)
Definition num_gtb (a b : num) : bool := num_ltb b a.

(** [float(z)]: the nearest double, ties to even. *)
Definition float_of_int (z : Z) : result spec_float :=
  match binary_normalize prec emax z 0 false with
  | S754_infinity _ => Raise (OverflowError "int too large to convert to float")
  | f => Ok f
  end.

(** [a / b] on two [int]s: the exact quotient rounded once to the nearest
    double, ties to even. *)
Definition int_truediv (a b : Z) : result spec_float :=
  match a, b with
  | _, Z0 => Raise (ZeroDivisionError "division by zero")
  | Z0, _ => Ok (S754_zero (b <? 0))
  | _, _ =>
      match SFdiv prec emax (S754_finite (a <? 0) (Z.to_pos (Z.abs a)) 0)
                            (S754_finite (b <? 0) (Z.to_pos (Z.abs b)) 0) with
      | S754_infinity _ =>
          Raise (OverflowError "integer division result too large for a float")
      | f => Ok f
      end
  end.

(** [x / y] on two [float]s. *)
Definition float_truediv (x y : spec_float) : result spec_float :=
  match y with
  | S754_zero _ => Raise (ZeroDivisionError "float division by zero")
  | _ => Ok (SFdiv prec emax x y)
  end.

(** [a / b] *)
Definition num_truediv (a b : num) : result num :=
  match a, b with
  | PyInt x, PyInt y => f <- int_truediv x y ;; Ok (PyFloat f)
  | PyFloat x, PyInt y =>
      y' <- float_of_int y ;; f <- float_truediv x y' ;; Ok (PyFloat f)
  | PyInt x, PyFloat y =>
      x' <- float_of_int x ;; f <- float_truediv x' y ;; Ok (PyFloat f)
  | PyFloat x, PyFloat y => f <- float_truediv x y ;; Ok (PyFloat f)
  end.

(** [a + b] *)
Definition num_add (a b : num) : result num :=
  match a, b with
  | PyInt x, PyInt y => Ok (PyInt (x + y))
  | PyFloat x, PyInt y =>
      y' <- float_of_int y ;; Ok (PyFloat (SFadd prec emax x y'))
  | PyInt x, PyFloat y =>
      x' <- float_of_int x ;; Ok (PyFloat (SFadd prec emax x' y))
  | PyFloat x, PyFloat y => Ok (PyFloat (SFadd prec emax x y))
  end.

(** ** Number formatting *)

Definition digit_char (d : Z) : ascii := ascii_of_nat (48 + Z.to_nat d).

(** The [p] low-order decimal digits of [n], most significant first. *)
Fixpoint fixed_digits (p : nat) (n : Z) : string :=
  match p with
  | O => EmptyString
  | S p' => fixed_digits p' (n / 10) ++ String (digit_char (n mod 10)) EmptyString
  end.

(** [str(n)] for a natural number [n]. *)
Definition decimal (n : Z) : string :=
  NilZero.string_of_uint (N.to_uint (Z.to_N n)).

(** [str(z)] for an [int]. *)
Definition str_int (z : Z) : string :=
  if z <? 0 then "-" ++ decimal (- z) else decimal z.

(** The integer nearest to [a / b] ([b > 0]), ties to even. *)
Definition round_half_even (a b : Z) : Z :=
  let q := a / b in
  let r := a mod b in
  match 2 * r ?= b with
  | Lt => q
  | Gt => q + 1
  | Eq => if Z.even q then q else q + 1
  end.

(** The integer nearest to [m * 2^e * 10^p], ties to even. *)
Definition scaled_round (p : nat) (m : positive) (e : Z) : Z :=
  if 0 <=? e then Zpos m * 2 ^ e * 10 ^ Z.of_nat p
  else round_half_even (Zpos m * 10 ^ Z.of_nat p) (2 ^ (- e)).

(** [n / 10^p] shown with [p] decimals: the digits of [n] with a point
    before the last [p] of them; no point when [p = 0]. *)
Definition fixed_point (p : nat) (n : Z) : string :=
  decimal (n / 10 ^ Z.of_nat p) ++
  match p with
  | O => EmptyString
  | S _ => "." ++ fixed_digits p n
  end.

(** [format(f, '.<p>f')] on a [float]: the exact value of [f] rounded to
    [p] decimals, ties to even. *)
Definition format_float (p : nat) (f : spec_float) : string :=
  match f with
  | S754_nan => "nan"
  | S754_infinity s => if s then "-inf" else "inf"
  | S754_zero s => (if s then "-" else EmptyString) ++ fixed_point p 0
  | S754_finite s m e =>
      (if s then "-" else EmptyString) ++ fixed_point p (scaled_round p m e)
  end.

(** [f"{x:.<p>f}"]; an [int] is converted to [float] first. *)
Definition format_f (p : nat) (x : num) : result string :=
  match x with
  | PyInt z => f <- float_of_int z ;; Ok (format_float p f)
  | PyFloat f => Ok (format_float p f)
  end.

(** Commas between groups of three digits, counted from the right;
    [len] is the length of the digit string. *)
Fixpoint group3 (len : nat) (digits : string) : string :=
  match digits, len with
  | String c rest, S len' =>
      String c
        (match rest with
         | EmptyString => EmptyString
         | String _ _ =>
             if Nat.eqb (len' mod 3) 0 then "," ++ group3 len' rest
             else group3 len' rest
         end)
  | _, _ => EmptyString
  end.

(** [f"{z:,}"] for an [int]. *)
Definition format_grouped (z : Z) : string :=
  let ds := decimal (Z.abs z) in
  (if z <? 0 then "-" else EmptyString) ++ group3 (String.length ds) ds.

(** ** Formatter: [format_time] *)

Definition format_time (time_ns : num) : result string :=
  if num_ltb time_ns (PyInt 1000) then
    s <- format_f 2 time_ns ;; Ok (s ++ " ns")
  else if num_ltb time_ns (PyInt 1000000) then
    q <- num_truediv time_ns (PyInt 1000) ;;
    s <- format_f 2 q ;; Ok (s ++ " μs")
  else if num_ltb time_ns (PyInt 1000000000) then
    q <- num_truediv time_ns (PyInt 1000000) ;;
    s <- format_f 2 q ;; Ok (s ++ " ms")
  else
    q <- num_truediv time_ns (PyInt 1000000000) ;;
    s <- format_f 2 q ;; Ok (s ++ " s").

(** ** Formatter: [format_bytes] *)

Definition format_bytes (bytes_val : num) : result string :=
  if num_ltb bytes_val (PyInt 1024) then
    s <- format_f 2 bytes_val ;; Ok (s ++ " B")
  else if num_ltb bytes_val (PyInt (1024 ^ 2)) then
    q <- num_truediv bytes_val (PyInt 1024) ;;
    s <- format_f 2 q ;; Ok (s ++ " KB")
  else if num_ltb bytes_val (PyInt (1024 ^ 3)) then
    q <- num_truediv bytes_val (PyInt (1024 ^ 2)) ;;
    s <- format_f 2 q ;; Ok (s ++ " MB")
  else
    q <- num_truediv bytes_val (PyInt (1024 ^ 3)) ;;
    s <- format_f 2 q ;; Ok (s ++ " GB").

(** ** Sorting: Python's [sorted]

    [sorted] is CPython's [list.sort] on a copy; it compares with [<]
    only.  For fewer than 64 elements the whole list is one run: the run
    found at the head by [count_run], reversed if it descends, is
    extended to the right by [binarysort].  From 64 elements on the list
    is cut into several runs that are merged; when [<] orders the keys
    totally the merge gives what every stable sort gives, the list of
    [stable_sort], and that is what the model takes there.  On 64
    elements or more with keys that [<] does not order (a NaN among
    them) the model does not follow the merge. *)

(** [x] placed after every element that is not greater than it. *)
Fixpoint insert {A : Type} (lt : A -> A -> bool) (x : A) (l : list A)
  : list A :=
  match l with
  | [] => [x]
  | y :: l' => if lt x y then x :: l else y :: insert lt x l'
  end.

(** The stable sort: equal keys keep their input order. *)
Definition stable_sort {A : Type} (lt : A -> A -> bool) (l : list A)
  : list A :=
  fold_left (fun acc x => insert lt x acc) l [].

(** How many elements of [l] continue a run that does not descend and
    whose last element is [prev]. *)
Fixpoint ascending_run {A : Type} (lt : A -> A -> bool) (prev : A)
  (l : list A) : nat :=
  match l with
  | [] => 0%nat
  | x :: l' => if lt x prev then 0%nat else S (ascending_run lt x l')
  end.

(** The same for a run that descends strictly. *)
Fixpoint descending_run {A : Type} (lt : A -> A -> bool) (prev : A)
  (l : list A) : nat :=
  match l with
  | [] => 0%nat
  | x :: l' => if lt x prev then S (descending_run lt x l') else 0%nat
  end.

(** [count_run]: the length of the run at the head of the list, and
    whether it descends. *)
Definition count_run {A : Type} (lt : A -> A -> bool) (l : list A)
  : nat * bool :=
  match l with
  | [] => (0%nat, false)
  | [_] => (1%nat, false)
  | x :: y :: l' =>
      if lt y x then (2 + descending_run lt y l', true)%nat
      else (2 + ascending_run lt y l', false)%nat
  end.

(** The binary search of [binarysort]: with [l < r], the middle [p] of
    [l, r) is probed; [pivot < run[p]] moves [r] down to [p], anything
    else moves [l] up to [p + 1].  The interval shrinks at every probe, so
    its length is fuel enough. *)
Fixpoint bisect {A : Type} (lt : A -> A -> bool) (pivot : A) (run : list A)
  (l r fuel : nat) : nat :=
  match fuel with
  | O => l
  | S fuel' =>
      if (l <? r)%nat then
        let p := (l + (r - l) / 2)%nat in
        if lt pivot (nth p run pivot) then bisect lt pivot run l p fuel'
        else bisect lt pivot run (p + 1)%nat r fuel'
      else l
  end.

(** One step of [binarysort]: [pivot] goes where the search ends. *)
Definition binary_insert {A : Type} (lt : A -> A -> bool) (run : list A)
  (pivot : A) : list A :=
  let k := bisect lt pivot run 0%nat (List.length run) (List.length run) in
  (firstn k run ++ pivot :: skipn k run)%list.

Definition binarysort {A : Type} (lt : A -> A -> bool) (run rest : list A)
  : list A :=
  fold_left (binary_insert lt) rest run.

Definition sorted {A : Type} (lt : A -> A -> bool) (l : list A) : list A :=
  if (List.length l <? 64)%nat then
    let (n, descending) := count_run lt l in
    let run := firstn n l in
    binarysort lt (if descending then List.rev run else run) (skipn n l)
  else stable_sort lt l.

(** ** Aggregator: [statistics.mean], [statistics.median], [min], [max]
    and [generate_summary_stats] *)

Definition is_int (x : num) : bool :=
  match x with
  | PyInt _ => true
  | PyFloat _ => false
  end.

(** [_exact_ratio]: the exact value of a finite number. *)
Definition exact_ratio (x : num) : option Q :=
  match num_value x with
  | Vfin v => Some v
  | _ => None
  end.

Definition is_finite (x : num) : bool :=
  match exact_ratio x with
  | Some _ => true
  | None => false
  end.

(** The floats that are an infinity or a NaN. *)
Fixpoint non_finite (data : list num) : list spec_float :=
  match data with
  | [] => []
  | PyFloat f :: rest =>
      if is_finite (PyFloat f) then non_finite rest else f :: non_finite rest
  | PyInt _ :: rest => non_finite rest
  end.

(** The exact sum of the finite values. *)
Definition exact_sum (data : list num) : Q :=
  fold_left (fun acc x => acc + get (exact_ratio x) 0)%Q data 0%Q.

(** [float(Fraction(v))]: numerator over denominator in lowest terms,
    as a true division of [int]s. *)
Definition float_of_fraction (v : Q) : result spec_float :=
  int_truediv (Qnum (Qred v)) (Zpos (Qden (Qred v))).

(** [statistics.mean]: the exact sum over the count, converted to [int]
    when all the data are [int] and the quotient is whole, to [float]
    otherwise; when an infinity or a NaN is present the finite data are
    ignored in the sum. *)
Definition mean (data : list num) : result num :=
  let n := Z.of_nat (List.length data) in
  if (n <? 1) then
    Raise (StatisticsError "mean requires at least one data point")
  else if forallb is_finite data then
    let v := Qred (exact_sum data / inject_Z n) in
    if forallb is_int data && (Zpos (Qden v) =? 1) then Ok (PyInt (Qnum v))
    else f <- float_of_fraction v ;; Ok (PyFloat f)
  else
    let total :=
      fold_left (SFadd prec emax) (non_finite data) (S754_zero false) in
    num_truediv (PyFloat total) (PyInt n).

(** [statistics.median] *)
Definition median (data : list num) : result num :=
  let data := sorted num_ltb data in
  let n := List.length data in
  if Nat.eqb n 0 then Raise (StatisticsError "no median for empty data")
  else if Nat.eqb (n mod 2) 1 then Ok (nth (n / 2) data (PyInt 0))
  else
    let i := (n / 2)%nat in
    s <- num_add (nth (i - 1) data (PyInt 0)) (nth i data (PyInt 0)) ;;
    num_truediv s (PyInt 2).

(** [min(l)]: the first element that no later element is less than. *)
Definition py_min (l : list num) : result num :=
  match l with
  | [] => Raise (ValueError "min() arg is an empty sequence")
  | x :: rest =>
      Ok (fold_left (fun acc y => if num_ltb y acc then y else acc) rest x)
  end.

(** [max(l)] *)
Definition py_max (l : list num) : result num :=
  match l with
  | [] => Raise (ValueError "max() arg is an empty sequence")
  | x :: rest =>
      Ok (fold_left (fun acc y => if num_gtb y acc then y else acc) rest x)
  end.

Record summary : Type := {
  count : Z;
  avg_time : num;
  median_time : num;
  min_time : num;
  max_time : num;
  total_tests : Z
}.

(** [b.get('real_time', 0)] *)
Definition real_time_of (b : benchmark) : num := get (real_time b) (PyInt 0).

(** The result is [None] for the empty dictionary. *)
Definition generate_summary_stats (benchmarks : list benchmark)
  : result (option summary) :=
  match benchmarks with
  | [] => Ok None
  | _ :: _ =>
      let times := map real_time_of benchmarks in
      avg <- mean times ;;
      med <- median times ;;
      mn <- py_min times ;;
      mx <- py_max times ;;
      Ok (Some {| count := Z.of_nat (List.length benchmarks);
                  avg_time := avg;
                  median_time := med;
                  min_time := mn;
                  max_time := mx;
                  total_tests := Z.of_nat (List.length benchmarks) |})
  end.

(** ** Renderer: the markup of [generate_html_report]

    The f-string templates of the source, with one argument per
    replacement field.  In the literals below a backquote stands for the
    double quote character; [q] puts the double quotes back. *)

Definition dquote : ascii := ascii_of_nat 34.

Fixpoint q (s : string) : string :=
  match s with
  | EmptyString => EmptyString
  | String c s' => String (if Ascii.eqb c "`"%char then dquote else c) (q s')
  end.

(** The document head, the style sheet, the title and the overview block. *)
Definition page_header (now host cpu_model cores total : string) : string :=
  q "
<!DOCTYPE html>
<html lang=`zh-CN`>
<head>
    <meta charset=`UTF-8`>
    <meta name=`viewport` content=`width=device-width, initial-scale=1.0`>
    <title>PICORadar 性能基准测试报告</title>
    <style>
        body {
            font-family: 'Segoe UI', Tahoma, Geneva, Verdana, sans-serif;
            margin: 0;
            padding: 20px;
            background-color: #f5f5f5;
        }
        .container {
            max-width: 1200px;
            margin: 0 auto;
            background: white;
            padding: 30px;
            border-radius: 10px;
            box-shadow: 0 2px 10px rgba(0,0,0,0.1);
        }
        h1 {
            color: #2c3e50;
            text-align: center;
            margin-bottom: 30px;
            border-bottom: 3px solid #3498db;
            padding-bottom: 10px;
        }
        h2 {
            color: #34495e;
            border-left: 4px solid #3498db;
            padding-left: 15px;
            margin-top: 30px;
        }
        .summary {
            background: #ecf0f1;
            padding: 20px;
            border-radius: 8px;
            margin-bottom: 30px;
        }
        .summary-grid {
            display: grid;
            grid-template-columns: repeat(auto-fit, minmax(200px, 1fr));
            gap: 15px;
            margin-top: 15px;
        }
        .summary-item {
            background: white;
            padding: 15px;
            border-radius: 5px;
            text-align: center;
            box-shadow: 0 1px 3px rgba(0,0,0,0.1);
        }
        .summary-item strong {
            display: block;
            color: #2c3e50;
            font-size: 1.2em;
        }
        table {
            width: 100%;
            border-collapse: collapse;
            margin: 20px 0;
            background: white;
        }
        th, td {
            padding: 12px;
            text-align: left;
            border-bottom: 1px solid #ddd;
        }
        th {
            background-color: #3498db;
            color: white;
            font-weight: bold;
        }
        tr:hover {
            background-color: #f8f9fa;
        }
        .time-cell {
            font-family: 'Courier New', monospace;
            font-weight: bold;
        }
        .good { color: #27ae60; }
        .warning { color: #f39c12; }
        .danger { color: #e74c3c; }
        .info-grid {
            display: grid;
            grid-template-columns: repeat(auto-fit, minmax(250px, 1fr));
            gap: 20px;
            margin: 20px 0;
        }
        .info-box {
            background: #f8f9fa;
            padding: 15px;
            border-radius: 5px;
            border-left: 4px solid #3498db;
        }
        .category-section {
            margin: 30px 0;
            padding: 20px;
            border: 1px solid #e0e0e0;
            border-radius: 8px;
        }
        .benchmark-name {
            font-family: 'Courier New', monospace;
            font-size: 0.9em;
        }
        .footer {
            text-align: center;
            margin-top: 40px;
            padding: 20px;
            background: #f8f9fa;
            border-radius: 5px;
            color: #666;
        }
    </style>
</head>
<body>
    <div class=`container`>
        <h1>🚀 PICORadar 性能基准测试报告</h1>
        
        <div class=`summary`>
            <h2>📊 测试概览</h2>
            <div class=`info-grid`>
                <div class=`info-box`>
                    <strong>生成时间</strong><br>
                    "
  ++ now
  ++ q "
                </div>
                <div class=`info-box`>
                    <strong>测试主机</strong><br>
                    "
  ++ host
  ++ q "
                </div>
                <div class=`info-box`>
                    <strong>CPU</strong><br>
                    "
  ++ cpu_model
  ++ " 
                    ("
  ++ cores
  ++ q " cores)
                </div>
                <div class=`info-box`>
                    <strong>测试总数</strong><br>
                    "
  ++ total
  ++ " 个基准测试
                </div>
            </div>
        </div>
".

(** The opening of a category section: heading, summary and table head. *)
Definition section_header (category_name count avg fastest slowest : string) : string :=
  q "
        <div class=`category-section`>
            <h2>📁 "
  ++ category_name
  ++ q " 模块测试</h2>
            
            <div class=`summary-grid`>
                <div class=`summary-item`>
                    <strong>"
  ++ count
  ++ q "</strong>
                    测试数量
                </div>
                <div class=`summary-item`>
                    <strong>"
  ++ avg
  ++ q "</strong>
                    平均执行时间
                </div>
                <div class=`summary-item`>
                    <strong>"
  ++ fastest
  ++ q "</strong>
                    最快时间
                </div>
                <div class=`summary-item`>
                    <strong>"
  ++ slowest
  ++ "</strong>
                    最慢时间
                </div>
            </div>
            
            <table>
                <thead>
                    <tr>
                        <th>测试名称</th>
                        <th>执行时间</th>
                        <th>CPU 时间</th>
                        <th>迭代次数</th>
                        <th>吞吐量</th>
                    </tr>
                </thead>
                <tbody>
".

(** One table row. *)
Definition table_row (name time_class real cpu iterations throughput : string) : string :=
  q "
                    <tr>
                        <td class=`benchmark-name`>"
  ++ name
  ++ q "</td>
                        <td class=`time-cell "
  ++ time_class
  ++ q "`>"
  ++ real
  ++ q "</td>
                        <td class=`time-cell`>"
  ++ cpu
  ++ "</td>
                        <td>"
  ++ iterations
  ++ "</td>
                        <td>"
  ++ throughput
  ++ "</td>
                    </tr>
".

(** The closing of a category section. *)
Definition section_footer : string :=
  "
                </tbody>
            </table>
        </div>
".

(** The footer naming the input file. *)
Definition page_footer (input_name : string) : string :=
  q "
        <div class=`footer`>
            <p>📝 该报告由 PICORadar 基准测试系统自动生成</p>
            <p>🔧 数据源: "
  ++ input_name
  ++ "</p>
        </div>
    </div>
</body>
</html>
".

(** ** Renderer: [generate_html_report] *)

(** What [json.load] returns: an object, or a value of another type of
    which only the type name and the truth value matter. *)
Inductive json : Type :=
| JObject (d : document)
| JOther (type_name : string) (truth : bool).

(** [bool(data)] *)
Definition truthy (data : json) : bool :=
  match data with
  | JObject d =>
      match benchmarks d, context_info d with
      | None, None => other_keys d
      | _, _ => true
      end
  | JOther _ truth => truth
  end.

(** The severity class of a row. *)
Definition time_class (real_time : num) : string :=
  if num_ltb real_time (PyInt 1000000) then "good"
  else if num_ltb real_time (PyInt 10000000) then "warning"
  else "danger".

Definition throughput_of (items_per_sec : num) : result string :=
  if num_gtb items_per_sec (PyInt 0) then
    s <- format_f 0 items_per_sec ;; Ok (s ++ " items/sec")
  else Ok "N/A".

(** The body of the loop over the sorted records. *)
Definition render_row (benchmark : benchmark) : result string :=
  let name := get (name benchmark) "Unknown" in
  let real_time := get (real_time benchmark) (PyInt 0) in
  let cpu_time := get (cpu_time benchmark) (PyInt 0) in
  let iterations := get (iterations benchmark) 0 in
  let items_per_sec := get (items_per_second benchmark) (PyInt 0) in
  throughput <- throughput_of items_per_sec ;;
  let time_class := time_class real_time in
  real <- format_time real_time ;;
  cpu <- format_time cpu_time ;;
  Ok (table_row name time_class real cpu (format_grouped iterations)
        throughput).

Definition row_step (html : result string) (benchmark : benchmark)
  : result string :=
  h <- html ;; r <- render_row benchmark ;; Ok (h ++ r).

(** [sorted(benchmarks, key=lambda x: x.get('real_time', 0))] *)
Definition sorted_by_time (benchmarks : list benchmark) : list benchmark :=
  sorted (fun a b => num_ltb (real_time_of a) (real_time_of b)) benchmarks.

(** The body of the loop over [categories.items()]. *)
Definition category_step (html : result string)
  (item : string * list benchmark) : result string :=
  h <- html ;;
  let (category_name, benchmarks) := item in
  match benchmarks with
  | [] => Ok h
  | _ :: _ =>
      stats <- generate_summary_stats benchmarks ;;
      match stats with
      | None => Raise (KeyError "'count'")
      | Some stats =>
          avg <- format_time (avg_time stats) ;;
          fastest <- format_time (min_time stats) ;;
          slowest <- format_time (max_time stats) ;;
          let h :=
            h ++ section_header category_name (str_int (count stats))
                   avg fastest slowest in
          h <- fold_left row_step (sorted_by_time benchmarks) (Ok h) ;;
          Ok (h ++ section_footer)
      end
  end.

(** [Path(p).name]: the last component of a path, empty and [.]
    components not counting. *)
Fixpoint last_component (s cur last : string) : string :=
  let keep c := if String.eqb c EmptyString || String.eqb c "." then last
                else c in
  match s with
  | EmptyString => keep cur
  | String c s' =>
      if Ascii.eqb c "/"%char then last_component s' EmptyString (keep cur)
      else last_component s' (cur ++ String c EmptyString) last
  end.

Definition path_name (p : string) : string :=
  last_component p EmptyString EmptyString.

(** ** Paths: [str(Path(p))]

    A [Path] keeps the root of its string and the components between the
    slashes that are neither empty nor a dot. *)

(** [part.lstrip('/')] *)
Fixpoint lstrip_slash (p : string) : string :=
  match p with
  | EmptyString => EmptyString
  | String c p' => if Ascii.eqb c "/"%char then lstrip_slash p' else p
  end.

(** [splitroot]: exactly two leading slashes are kept as the root, any
    other number of them is one slash. *)
Definition split_root (p : string) : string * string :=
  if starts_with "/" p then
    let rel := lstrip_slash p in
    if Nat.eqb (String.length p - String.length rel) 2 then ("//", rel)
    else ("/", rel)
  else (EmptyString, p).

(** The components of [rel.split('/')] that are neither empty nor a dot;
    [cur] is the component being read. *)
Fixpoint components (s cur : string) : list string :=
  let keep c := if String.eqb c EmptyString || String.eqb c "." then []
                else [c] in
  match s with
  | EmptyString => keep cur
  | String c s' =>
      if Ascii.eqb c "/"%char then (keep cur ++ components s' EmptyString)%list
      else components s' (cur ++ String c EmptyString)
  end.

(** [parse_parts]: the root and the components. *)
Definition parts (p : string) : string * list string :=
  let (root, rel) := split_root p in (root, components rel EmptyString).

(** [_format_parsed_parts], and a dot for the path without parts. *)
Definition format_parts (root : string) (cs : list string) : string :=
  match root, cs with
  | EmptyString, [] => "."
  | _, _ => root ++ String.concat "/" cs
  end.

(** [str(Path(p))] *)
Definition path_str (p : string) : string :=
  let (root, cs) := parts p in format_parts root cs.

Definition no_data_page : string :=
  "<html><body><h1>No data available</h1></body></html>".

(** The first f-string of [generate_html_report] with its replacement
    fields filled in from the loaded object; [now] is
    [datetime.now().strftime('%Y-%m-%d %H:%M:%S')] at the time of the
    call. *)
Definition overview (d : document) (now : string) : string :=
  let context_info := context_info d in
  let host :=
    match context_info with
    | Some c => get (host_name c) "Unknown"
    | None => "Unknown"
    end in
  let cpu_info :=
    match context_info with
    | Some c => cpu c
    | None => None
    end in
  let cpu_model :=
    match cpu_info with
    | Some c => get (cpu_name c) "Unknown"
    | None => "Unknown"
    end in
  let cores :=
    match cpu_info with
    | Some c =>
        match num_cpus c with
        | Some n => str_int n
        | None => "N/A"
        end
    | None => "N/A"
    end in
  let total := str_int (Z.of_nat (List.length (get (benchmarks d) []))) in
  page_header now host cpu_model cores total.

Definition generate_html_report (data : json) (input_file now : string)
  : result string :=
  if negb (truthy data) then Ok no_data_page
  else
    match data with
    | JOther type_name _ =>
        Raise (AttributeError
                 ("'" ++ type_name ++ "' object has no attribute 'get'"))
    | JObject d =>
        let categories := categorize_benchmarks d in
        let html := overview d now in
        html <- fold_left category_step categories (Ok html) ;;
        Ok (html ++ page_footer (path_name input_file))
    end.

(** ** Driver: [load_data], [generate_report] and [main] *)

Inductive node : Type :=
| File (content : string)
| Directory.

(** The part of the world the program touches: the file system, the
    working directory, the clock and the standard output.  A file is
    found by the path string that is handed to the operating system. *)
Record world : Type := {
  node_at : string -> option node;
  readable : string -> bool;
  writable : string -> bool;
  cwd : string;
  clock : string;
  stdout : list string
}.

(** [print(line)].  The standard output is taken to accept every
    character; one that cannot encode a line would make [print] raise. *)
Definition print (line : string) (w : world) : world :=
  {| node_at := node_at w; readable := readable w; writable := writable w;
     cwd := cwd w; clock := clock w;
     stdout := (stdout w ++ [line])%list |}.

(** [open(path, 'r').read()] *)
Definition read_file (path : string) (w : world) : result string :=
  match node_at w path with
  | Some (File content) =>
      if readable w path then Ok content
      else Raise (OSError ("[Errno 13] Permission denied: '" ++ path ++ "'"))
  | Some Directory =>
      Raise (OSError ("[Errno 21] Is a directory: '" ++ path ++ "'"))
  | None =>
      Raise (OSError ("[Errno 2] No such file or directory: '" ++ path ++ "'"))
  end.

(** ** Text files: the utf-8 codec

    A string of the model is the text in UTF-8.  A lone surrogate, which
    an escape of a JSON string can put in a name, has no encoding; in the
    model it is written as the three bytes it would take, ED, then A0 to
    BF, then 80 to BF, and [f.write] raises on it. *)

Definition byte_of (c : ascii) : N := N_of_ascii c.

(** A byte [10xxxxxx], which continues a character. *)
Definition is_continuation (c : ascii) : bool :=
  (N.land (byte_of c) 192 =? 128)%N.

(** The code point of the surrogate at the head of [s], if there is one. *)
Definition surrogate_at (s : string) : option N :=
  match s with
  | String c1 (String c2 (String c3 _)) =>
      if ((byte_of c1 =? 237) && (160 <=? byte_of c2) && (byte_of c2 <=? 191)
          && is_continuation c3)%N
      then Some (55296 + (byte_of c2 - 160) * 64 + (byte_of c3 - 128))%N
      else None
  | _ => None
  end.

(** The number of surrogates in a row at the head of [s]. *)
Fixpoint surrogate_run (s : string) : nat :=
  match s with
  | String c1 (String c2 (String c3 s')) =>
      match surrogate_at (String c1 (String c2 (String c3 EmptyString))) with
      | Some _ => S (surrogate_run s')
      | None => O
      end
  | _ => O
  end.

(** The first surrogate of [s]: its position counted in characters from
    [pos], its code point and the length of its run. *)
Fixpoint first_surrogate (s : string) (pos : nat) : option (nat * N * nat) :=
  match s with
  | EmptyString => None
  | String c s' =>
      match surrogate_at s with
      | Some code => Some (pos, code, surrogate_run s)
      | None => first_surrogate s' (if is_continuation c then pos else S pos)
      end
  end.

Definition hex_digit (d : N) : ascii :=
  if (d <? 10)%N then ascii_of_N (48 + d) else ascii_of_N (87 + d).

(** [%04x] *)
Definition hex4 (n : N) : string :=
  String (hex_digit (n / 4096 mod 16))
    (String (hex_digit (n / 256 mod 16))
       (String (hex_digit (n / 16 mod 16))
          (String (hex_digit (n mod 16)) EmptyString))).

(** The exception of [text.encode('utf-8')], if it raises. *)
Definition utf8_error (text : string) : option exn :=
  match first_surrogate text 0 with
  | None => None
  | Some (pos, code, run) =>
      let start := str_int (Z.of_nat pos) in
      Some (UnicodeEncodeError
              (match run with
               | S O =>
                   "'utf-8' codec can't encode character '\u" ++ hex4 code
                   ++ "' in position " ++ start
               | _ =>
                   "'utf-8' codec can't encode characters in position "
                   ++ start ++ "-" ++ str_int (Z.of_nat (pos + run - 1))
               end ++ ": surrogates not allowed"))
  end.

(** The world with the node [n] at [path]. *)
Definition set_node (path : string) (n : node) (w : world) : world :=
  {| node_at := fun p => if String.eqb p path then Some n else node_at w p;
     readable := readable w; writable := writable w;
     cwd := cwd w; clock := clock w; stdout := stdout w |}.

(** The exception of [open(path, 'w')], if it raises. *)
Definition open_error (path : string) (w : world) : option exn :=
  match node_at w path with
  | Some Directory =>
      Some (OSError ("[Errno 21] Is a directory: '" ++ path ++ "'"))
  | _ =>
      if writable w path then None
      else Some (OSError ("[Errno 13] Permission denied: '" ++ path ++ "'"))
  end.

(** [with open(path, 'w', encoding='utf-8') as f: f.write(content)]: the
    exception raised, if any, and the world left.  Opening creates the
    file or empties it; a text that cannot be encoded is then not
    written, and the file stays empty. *)
Definition write_file (path content : string) (w : world)
  : option exn * world :=
  match open_error path w with
  | Some e => (Some e, w)
  | None =>
      match utf8_error content with
      | Some e => (Some e, set_node path (File EmptyString) w)
      | None => (None, set_node path (File content) w)
      end
  end.

(** [Path(p).absolute()]: the path itself when it has a root, the
    components of the working directory followed by its own otherwise. *)
Definition absolute (p : string) (w : world) : string :=
  let (root, cs) := parts p in
  if String.eqb root EmptyString then
    let (cwd_root, cwd_cs) := parts (cwd w) in
    format_parts cwd_root (cwd_cs ++ cs)
  else format_parts root cs.

Section Driver.

(** [json.loads] on the text of the input file. *)
Variable json_loads : string -> result json.

(** The loaded data on success, nothing and a message on failure. *)
Definition load_data (input_file : string) (w : world)
  : option json * world :=
  match (text <- read_file (path_str input_file) w ;; json_loads text) with
  | Ok data => (Some data, w)
  | Raise e => (None, print ("Error loading benchmark data: " ++ str_exn e) w)
  end.

Definition generate_report (input_file output_file : string) (w : world)
  : bool * world :=
  match load_data input_file w with
  | (None, w) => (false, w)
  | (Some data, w) =>
      match generate_html_report data input_file (clock w) with
      | Ok html_content =>
          match write_file (path_str output_file) html_content w with
          | (None, w) =>
              (true, print ("✅ 性能报告已生成: " ++ path_str output_file) w)
          | (Some e, w) =>
              (false, print ("❌ 生成报告失败: " ++ str_exn e) w)
          end
      | Raise e => (false, print ("❌ 生成报告失败: " ++ str_exn e) w)
      end
  end.

(** [main] after argument parsing; the result is the exit status. *)
Definition main (input output : string) (w : world) : Z * world :=
  match node_at w (path_str input) with
  | None =>
      (1, print "💡 请先运行基准测试生成结果文件"
            (print ("❌ 输入文件不存在: " ++ input) w))
  | Some _ =>
      match generate_report input output w with
      | (true, w) =>
          (0, print ("🌐 你可以在浏览器中打开报告: file://"
                     ++ absolute output w) w)
      | (false, w) => (1, w)
      end
  end.

End Driver.


(** * Vocabulary of the specification *)

(** [sub] occurs in [s] as a contiguous, case-sensitive run of characters. *)
Definition occurs_in (sub s : string) : Prop :=
  exists pre post, s = pre ++ sub ++ post.

(** A number that can be ordered: anything but a NaN. *)
Definition ordered (x : num) : Prop := num_value x <> Vnan.

(** The order [a <= b] that goes with a test [lt]: [b] is not less than
    [a]. *)
Definition le_of {A : Type} (lt : A -> A -> bool) (a b : A) : Prop :=
  lt b a = false.

Definition num_le : num -> num -> Prop := le_of num_ltb.

(** [f] applied to every element in turn, up to the first exception. *)
Fixpoint collect {A B : Type} (f : A -> result B) (l : list A)
  : result (list B) :=
  match l with
  | [] => Ok []
  | x :: l' => y <- f x ;; ys <- collect f l' ;; Ok (y :: ys)
  end.

(** The pieces of text one after the other. *)
Definition join (pieces : list string) : string :=
  fold_right append EmptyString pieces.

(** The markup one pass of the category loop adds to the document. *)
Definition section_of (item : string * list benchmark) : result string :=
  category_step (Ok EmptyString) item.

(** A category that has a section: one with at least one record. *)
Definition non_empty (item : string * list benchmark) : bool :=
  match snd item with
  | [] => false
  | _ :: _ => true
  end.

(** The row of a record when [shown] is put in the name cell. *)
Definition row_named (shown : string) (b : benchmark) : result string :=
  throughput <- throughput_of (get (items_per_second b) (PyInt 0)) ;;
  real <- format_time (real_time_of b) ;;
  cpu <- format_time (get (cpu_time b) (PyInt 0)) ;;
  Ok (table_row shown (time_class (real_time_of b)) real cpu
        (format_grouped (get (iterations b) 0)) throughput).

(** The record [b] with its [real_time] set to [t]. *)
Definition with_real_time (t : num) (b : benchmark) : benchmark :=
  {| name := name b; real_time := Some t; cpu_time := cpu_time b;
     iterations := iterations b; items_per_second := items_per_second b |}.

(** The order of the table: by [real_time], an absent one counting as 0. *)
Definition time_le (a b : benchmark) : Prop :=
  num_le (real_time_of a) (real_time_of b).

(** A float with sign bit [s] whose magnitude is below [2^K]: a zero, or
    a mantissa of at most [d] bits at an exponent [e] with [d + e <= K]. *)
Definition fits (K : Z) (s : bool) (f : spec_float) : Prop :=
  f = S754_zero s \/
  exists m e d,
    f = S754_finite s m e /\ 0 <= d /\ Zpos m < 2 ^ d /\ d + e <= K.

(** The unit and divisor of a duration of [x] nanoseconds, in the words
    of the specification: the tiers below a thousand, a million and a
    billion, and the last tier above. *)
Definition spec_tier (x : Q) : Z * string :=
  if Qltb x 1000 then (1, "ns")
  else if Qltb x 1000000 then (1000, "μs")
  else if Qltb x 1000000000 then (1000000, "ms")
  else (1000000000, "s").

(** [n] is the integer nearest to [v], the even one of the two when [v]
    is half way between them. *)
Definition nearest (n : Z) (v : Q) : Prop :=
  (Qabs (inject_Z n - v) <= 1 # 2)%Q /\
  ((Qabs (inject_Z n - v) == 1 # 2)%Q -> Z.even n = true).

(** A number in the range of a double: any [float] that is a valid
    binary64 value, and any [int] below [2^1024] in magnitude. *)
Definition representable (d : num) : Prop :=
  match d with
  | PyInt z => Z.abs z < 2 ^ 1024
  | PyFloat f => valid_binary prec emax f = true
  end.

(** The sign that [format] shows for the float negative zero. *)
Definition minus_zero (d : num) : string :=
  match d with
  | PyFloat (S754_zero true) => "-"
  | _ => EmptyString
  end.

Definition is_digit (c : ascii) : Prop :=
  exists k, 0 <= k <= 9 /\ c = digit_char k.

(** A non-empty run of decimal digits. *)
Definition digits_only (s : string) : Prop :=
  s <> EmptyString /\ Forall is_digit (list_ascii_of_string s).

(** The unit and divisor of a size of [x] bytes: the tiers below 1024,
    1024^2 and 1024^3, and the last tier above. *)
Definition spec_size_tier (x : Q) : Z * string :=
  if Qltb x 1024 then (1, "B")
  else if Qltb x 1048576 then (1024, "KB")
  else if Qltb x 1073741824 then (1048576, "MB")
  else (1073741824, "GB").

(** A finite number of magnitude below [2^1024]. *)
Definition in_range (d : num) : Prop :=
  match d with
  | PyInt z => Z.abs z < 2 ^ 1024
  | PyFloat f => exists s, fits 1024 s f
  end.

(** The text [s] is the number [y >= 0] shown with two decimals: the
    digits of the whole part, a point and two digits, which read as the
    hundredths nearest to [y]. *)
Definition shows_two_decimals (s : string) (y : Q) : Prop :=
  exists n : Z,
    (0 <= y)%Q /\ nearest n (100 * y) /\
    digits_only (decimal (n / 100)) /\
    s = decimal (n / 100) ++ "."
        ++ String (digit_char (n / 10 mod 10))
             (String (digit_char (n mod 10)) EmptyString).

(** A character run without a slash. *)
Definition no_slash (s : string) : Prop :=
  Forall (fun c => c <> "/"%char) (list_ascii_of_string s).

(** A file name: not empty, not the single dot, and without a slash. *)
Definition file_name (s : string) : Prop :=
  s <> EmptyString /\ s <> "." /\ no_slash s.

(** The same time: neither is less than the other. *)
Definition same_time (t : num) (b : benchmark) : bool :=
  negb (num_ltb (real_time_of b) t) && negb (num_ltb t (real_time_of b)).

(** A finite number of magnitude at most [2^1000]. *)
Definition moderate (x : num) : Prop :=
  exists v, num_value x = Vfin v /\ (Qabs v <= inject_Z (2 ^ 1000))%Q.

(** A record whose numbers, as the renderer reads them with their
    defaults, are moderate. *)
Definition sane (b : benchmark) : Prop :=
  moderate (real_time_of b) /\
  moderate (get (cpu_time b) (PyInt 0)) /\
  moderate (get (items_per_second b) (PyInt 0)).

(** An [int] that converts to [float]; no condition on a [float]. *)
Definition convertible (x : num) : Prop :=
  match x with
  | PyInt z => Z.abs z < 2 ^ 1023
  | PyFloat _ => True
  end.

(** The severity classes in order of gravity. *)
Definition severity_rank (class : string) : nat :=
  if String.eqb class "good" then 0
  else if String.eqb class "warning" then 1
  else 2.


(** The name cell of a row, as the page has it. *)
Definition name_cell (shown : string) : string :=
  q "<td class=`benchmark-name`>" ++ shown ++ "</td>".

(** The cell of the real time of a row: the formatted time under its
    severity class. *)
Definition time_cell (class text : string) : string :=
  q "<td class=`time-cell " ++ class ++ q "`>" ++ text ++ "</td>".

(** The order of the exact values, infinities included; a NaN is in no
    order with anything. *)
Definition value_le (u v : value) : Prop :=
  match u, v with
  | Vnan, _ | _, Vnan => False
  | Vneginf, _ | _, Vposinf => True
  | Vfin x, Vfin y => (x <= y)%Q
  | _, _ => False
  end.
(** * Properties *)

(** ** Containment *)

Lemma starts_with_iff (pat s : string) :
  starts_with pat s = true <-> exists post, s = pat ++ post.
Proof.
  revert s; induction pat as [|a pat IH]; intros s; simpl.
  - split; [intros _; now exists s | reflexivity].
  - destruct s as [|b s].
    + split; [discriminate | intros [post H]; discriminate].
    + rewrite andb_true_iff, Ascii.eqb_eq, IH. split.
      * intros [-> [post ->]]. now exists post.
      * intros [post H]. injection H as -> ->. split; [reflexivity | now exists post].
Qed.

Lemma contains_iff (pat s : string) :
  contains pat s = true <-> exists pre post, s = pre ++ pat ++ post.
Proof.
  induction s as [|b s IH]; simpl; rewrite orb_true_iff, starts_with_iff.
  - split.
    + intros [[post H] | H]; [|discriminate]. now exists EmptyString, post.
    + intros [pre [post H]]. left. destruct pre; [now exists post | discriminate].
  - rewrite IH. split.
    + intros [[post H] | [pre [post H]]].
      * now exists EmptyString, post.
      * exists (String b pre), post. simpl. now rewrite H.
    + intros [[|c pre] [post H]].
      * left. now exists post.
      * right. simpl in H. injection H as -> ->. now exists pre, post.
Qed.

(** ** Classifier *)

Lemma append_to_keys key b cats :
  map fst (append_to key b cats) = map fst cats.
Proof.
  induction cats as [|[k l] rest IH]; simpl; [reflexivity|].
  destruct (String.eqb k key); simpl; [reflexivity | now rewrite IH].
Qed.

Lemma lookup_append_to k key b cats :
  In key (map fst cats) ->
  lookup k (append_to key b cats) =
  if String.eqb key k then (lookup k cats ++ [b])%list else lookup k cats.
Proof.
  induction cats as [|[k' l] rest IH]; simpl; [tauto|].
  intros Hin.
  destruct (String.eqb k' key) eqn:Ekey; simpl.
  - apply String.eqb_eq in Ekey; subst k'.
    destruct (String.eqb key k); reflexivity.
  - destruct Hin as [-> | Hin]; [now rewrite String.eqb_refl in Ekey|].
    destruct (String.eqb k' k) eqn:Ek.
    + apply String.eqb_eq in Ek; subst k'.
      now rewrite String.eqb_sym, Ekey.
    + now apply IH.
Qed.

Lemma category_of_name_cases nm :
  In (category_of_name nm) ["Core"; "Network"; "Config"; "Memory"; "Other"].
Proof.
  unfold category_of_name.
  repeat match goal with |- context [if ?c then _ else _] => destruct c end;
    simpl; tauto.
Qed.

Lemma lookup_fold k bs : forall cats,
  map fst cats = ["Core"; "Network"; "Config"; "Memory"; "Other"] ->
  lookup k (fold_left categorize_step bs cats) =
  (lookup k cats ++ filter (fun b => String.eqb (category_of b) k) bs)%list.
Proof.
  induction bs as [|b bs IH]; intros cats Hk; simpl.
  - now rewrite app_nil_r.
  - unfold categorize_step at 2. rewrite IH by now rewrite append_to_keys.
    rewrite lookup_append_to
      by (rewrite Hk; apply category_of_name_cases).
    destruct (String.eqb (category_of b) k); [|reflexivity].
    now rewrite <- app_assoc.
Qed.

Lemma keys_fold bs : forall cats,
  map fst (fold_left categorize_step bs cats) = map fst cats.
Proof.
  induction bs as [|b bs IH]; intros cats; simpl; [reflexivity|].
  rewrite IH. apply append_to_keys.
Qed.

Lemma five_entries (cats : categories) :
  map fst cats = ["Core"; "Network"; "Config"; "Memory"; "Other"] ->
  cats = [("Core", lookup "Core" cats); ("Network", lookup "Network" cats);
          ("Config", lookup "Config" cats); ("Memory", lookup "Memory" cats);
          ("Other", lookup "Other" cats)].
Proof.
  destruct cats as [|[k1 l1] [|[k2 l2] [|[k3 l3] [|[k4 l4] [|[k5 l5] [|]]]]]];
    simpl; try discriminate.
  intros H; injection H as -> -> -> -> ->. reflexivity.
Qed.

Lemma partition_by_category (bs : list benchmark) :
  let part k := filter (fun b => String.eqb (category_of b) k) bs in
  Permutation
    (part "Core" ++ part "Network" ++ part "Config" ++ part "Memory"
       ++ part "Other")%list bs.
Proof.
  induction bs as [|b bs IH]; simpl; [constructor|].
  simpl in IH.
  pose proof (category_of_name_cases (get (name b) EmptyString)) as Hc.
  fold (category_of b) in Hc. simpl in Hc.
  destruct Hc as [E|[E|[E|[E|[E|[]]]]]]; rewrite <- E; simpl.
  - now constructor.
  - rewrite <- Permutation_middle. now constructor.
  - rewrite app_assoc, <- Permutation_middle, <- app_assoc. now constructor.
  - rewrite 2 app_assoc, <- Permutation_middle, <- 2 app_assoc. now constructor.
  - rewrite 3 app_assoc, <- Permutation_middle, <- 3 app_assoc. now constructor.
Qed.

Lemma lookup_categorize (data : document) (k : string) :
  lookup k (categorize_benchmarks data) =
  filter (fun b => String.eqb (category_of b) k) (get (benchmarks data) []).
Proof.
  unfold categorize_benchmarks.
  rewrite lookup_fold by reflexivity.
  destruct (lookup k empty_categories) eqn:E; [reflexivity|].
  exfalso. revert E. unfold empty_categories. simpl.
  repeat match goal with |- context [if ?c then _ else _] => destruct c end;
    discriminate.
Qed.

Lemma in_lookup_categorize (data : document) (b : benchmark) (k : string) :
  In b (lookup k (categorize_benchmarks data)) <->
  In b (get (benchmarks data) []) /\ k = category_of b.
Proof.
  rewrite lookup_categorize, filter_In, String.eqb_eq.
  split; intros [H1 H2]; split; congruence.
Qed.

(** C1.  The classifier returns the five categories in declaration order;
    the list filed under a category is exactly the input records whose rule
    selects that category, in input order; the five lists together hold
    every input record exactly once (as many times as it occurs in the
    input); and every input record is found under one category only. *)
Theorem categorize_benchmarks_partition (data : document) :
  let bs := get (benchmarks data) [] in
  let cats := categorize_benchmarks data in
  map fst cats = ["Core"; "Network"; "Config"; "Memory"; "Other"] /\
  (forall k,
      lookup k cats = filter (fun b => String.eqb (category_of b) k) bs) /\
  Permutation (List.concat (map snd cats)) bs /\
  (forall b k, In b (lookup k cats) <-> In b bs /\ k = category_of b).
Proof.
  intros bs cats.
  assert (Hkeys : map fst cats = ["Core"; "Network"; "Config"; "Memory"; "Other"])
    by (unfold cats, categorize_benchmarks; now rewrite keys_fold).
  split; [exact Hkeys|].
  split; [intros k; apply lookup_categorize|].
  split; [|intros b k; apply in_lookup_categorize].
  rewrite (five_entries cats Hkeys). simpl.
  unfold cats. rewrite !lookup_categorize, app_nil_r.
  apply partition_by_category.
Qed.

Lemma contains_occurs pat s : contains pat s = true <-> occurs_in pat s.
Proof. apply contains_iff. Qed.

Lemma contains_not_occurs pat s : contains pat s = false <-> ~ occurs_in pat s.
Proof.
  rewrite <- contains_occurs. destruct (contains pat s); split; congruence.
Qed.

(** C2.  The category of a record is decided by its name alone, by
    case-sensitive substring containment, the rules being tried in the
    order Core, Network, Config, Memory, Other with the first match
    winning; a record of the input is in the list of the category so
    decided and in the list of no other key.  The name
    BM_PlayerRegistry_Insert is Core, and so is every name that contains
    PlayerRegistry, whatever else (such as Config) it contains. *)
Theorem category_priority_order (b : benchmark) :
  let nm := get (name b) EmptyString in
  let core := occurs_in "PlayerRegistry" nm in
  let network := occurs_in "Protobuf" nm \/ occurs_in "Batch" nm
                 \/ occurs_in "Serialization" nm in
  let config := occurs_in "Config" nm in
  let memory := occurs_in "Memory" nm in
  (category_of b = "Core" <-> core) /\
  (category_of b = "Network" <-> ~ core /\ network) /\
  (category_of b = "Config" <-> ~ core /\ ~ network /\ config) /\
  (category_of b = "Memory" <-> ~ core /\ ~ network /\ ~ config /\ memory) /\
  (category_of b = "Other" <->
     ~ core /\ ~ network /\ ~ config /\ ~ memory) /\
  (forall data k,
      In b (lookup k (categorize_benchmarks data)) <->
      In b (get (benchmarks data) []) /\ k = category_of b) /\
  category_of_name "BM_PlayerRegistry_Insert" = "Core" /\
  category_of_name "BM_PlayerRegistry_Config_Insert" = "Core" /\
  category_of_name "BM_playerregistry_Insert" = "Other".
Proof.
  intros nm core network config memory.
  assert (Hcore : contains "PlayerRegistry" nm = true <-> core)
    by apply contains_occurs.
  assert (Hnet : contains "Protobuf" nm || contains "Batch" nm
                 || contains "Serialization" nm = true <-> network).
  { unfold network. rewrite !orb_true_iff, !contains_occurs. tauto. }
  assert (Hconf : contains "Config" nm = true <-> config)
    by apply contains_occurs.
  assert (Hmem : contains "Memory" nm = true <-> memory)
    by apply contains_occurs.
  assert (Hfiled : forall data k,
             In b (lookup k (categorize_benchmarks data)) <->
             In b (get (benchmarks data) []) /\ k = category_of b)
    by (intros data k; apply in_lookup_categorize).
  unfold category_of in *. fold nm in Hfiled |- *.
  unfold category_of_name in *.
  destruct (contains "PlayerRegistry" nm);
    destruct (contains "Protobuf" nm || contains "Batch" nm
              || contains "Serialization" nm);
    destruct (contains "Config" nm);
    destruct (contains "Memory" nm);
    (split; [|split; [|split; [|split; [|split; [|split; [exact Hfiled|]]]]]]);
    try (repeat split; reflexivity);
    (split; [try discriminate | intros; try reflexivity]);
    intuition discriminate.
Qed.

(** ** The order on numbers *)

Lemma Qltb_true p q : Qltb p q = true <-> (p < q)%Q.
Proof.
  unfold Qltb. rewrite Qlt_alt. destruct (p ?= q)%Q; split; congruence.
Qed.

Lemma Qltb_false p q : Qltb p q = false <-> (q <= p)%Q.
Proof.
  rewrite <- not_true_iff_false, Qltb_true. split.
  - apply Qnot_lt_le.
  - apply Qle_not_lt.
Qed.

Lemma value_ltb_asym u v : value_ltb u v = true -> value_ltb v u = false.
Proof.
  destruct u, v; simpl; try congruence.
  rewrite Qltb_true, Qltb_false. apply Qlt_le_weak.
Qed.

Lemma value_le_trans u v w :
  v <> Vnan ->
  value_ltb v u = false -> value_ltb w v = false -> value_ltb w u = false.
Proof.
  destruct u, v, w; simpl; try congruence.
  rewrite !Qltb_false. intros _ H1 H2. eapply Qle_trans; eassumption.
Qed.

Lemma value_le_total u v :
  u <> Vnan -> v <> Vnan -> value_ltb u v = false -> value_ltb v u = false ->
  match u, v with
  | Vfin p, Vfin q => (p == q)%Q
  | Vneginf, Vneginf | Vposinf, Vposinf => True
  | _, _ => False
  end.
Proof.
  destruct u, v; simpl; try congruence; try tauto.
  rewrite !Qltb_false. intros _ _ H1 H2. now apply Qle_antisym.
Qed.

Lemma num_ltb_asym a b : num_ltb a b = true -> num_ltb b a = false.
Proof. apply value_ltb_asym. Qed.

Lemma num_le_trans a b c :
  ordered b -> num_le a b -> num_le b c -> num_le a c.
Proof.
  unfold num_le, le_of, num_ltb. intros Hb H1 H2.
  eapply value_le_trans; eassumption.
Qed.

Lemma num_le_refl a : num_le a a.
Proof.
  unfold num_le, le_of, num_ltb.
  destruct (num_value a); simpl; try reflexivity.
  apply Qltb_false, Qle_refl.
Qed.

(** ** Sorting *)

Section Sorting.

Context {A : Type}.
Variable lt : A -> A -> bool.
Variable P : A -> Prop.

Local Abbreviation le := (le_of lt).

Hypothesis lt_asym : forall a b, lt a b = true -> lt b a = false.
Hypothesis le_trans :
  forall a b c, P b -> le a b -> le b c -> le a c.

Lemma insert_perm x l : Permutation (insert lt x l) (x :: l).
Proof.
  induction l as [|y l IH]; simpl; [reflexivity|].
  destruct (lt x y); [reflexivity|].
  rewrite IH. apply perm_swap.
Qed.

Lemma sorted_from_perm l : forall acc,
  Permutation (fold_left (fun acc x => insert lt x acc) l acc) (acc ++ l)%list.
Proof.
  induction l as [|x l IH]; intros acc; simpl.
  - now rewrite app_nil_r.
  - rewrite IH, insert_perm. apply Permutation_middle.
Qed.

Lemma stable_sort_perm l : Permutation (stable_sort lt l) l.
Proof. apply (sorted_from_perm l []). Qed.

Lemma binary_insert_perm run x : Permutation (binary_insert lt run x) (x :: run).
Proof.
  unfold binary_insert.
  set (k := bisect lt x run 0 (List.length run) (List.length run)).
  rewrite <- (firstn_skipn k run) at 3. symmetry. apply Permutation_middle.
Qed.

Lemma binarysort_perm rest : forall run,
  Permutation (binarysort lt run rest) (run ++ rest)%list.
Proof.
  unfold binarysort.
  induction rest as [|x rest IH]; intros run; cbn [fold_left].
  - now rewrite app_nil_r.
  - rewrite IH, binary_insert_perm. apply Permutation_middle.
Qed.

Lemma sorted_perm l : Permutation (sorted lt l) l.
Proof.
  unfold sorted. destruct (List.length l <? 64)%nat; [|apply stable_sort_perm].
  destruct (count_run lt l) as [n descending].
  rewrite binarysort_perm.
  transitivity (firstn n l ++ skipn n l)%list; [|now rewrite firstn_skipn].
  apply Permutation_app_tail.
  destruct descending; [symmetry; apply Permutation_rev | reflexivity].
Qed.

Lemma insert_sorted x l :
  Forall P l -> StronglySorted le l -> StronglySorted le (insert lt x l).
Proof.
  unfold le_of in *.
  induction l as [|y l IH]; simpl; intros HP Hs.
  - repeat constructor.
  - inversion Hs as [|? ? Hl Hy]; subst.
    inversion HP as [|? ? Py Pl]; subst.
    destruct (lt x y) eqn:E.
    + constructor; [assumption|].
      constructor; [now apply lt_asym|].
      rewrite Forall_forall in Hy |- *. intros z Hz.
      apply (le_trans x y z Py); [now apply lt_asym | now apply Hy].
    + constructor; [now apply IH|].
      rewrite Forall_forall in Hy |- *. intros z Hz.
      apply (Permutation_in _ (insert_perm x l)) in Hz.
      destruct Hz as [<- | Hz]; [exact E | now apply Hy].
Qed.

Lemma sorted_from_sorted l : forall acc,
  Forall P acc -> Forall P l -> StronglySorted le acc ->
  StronglySorted le (fold_left (fun acc x => insert lt x acc) l acc).
Proof.
  induction l as [|x l IH]; intros acc Pacc Pl Hs; simpl; [assumption|].
  inversion Pl as [|? ? Px Pl']; subst.
  apply IH; [|assumption|now apply insert_sorted].
  rewrite Forall_forall in Pacc |- *. intros z Hz.
  apply (Permutation_in _ (insert_perm x acc)) in Hz.
  destruct Hz as [<- | Hz]; [exact Px | now apply Pacc].
Qed.

Lemma stable_sort_sorted l :
  Forall P l -> StronglySorted le (stable_sort lt l).
Proof.
  intros Pl. apply sorted_from_sorted; [constructor | assumption | constructor].
Qed.

Lemma lt_irrefl a : lt a a = false.
Proof.
  destruct (lt a a) eqn:E; [|reflexivity].
  pose proof (lt_asym a a E). congruence.
Qed.

(** Where [insert] puts an element of a list cut at the right place. *)
Lemma insert_at x pre post :
  Forall (fun y => lt x y = false) pre ->
  Forall (fun y => lt x y = true) post ->
  insert lt x (pre ++ post) = (pre ++ x :: post)%list.
Proof.
  intros Hpre Hpost. induction Hpre as [|y pre Hy _ IH]; cbn [List.app insert].
  - destruct Hpost as [|y post Hy _]; [reflexivity|].
    cbn [insert]. now rewrite Hy.
  - now rewrite Hy, IH.
Qed.

(** In a sorted list the elements greater than [x] are at the end. *)
Lemma sorted_cut x l :
  Forall P l -> StronglySorted le l ->
  exists pre post, l = (pre ++ post)%list /\
    Forall (fun y => lt x y = false) pre /\
    Forall (fun y => lt x y = true) post.
Proof.
  intros HP Hs. induction Hs as [|y l Hs IH Hy].
  - exists [], []. repeat split; constructor.
  - inversion HP as [|? ? Py Pl]; subst.
    destruct (lt x y) eqn:E.
    + exists [], (y :: l). repeat split; [constructor|].
      constructor; [exact E|].
      rewrite Forall_forall in Hy, Pl |- *. intros z Hz.
      destruct (lt x z) eqn:Ez; [reflexivity|].
      assert (Hyx : le y x) by (apply (le_trans y z x); auto).
      unfold le_of in Hyx. congruence.
    + destruct (IH Pl) as [pre [post [-> [Hpre Hpost]]]].
      exists (y :: pre), post. repeat split; [|assumption].
      now constructor.
Qed.

(** The search ends at the cut. *)
Lemma bisect_cut x pre post : forall fuel l r,
  Forall (fun y => lt x y = false) pre ->
  Forall (fun y => lt x y = true) post ->
  (l <= List.length pre <= r)%nat ->
  (r <= List.length (pre ++ post))%nat -> (r - l <= fuel)%nat ->
  bisect lt x (pre ++ post)%list l r fuel = List.length pre.
Proof.
  intros fuel. induction fuel as [|fuel IH]; intros l r Hpre Hpost Hb Hr Hf;
    cbn [bisect].
  - lia.
  - destruct (Nat.ltb_spec l r) as [Hlt|Hge]; [|lia].
    set (p := (l + (r - l) / 2)%nat).
    assert (Hp : (l <= p < r)%nat).
    { unfold p. split; [lia|].
      assert ((r - l) / 2 < r - l)%nat by (apply Nat.div_lt; lia). lia. }
    assert (Hp' : ((r - l) / 2 = p - l)%nat) by (unfold p; lia).
    rewrite length_app in Hr.
    destruct (Nat.lt_ge_cases p (List.length pre)) as [Hin|Hout].
    + rewrite app_nth1 by assumption.
      rewrite Forall_forall in Hpre.
      rewrite (Hpre (nth p pre x)) by (now apply nth_In).
      apply IH; try assumption; try lia.
      * now apply Forall_forall.
      * rewrite length_app. lia.
    + rewrite app_nth2 by assumption.
      rewrite Forall_forall in Hpost.
      rewrite (Hpost (nth (p - List.length pre) post x))
        by (apply nth_In; lia).
      apply IH; try assumption; try lia.
      * now apply Forall_forall.
      * rewrite length_app. lia.
Qed.

Lemma binary_insert_insert x run :
  Forall P run -> StronglySorted le run ->
  binary_insert lt run x = insert lt x run.
Proof.
  intros HP Hs.
  destruct (sorted_cut x run HP Hs) as [pre [post [-> [Hpre Hpost]]]].
  unfold binary_insert.
  rewrite bisect_cut; try assumption; try lia.
  - rewrite firstn_app, firstn_all, Nat.sub_diag, firstn_O, app_nil_r.
    rewrite skipn_app, skipn_all, Nat.sub_diag, skipn_O.
    symmetry. now apply insert_at.
  - rewrite length_app. lia.
Qed.

Lemma binarysort_insert rest : forall run,
  Forall P run -> Forall P rest -> StronglySorted le run ->
  binarysort lt run rest = fold_left (fun acc x => insert lt x acc) rest run.
Proof.
  unfold binarysort.
  induction rest as [|x rest IH]; intros run Prun Prest Hs; cbn [fold_left];
    [reflexivity|].
  inversion Prest as [|? ? Px Prest']; subst.
  rewrite binary_insert_insert by assumption.
  apply IH; [|assumption|now apply insert_sorted].
  rewrite Forall_forall in Prun |- *. intros z Hz.
  apply (Permutation_in _ (insert_perm x run)) in Hz.
  destruct Hz as [<- | Hz]; [exact Px | now apply Prun].
Qed.

(** A run that does not descend is sorted already. *)
Lemma ascending_run_sorted l : forall prev acc,
  P prev -> Forall P l ->
  Forall (fun a => lt prev a = false) acc ->
  fold_left (fun acc x => insert lt x acc)
    (firstn (ascending_run lt prev l) l) acc
  = (acc ++ firstn (ascending_run lt prev l) l)%list.
Proof.
  induction l as [|x l IH]; intros prev acc Pprev Pl Hacc;
    cbn [ascending_run].
  - cbn [firstn fold_left]. now rewrite app_nil_r.
  - inversion Pl as [|? ? Px Pl']; subst.
    destruct (lt x prev) eqn:E.
    + cbn [firstn fold_left]. now rewrite app_nil_r.
    + cbn [firstn fold_left].
      assert (Hx : Forall (fun a => lt x a = false) acc).
      { rewrite Forall_forall in Hacc |- *. intros a Ha.
        apply (le_trans a prev x Pprev); [now apply Hacc | exact E]. }
      rewrite <- (app_nil_r acc) at 1.
      rewrite (insert_at x acc [] Hx) by constructor.
      rewrite IH; try assumption.
      * now rewrite <- app_assoc.
      * apply Forall_app. split; [exact Hx|].
        constructor; [apply lt_irrefl | constructor].
Qed.

(** A run that descends strictly is sorted by reversing it. *)
Lemma descending_run_sorted l : forall prev acc,
  fold_left (fun acc x => insert lt x acc)
    (firstn (descending_run lt prev l) l) (prev :: acc)
  = (List.rev (firstn (descending_run lt prev l) l) ++ prev :: acc)%list.
Proof.
  induction l as [|x l IH]; intros prev acc; cbn [descending_run];
    [reflexivity|].
  destruct (lt x prev) eqn:E; [|reflexivity].
  cbn [firstn fold_left insert]. rewrite E, IH.
  cbn [List.rev]. now rewrite <- app_assoc.
Qed.

(** The run at the head, put in ascending order, is the stable sort of
    its elements. *)
Lemma count_run_sorted l n descending :
  Forall P l -> count_run lt l = (n, descending) ->
  (if descending then List.rev (firstn n l) else firstn n l)
  = stable_sort lt (firstn n l).
Proof.
  intros Pl Hrun. unfold stable_sort.
  destruct l as [|x [|y l]]; cbn [count_run] in Hrun.
  - injection Hrun as <- <-. reflexivity.
  - injection Hrun as <- <-. reflexivity.
  - inversion Pl as [|? ? Px Pl']; subst.
    inversion Pl' as [|? ? Py Pl'']; subst.
    destruct (lt y x) eqn:E; injection Hrun as <- <-.
    + cbn [Nat.add firstn fold_left insert]. rewrite E.
      rewrite descending_run_sorted.
      cbn [List.rev]. now rewrite <- !app_assoc.
    + cbn [Nat.add firstn fold_left insert]. rewrite E.
      rewrite ascending_run_sorted; try assumption; [reflexivity|].
      constructor; [exact E|]. constructor; [apply lt_irrefl | constructor].
Qed.

(** On keys that [<] orders, [sorted] is the stable sort. *)
Lemma sorted_stable l : Forall P l -> sorted lt l = stable_sort lt l.
Proof.
  intros Pl. unfold sorted.
  destruct (List.length l <? 64)%nat; [|reflexivity].
  destruct (count_run lt l) as [n descending] eqn:Hrun.
  rewrite (count_run_sorted l n descending Pl Hrun).
  assert (Pfs : Forall P (firstn n l ++ skipn n l)%list)
    by now rewrite firstn_skipn.
  apply Forall_app in Pfs. destruct Pfs as [Pf Ps].
  rewrite binarysort_insert.
  - unfold stable_sort. rewrite <- fold_left_app. now rewrite firstn_skipn.
  - rewrite Forall_forall in Pf |- *. intros z Hz. apply Pf.
    eapply Permutation_in; [apply stable_sort_perm | exact Hz].
  - exact Ps.
  - now apply stable_sort_sorted.
Qed.

Lemma sorted_sorted l : Forall P l -> StronglySorted le (sorted lt l).
Proof.
  intros Pl. rewrite sorted_stable by assumption.
  now apply stable_sort_sorted.
Qed.

End Sorting.

Lemma sorted_length {A : Type} (lt : A -> A -> bool) (l : list A) :
  List.length (sorted lt l) = List.length l.
Proof. apply Permutation_length, sorted_perm. Qed.


(** ** The renderer only appends *)

Lemma ok_inj {A : Type} (a b : A) : Ok a = Ok b -> a = b.
Proof. now intros [= ->]. Qed.

Lemma append_assoc (a b c : string) : (a ++ b) ++ c = a ++ b ++ c.
Proof. induction a as [|x a IH]; simpl; [reflexivity | now rewrite IH]. Qed.

Lemma append_nil_r (a : string) : a ++ EmptyString = a.
Proof. induction a as [|x a IH]; simpl; [reflexivity | now rewrite IH]. Qed.

Lemma bind_assoc {A B C : Type} (r : result A) (f : A -> result B)
  (g : B -> result C) :
  (y <- (x <- r ;; f x) ;; g y) = (x <- r ;; y <- f x ;; g y).
Proof. now destruct r. Qed.

Lemma fold_raise {A : Type} (step : result string -> A -> result string)
  (Hstep : forall e a, step (Raise e) a = Raise e) (e : exn) (l : list A) :
  fold_left step l (Raise e) = Raise e.
Proof. induction l as [|a l IH]; simpl; [reflexivity | now rewrite Hstep]. Qed.

Lemma fold_append {A : Type} (step : result string -> A -> result string)
  (piece : A -> result string)
  (Hraise : forall e a, step (Raise e) a = Raise e)
  (Hstep : forall h a, step (Ok h) a = (s <- piece a ;; Ok (h ++ s)))
  (l : list A) : forall h,
  fold_left step l (Ok h) = (ss <- collect piece l ;; Ok (h ++ join ss)).
Proof.
  induction l as [|a l IH]; intros h; simpl.
  - now rewrite append_nil_r.
  - rewrite Hstep. destruct (piece a) as [s|e]; simpl.
    + rewrite IH. destruct (collect piece l) as [ss|e]; simpl; [|reflexivity].
      now rewrite append_assoc.
    + now apply fold_raise.
Qed.

Lemma rows_fold (l : list benchmark) (h : string) :
  fold_left row_step l (Ok h) =
  (rows <- collect render_row l ;; Ok (h ++ join rows)).
Proof. apply fold_append; reflexivity. Qed.

(** One pass of the category loop, as the text it adds. *)
Lemma section_of_eq (category_name : string) (bs : list benchmark) :
  section_of (category_name, bs) =
  match bs with
  | [] => Ok EmptyString
  | _ :: _ =>
      stats <- generate_summary_stats bs ;;
      match stats with
      | None => Raise (KeyError "'count'")
      | Some stats =>
          avg <- format_time (avg_time stats) ;;
          fastest <- format_time (min_time stats) ;;
          slowest <- format_time (max_time stats) ;;
          rows <- collect render_row (sorted_by_time bs) ;;
          Ok (section_header category_name (str_int (count stats))
                avg fastest slowest
              ++ join rows ++ section_footer)
      end
  end.
Proof.
  unfold section_of, category_step. cbn [bind].
  destruct bs as [|b bs]; [reflexivity|].
  destruct (generate_summary_stats (b :: bs)) as [[st|]|e]; cbn [bind];
    try reflexivity.
  destruct (format_time (avg_time st)); cbn [bind]; [|reflexivity].
  destruct (format_time (min_time st)); cbn [bind]; [|reflexivity].
  destruct (format_time (max_time st)); cbn [bind]; [|reflexivity].
  rewrite rows_fold.
  destruct (collect render_row (sorted_by_time (b :: bs))); cbn [bind];
    [|reflexivity].
  cbn [append]. now rewrite append_assoc.
Qed.

Lemma category_step_append (h : string) (item : string * list benchmark) :
  category_step (Ok h) item = (s <- section_of item ;; Ok (h ++ s)).
Proof.
  destruct item as [category_name bs].
  rewrite section_of_eq. unfold category_step. cbn [bind].
  destruct bs as [|b bs]; cbn [bind]; [now rewrite append_nil_r|].
  destruct (generate_summary_stats (b :: bs)) as [[st|]|e]; cbn [bind];
    try reflexivity.
  destruct (format_time (avg_time st)); cbn [bind]; [|reflexivity].
  destruct (format_time (min_time st)); cbn [bind]; [|reflexivity].
  destruct (format_time (max_time st)); cbn [bind]; [|reflexivity].
  rewrite rows_fold.
  destruct (collect render_row (sorted_by_time (b :: bs))); cbn [bind];
    [|reflexivity].
  now rewrite !append_assoc.
Qed.

Lemma categories_fold (cats : categories) (h : string) :
  fold_left category_step cats (Ok h) =
  (ss <- collect section_of cats ;; Ok (h ++ join ss)).
Proof. apply fold_append; [reflexivity | intros; apply category_step_append]. Qed.

Lemma section_of_empty (category_name : string) :
  section_of (category_name, []) = Ok EmptyString.
Proof. reflexivity. Qed.

(** Empty categories add nothing: the sections are those of the
    categories that have records. *)
Lemma collect_sections_non_empty (cats : categories) :
  (ss <- collect section_of cats ;; Ok (join ss)) =
  (ss <- collect section_of (filter non_empty cats) ;; Ok (join ss)).
Proof.
  induction cats as [|[k bs] cats IH]; [reflexivity|].
  destruct bs as [|b bs].
  - cbn [filter non_empty snd collect]. rewrite section_of_empty.
    cbn [bind]. rewrite <- IH.
    destruct (collect section_of cats); reflexivity.
  - cbn [filter non_empty snd collect].
    destruct (section_of (k, b :: bs)) as [s|e]; cbn [bind]; [|reflexivity].
    destruct (collect section_of cats) as [ss|e];
      destruct (collect section_of (filter non_empty cats)) as [ss'|e'];
      cbn [bind] in *; try congruence.
    injection IH as IH. unfold join in *. cbn [fold_right]. now rewrite IH.
Qed.

Lemma generate_html_report_sections (d : document) (input_file now : string) :
  generate_html_report (JObject d) input_file now =
  if truthy (JObject d) then
    sections <- collect section_of
                  (filter non_empty (categorize_benchmarks d)) ;;
    Ok (overview d now ++ join sections ++ page_footer (path_name input_file))
  else Ok no_data_page.
Proof.
  unfold generate_html_report.
  destruct (truthy (JObject d)); cbn [negb]; [|reflexivity].
  rewrite categories_fold, bind_assoc.
  pose proof (collect_sections_non_empty (categorize_benchmarks d)) as H.
  destruct (collect section_of (categorize_benchmarks d)) as [ss|e];
    destruct (collect section_of (filter non_empty (categorize_benchmarks d)))
      as [ss'|e']; cbn [bind] in *; try congruence.
  injection H as H. now rewrite append_assoc, H.
Qed.

(** C6.  The summary of an empty record sequence is the empty summary; a
    pass of the category loop over an empty category leaves the document
    as it was; and the document of a loaded object is the overview, then
    one section for each category that has records and for no other, in
    category order, then the footer. *)
Theorem empty_categories_are_skipped :
  generate_summary_stats [] = Ok None /\
  (forall html category_name,
      category_step html (category_name, []) = html) /\
  (forall category_name, section_of (category_name, []) = Ok EmptyString) /\
  (forall d input_file now,
      generate_html_report (JObject d) input_file now =
      if truthy (JObject d) then
        sections <- collect section_of
                      (filter non_empty (categorize_benchmarks d)) ;;
        Ok (overview d now ++ join sections
            ++ page_footer (path_name input_file))
      else Ok no_data_page).
Proof.
  split; [reflexivity|].
  split; [intros [h|e] category_name; reflexivity|].
  split; [reflexivity|].
  apply generate_html_report_sections.
Qed.

Lemma overview_timestamp (d : document) :
  exists pre post, forall now, overview d now = pre ++ now ++ post.
Proof.
  unfold overview, page_header. eexists. eexists. intros now. reflexivity.
Qed.

(** C9.  For fixed loaded data and input path the outcome of rendering
    either does not depend on the timestamp at all (the page without data,
    or an exception), or is one fixed text before the timestamp and one
    fixed text after it; so two renders differ in the timestamp field
    only, and are equal when the timestamps are. *)
Theorem rendering_is_deterministic (data : json) (input_file : string) :
  (exists outcome,
      forall now, generate_html_report data input_file now = outcome) \/
  (exists pre post,
      forall now,
        generate_html_report data input_file now = Ok (pre ++ now ++ post)).
Proof.
  destruct data as [d|type_name truth].
  - destruct (truthy (JObject d)) eqn:Ht.
    + destruct (collect section_of
                  (filter non_empty (categorize_benchmarks d))) as [ss|e] eqn:Es.
      * right. destruct (overview_timestamp d) as [pre [post Hov]].
        exists pre, (post ++ join ss ++ page_footer (path_name input_file)).
        intros now. rewrite generate_html_report_sections, Ht, Es.
        cbn [bind]. now rewrite Hov, !append_assoc.
      * left. exists (Raise e). intros now.
        now rewrite generate_html_report_sections, Ht, Es.
    + left. exists (Ok no_data_page). intros now.
      now rewrite generate_html_report_sections, Ht.
  - left. unfold generate_html_report. cbn [truthy].
    destruct truth; cbn [negb]; eexists; intros now; reflexivity.
Qed.

(** ** Driver *)

Lemma load_data_failure json_loads input_file w e :
  (text <- read_file (path_str input_file) w ;; json_loads text) = Raise e ->
  load_data json_loads input_file w =
  (None, print ("Error loading benchmark data: " ++ str_exn e) w).
Proof. unfold load_data. now intros ->. Qed.

(** C5.  When the input path does not exist, [main] prints two lines of
    failure and returns 1; when the input exists but reading or parsing it
    raises, [generate_report] prints the error and returns [False], and
    [main] returns 1.  In both cases every path of the file system holds
    what it held before: the output is neither created nor overwritten. *)
Theorem load_failure_writes_nothing
  (json_loads : string -> result json) (input output : string) (w : world) :
  (node_at w (path_str input) = None ->
   main json_loads input output w =
   (1, print "💡 请先运行基准测试生成结果文件"
         (print ("❌ 输入文件不存在: " ++ input) w))) /\
  (forall e,
      (text <- read_file (path_str input) w ;; json_loads text) = Raise e ->
      generate_report json_loads input output w =
      (false, print ("Error loading benchmark data: " ++ str_exn e) w) /\
      (node_at w (path_str input) <> None ->
       main json_loads input output w =
       (1, print ("Error loading benchmark data: " ++ str_exn e) w))) /\
  (node_at w (path_str input) = None \/
   (exists e, (text <- read_file (path_str input) w ;; json_loads text) = Raise e) ->
   let (status, w') := main json_loads input output w in
   status = 1 /\
   (forall path, node_at w' path = node_at w path) /\
   exists lines, lines <> [] /\ stdout w' = (stdout w ++ lines)%list).
Proof.
  assert (Hmissing : node_at w (path_str input) = None ->
            main json_loads input output w =
            (1, print "💡 请先运行基准测试生成结果文件"
                  (print ("❌ 输入文件不存在: " ++ input) w))).
  { unfold main. now intros ->. }
  assert (Hload : forall e,
            (text <- read_file (path_str input) w ;; json_loads text) = Raise e ->
            generate_report json_loads input output w =
            (false, print ("Error loading benchmark data: " ++ str_exn e) w)).
  { intros e He. unfold generate_report.
    now rewrite (load_data_failure _ _ _ _ He). }
  assert (Hmain : forall e,
            (text <- read_file (path_str input) w ;; json_loads text) = Raise e ->
            node_at w (path_str input) <> None ->
            main json_loads input output w =
            (1, print ("Error loading benchmark data: " ++ str_exn e) w)).
  { intros e He Hex. unfold main.
    destruct (node_at w (path_str input)); [|congruence]. now rewrite (Hload e He). }
  split; [exact Hmissing|].
  split; [intros e He; split; [now apply Hload | now apply Hmain]|].
  intros H.
  destruct (node_at w (path_str input)) as [n|] eqn:Hn.
  - destruct H as [H | [e He]]; [discriminate|].
    rewrite (Hmain e He) by congruence.
    split; [reflexivity|]. split; [reflexivity|].
    eexists. split; [|reflexivity]. discriminate.
  - rewrite Hmissing by reflexivity.
    split; [reflexivity|]. split; [reflexivity|].
    exists ["❌ 输入文件不存在: " ++ input; "💡 请先运行基准测试生成结果文件"].
    split; [discriminate|]. cbn [print stdout]. now rewrite <- app_assoc.
Qed.

(** An input that is missing, and one that exists and does not parse. *)
Lemma load_failure_writes_nothing_witness :
  let json_loads := fun _ : string =>
    @Raise json (JSONDecodeError "Expecting value: line 1 column 1 (char 0)") in
  let disk := fun p : string =>
    if String.eqb p "results.json" then Some (File "not json") else None in
  let w := {| node_at := disk; readable := fun _ => true;
              writable := fun _ => true; cwd := "/tmp";
              clock := "2025-01-01 00:00:00"; stdout := [] |} in
  (fst (main json_loads "benchmark_results.json" "performance_report.html" w)
   = 1 /\
   node_at (snd (main json_loads "benchmark_results.json"
                   "performance_report.html" w)) "performance_report.html"
   = None) /\
  (fst (main json_loads "results.json" "performance_report.html" w) = 1 /\
   node_at (snd (main json_loads "results.json" "performance_report.html" w))
     "performance_report.html" = None).
Proof.
  intros json_loads disk w. split.
  - destruct (load_failure_writes_nothing json_loads "benchmark_results.json"
                "performance_report.html" w) as [H _].
    rewrite H by reflexivity. split; reflexivity.
  - destruct (load_failure_writes_nothing json_loads "results.json"
                "performance_report.html" w) as [_ [H _]].
    destruct (H (JSONDecodeError "Expecting value: line 1 column 1 (char 0)")
                eq_refl) as [_ Hm].
    rewrite Hm by discriminate. split; reflexivity.
Defined.

(** ** Table rows *)

Lemma render_row_named (b : benchmark) :
  render_row b = row_named (get (name b) "Unknown") b.
Proof. reflexivity. Qed.

Lemma num_ltb_int_true (t : num) (x : Q) (k : Z) :
  num_value t = Vfin x -> (num_ltb t (PyInt k) = true <-> (x < inject_Z k)%Q).
Proof. unfold num_ltb. intros ->. cbn [num_value value_ltb]. apply Qltb_true. Qed.

Lemma num_ltb_int_false (t : num) (x : Q) (k : Z) :
  num_value t = Vfin x -> (num_ltb t (PyInt k) = false <-> (inject_Z k <= x)%Q).
Proof. unfold num_ltb. intros ->. cbn [num_value value_ltb]. apply Qltb_false. Qed.

Lemma num_le_finite (a b : num) (x y : Q) :
  num_value a = Vfin x -> num_value b = Vfin y -> (num_le a b <-> (x <= y)%Q).
Proof.
  unfold num_le, le_of, num_ltb. intros -> ->. cbn [value_ltb].
  apply Qltb_false.
Qed.

Lemma sorted_by_time_perm (bs : list benchmark) :
  Permutation (sorted_by_time bs) bs.
Proof. apply sorted_perm. Qed.

Lemma sorted_by_time_sorted (bs : list benchmark) :
  Forall (fun b => ordered (real_time_of b)) bs ->
  StronglySorted time_le (sorted_by_time bs).
Proof.
  intros H. unfold sorted_by_time.
  apply (sorted_sorted _ (fun b => ordered (real_time_of b))); [| |exact H].
  - intros a b. apply num_ltb_asym.
  - intros a b c Hb. unfold le_of. apply num_le_trans. exact Hb.
Qed.

(** Without a NaN among the times the table is the stable sort. *)
Lemma sorted_by_time_stable (bs : list benchmark) :
  Forall (fun b => ordered (real_time_of b)) bs ->
  sorted_by_time bs
  = stable_sort (fun a b => num_ltb (real_time_of a) (real_time_of b)) bs.
Proof.
  intros H. unfold sorted_by_time.
  apply (sorted_stable _ (fun b => ordered (real_time_of b))); [| |exact H].
  - intros a b. apply num_ltb_asym.
  - intros a b c Hb. unfold le_of. apply num_le_trans. exact Hb.
Qed.

Lemma time_class_thresholds (t : num) (x : Q) :
  num_value t = Vfin x ->
  (time_class t = "good" <-> (x < 1000000)%Q) /\
  (time_class t = "warning" <-> (1000000 <= x < 10000000)%Q) /\
  (time_class t = "danger" <-> (10000000 <= x)%Q).
Proof.
  intros Hx. unfold time_class.
  pose proof (num_ltb_int_true t x 1000000 Hx) as T1.
  pose proof (num_ltb_int_false t x 1000000 Hx) as F1.
  pose proof (num_ltb_int_true t x 10000000 Hx) as T2.
  pose proof (num_ltb_int_false t x 10000000 Hx) as F2.
  change (inject_Z 1000000) with 1000000%Q in *.
  change (inject_Z 10000000) with 10000000%Q in *.
  assert (L : (1000000 < 10000000)%Q) by reflexivity.
  destruct (num_ltb t (PyInt 1000000)); destruct (num_ltb t (PyInt 10000000)).
  - pose proof (proj1 T1 eq_refl) as H1.
    repeat split; try discriminate; try tauto.
    + intros [H _]. exfalso. eapply Qlt_irrefl, Qlt_le_trans; eassumption.
    + intros H. exfalso. eapply Qlt_irrefl, Qlt_le_trans; [exact H1|].
      eapply Qle_trans; [apply Qlt_le_weak, L | exact H].
  - pose proof (proj1 T1 eq_refl) as H1.
    repeat split; try discriminate; try tauto.
    + intros [H _]. exfalso. eapply Qlt_irrefl, Qlt_le_trans; eassumption.
    + intros H. exfalso. eapply Qlt_irrefl, Qlt_le_trans; [exact H1|].
      eapply Qle_trans; [apply Qlt_le_weak, L | exact H].
  - pose proof (proj1 F1 eq_refl) as H1. pose proof (proj1 T2 eq_refl) as H2.
    repeat split; try discriminate; try tauto.
    + intros H. exfalso. eapply Qlt_irrefl, Qlt_le_trans; eassumption.
    + intros H. exfalso. eapply Qlt_irrefl, Qlt_le_trans; eassumption.
  - pose proof (proj1 F1 eq_refl) as H1. pose proof (proj1 F2 eq_refl) as H2.
    repeat split; try discriminate; try tauto.
    + intros H. exfalso. eapply Qlt_irrefl, Qlt_le_trans; eassumption.
    + intros [_ H]. exfalso. eapply Qlt_irrefl, Qlt_le_trans; eassumption.
Qed.

(** ** Absent fields *)

(** C8 is not what the program does for a name that is present and empty:
    such a record is filed under Other, but its row shows the empty name,
    not the default. *)
Lemma empty_name_is_shown_empty :
  let b := {| name := Some EmptyString; real_time := Some (PyInt 5);
              cpu_time := None; iterations := None;
              items_per_second := None |} in
  category_of b = "Other" /\
  render_row b =
    Ok (table_row EmptyString "good" "5.00 ns" "0.00 ns" "0" "N/A") /\
  render_row b <>
    Ok (table_row "Unknown" "good" "5.00 ns" "0.00 ns" "0" "N/A").
Proof.
  intros b. split; [reflexivity|]. split; [vm_compute; reflexivity|].
  vm_compute. discriminate.
Qed.

(** C8, amended.  A record whose name is absent is shown under the name
    Unknown, and a record whose name is absent or empty is filed under
    Other, neither being an error of classification; a name that is
    present is shown as it is, the empty one included. *)
Theorem absent_name_defaults (b : benchmark) :
  (name b = None ->
   render_row b = row_named "Unknown" b /\ category_of b = "Other") /\
  (name b = Some EmptyString ->
   render_row b = row_named EmptyString b /\ category_of b = "Other") /\
  (forall nm, name b = Some nm -> render_row b = row_named nm b) /\
  (forall data,
      name b = None \/ name b = Some EmptyString ->
      In b (get (benchmarks data) []) ->
      In b (lookup "Other" (categorize_benchmarks data))).
Proof.
  rewrite render_row_named. unfold category_of.
  split; [intros ->; split; reflexivity|].
  split; [intros ->; split; reflexivity|].
  split; [intros nm ->; reflexivity|].
  intros data H Hin. apply in_lookup_categorize. split; [exact Hin|].
  unfold category_of. destruct H as [-> | ->]; reflexivity.
Qed.

(** A record without a name, alone in its document. *)
Lemma absent_name_defaults_witness :
  let b := {| name := None; real_time := Some (PyInt 5); cpu_time := None;
              iterations := None; items_per_second := None |} in
  let data := {| benchmarks := Some [b]; context_info := None;
                 other_keys := false |} in
  (render_row b = row_named "Unknown" b /\ category_of b = "Other") /\
  In b (lookup "Other" (categorize_benchmarks data)).
Proof.
  intros b data.
  destruct (absent_name_defaults b) as [H1 [_ [_ H4]]].
  split; [apply H1; reflexivity|].
  apply H4; [left; reflexivity | left; reflexivity].
Defined.

Lemma strongly_sorted_before {A : Type} (R : A -> A -> Prop)
  (pre post : list A) (b : A) :
  StronglySorted R (pre ++ b :: post)%list -> Forall (fun c => R c b) pre.
Proof.
  induction pre as [|c pre IH]; cbn [app]; intros H; [constructor|].
  inversion H as [|? ? Hs Hall]; subst.
  constructor; [|now apply IH].
  rewrite Forall_forall in Hall. apply Hall, in_elt.
Qed.

Lemma format_time_zero : format_time (PyInt 0) = Ok "0.00 ns".
Proof. vm_compute. reflexivity. Qed.

Lemma summary_stats_times (bs bs' : list benchmark) :
  map real_time_of bs = map real_time_of bs' ->
  generate_summary_stats bs = generate_summary_stats bs'.
Proof.
  intros H. assert (Hlen : List.length bs = List.length bs').
  { rewrite <- (length_map real_time_of bs), H. apply length_map. }
  unfold generate_summary_stats.
  destruct bs as [|b bs], bs' as [|b' bs']; try discriminate; [reflexivity|].
  now rewrite H, Hlen.
Qed.


(** ** Binary64 arithmetic stays in range *)

Lemma digits2_pos_size (p : positive) : digits2_pos p = Pos.size p.
Proof. induction p as [p IH|p IH|]; simpl; now rewrite ?IH. Qed.

Lemma Zdigits2_log2 (p : positive) : Zdigits2 (Zpos p) = Z.log2 (Zpos p) + 1.
Proof.
  unfold Zdigits2. rewrite digits2_pos_size.
  destruct p as [p|p|]; cbn [Z.log2 Pos.size]; try reflexivity;
    now rewrite Pos2Z.inj_succ.
Qed.

Lemma Zdigits2_nonneg (m : Z) : 0 <= Zdigits2 m.
Proof. destruct m; simpl; lia. Qed.

(** A natural number below [2^d] has at most [d] binary digits. *)
Lemma Zdigits2_le (m d : Z) : 0 <= m -> 0 <= d -> m < 2 ^ d -> Zdigits2 m <= d.
Proof.
  intros Hm Hd H. destruct m as [|p|p]; [exact Hd | | lia].
  rewrite Zdigits2_log2.
  assert (Z.log2 (Zpos p) < d) by (apply Z.log2_lt_pow2; lia). lia.
Qed.

Lemma Zdigits2_gt (p : positive) : Zpos p < 2 ^ Zdigits2 (Zpos p).
Proof.
  rewrite Zdigits2_log2. pose proof (Z.log2_spec (Zpos p) eq_refl) as H.
  rewrite <- Z.add_1_r in H. apply H.
Qed.

Lemma Zdigits2_lower (p : positive) : 2 ^ (Zdigits2 (Zpos p) - 1) <= Zpos p.
Proof.
  rewrite Zdigits2_log2. replace (Z.log2 (Zpos p) + 1 - 1) with (Z.log2 (Zpos p)) by lia.
  apply (Z.log2_spec (Zpos p) eq_refl).
Qed.

Lemma shr_1_div2 (mrs : shr_record) :
  0 <= shr_m mrs -> shr_m (shr_1 mrs) = shr_m mrs / 2.
Proof.
  destruct mrs as [m r s]. cbn [shr_m]. intros Hm.
  rewrite <- Z.div2_div.
  destruct m as [|[p|p|]|p]; try reflexivity; lia.
Qed.

Lemma pow2_xO (p : positive) : 2 ^ Zpos p~0 = 2 ^ Zpos p * 2 ^ Zpos p.
Proof. rewrite <- Z.pow_add_r by lia. f_equal. lia. Qed.

Lemma pow2_xI (p : positive) : 2 ^ Zpos p~1 = 2 * (2 ^ Zpos p * 2 ^ Zpos p).
Proof.
  rewrite <- Z.pow_add_r, <- Z.pow_succ_r by lia. f_equal. lia.
Qed.

Lemma iter_shr_1 (p : positive) : forall mrs,
  0 <= shr_m mrs ->
  shr_m (iter_pos shr_1 p mrs) = shr_m mrs / 2 ^ Zpos p.
Proof.
  assert (Hpos : forall q, 0 < 2 ^ Zpos q) by (intros; apply Z.pow_pos_nonneg; lia).
  induction p as [p IH|p IH|]; intros mrs Hm; cbn [iter_pos].
  - assert (H1 : 0 <= shr_m (shr_1 mrs))
      by (rewrite shr_1_div2 by assumption; apply Z.div_pos; lia).
    assert (H2 : 0 <= shr_m (iter_pos shr_1 p (shr_1 mrs)))
      by (rewrite IH by assumption; apply Z.div_pos; [lia|apply Hpos]).
    rewrite IH, IH, shr_1_div2 by assumption.
    pose proof (Hpos p).
    rewrite !Z.div_div by lia. now rewrite pow2_xI.
  - assert (H2 : 0 <= shr_m (iter_pos shr_1 p mrs))
      by (rewrite IH by assumption; apply Z.div_pos; [lia|apply Hpos]).
    rewrite IH, IH by assumption.
    pose proof (Hpos p).
    rewrite !Z.div_div by lia. now rewrite pow2_xO.
  - rewrite shr_1_div2 by assumption. reflexivity.
Qed.

Lemma shr_record_of_loc_m m l : shr_m (shr_record_of_loc m l) = m.
Proof. destruct l as [|[| |]]; reflexivity. Qed.

(** [shr_fexp] drops the [n] low bits that do not fit the format. *)
Lemma shr_fexp_div (m e : Z) (l : location) :
  0 <= m ->
  let n := Z.max 0 (fexp prec emax (Zdigits2 m + e) - e) in
  shr_m (fst (shr_fexp prec emax m e l)) = m / 2 ^ n /\
  snd (shr_fexp prec emax m e l) = e + n.
Proof.
  intros Hm n. unfold shr_fexp, shr. fold (fexp prec emax).
  destruct (fexp prec emax (Zdigits2 m + e) - e) as [|p|p] eqn:E; subst n;
    cbn [fst snd].
  - rewrite shr_record_of_loc_m, Z.div_1_r. split; [reflexivity | lia].
  - rewrite iter_shr_1 by (now rewrite shr_record_of_loc_m).
    rewrite shr_record_of_loc_m. split; [reflexivity | lia].
  - rewrite shr_record_of_loc_m. replace (Z.max 0 (Z.neg p)) with 0 by lia.
    rewrite Z.div_1_r. split; [reflexivity | lia].
Qed.

Lemma round_nearest_even_bounds (m : Z) (l : location) :
  m <= round_nearest_even m l <= m + 1.
Proof.
  unfold round_nearest_even. destruct l as [|[| |]]; try lia.
  destruct (Z.even m); lia.
Qed.

Lemma fexp_eq (x : Z) : fexp prec emax x = Z.max (x - 53) (-1074).
Proof. reflexivity. Qed.

Lemma div_pow2_lt (m d n : Z) :
  0 <= m < 2 ^ d -> 0 <= d -> 0 <= n -> 0 <= m / 2 ^ n < 2 ^ Z.max (d - n) 0.
Proof.
  intros [Hm Hlt] Hd Hn.
  assert (0 < 2 ^ n) by (apply Z.pow_pos_nonneg; lia).
  split; [apply Z.div_pos; lia|].
  destruct (Z.le_gt_cases n d) as [Hle|Hgt].
  - replace (Z.max (d - n) 0) with (d - n) by lia.
    apply Z.div_lt_upper_bound; [lia|].
    rewrite <- Z.pow_add_r by lia. now replace (n + (d - n)) with d by lia.
  - replace (Z.max (d - n) 0) with 0 by lia.
    rewrite Z.div_small; [reflexivity|]. split; [lia|].
    eapply Z.lt_le_trans; [exact Hlt|]. apply Z.pow_le_mono_r; lia.
Qed.

Lemma binary_round_aux_fits (sx : bool) (mx ex : Z) (lx : location) (d : Z) :
  0 <= mx < 2 ^ d -> 0 <= d -> ex <= 971 -> d + ex + 1 <= 1024 ->
  fits (Z.max (d + ex + 1) (-1073)) sx (binary_round_aux prec emax sx mx ex lx).
Proof.
  intros Hmx Hd Hex Hsum. unfold binary_round_aux.
  pose proof (shr_fexp_div mx ex lx (proj1 Hmx)) as [H1m H1e].
  destruct (shr_fexp prec emax mx ex lx) as [mrs1 e1]. cbn [fst snd] in *.
  pose proof (Zdigits2_le mx d (proj1 Hmx) Hd (proj2 Hmx)) as HD.
  pose proof (Zdigits2_nonneg mx) as HD0.
  rewrite fexp_eq in H1m, H1e.
  set (n1 := Z.max 0 (Z.max (Zdigits2 mx + ex - 53) (-1074) - ex)) in *.
  pose proof (div_pow2_lt mx d n1 Hmx Hd ltac:(lia)) as Hm1.
  rewrite <- H1m in Hm1.
  pose proof (round_nearest_even_bounds (shr_m mrs1) (loc_of_shr_record mrs1))
    as Hm2.
  set (m2 := round_nearest_even (shr_m mrs1) (loc_of_shr_record mrs1)) in *.
  set (d2 := Z.max (d - n1) 0 + 1).
  assert (Hm2' : 0 <= m2 < 2 ^ d2).
  { split; [lia|]. unfold d2. rewrite Z.pow_add_r by lia.
    change (2 ^ 1) with 2. lia. }
  pose proof (shr_fexp_div m2 e1 loc_Exact (proj1 Hm2')) as [H2m H2e].
  destruct (shr_fexp prec emax m2 e1 loc_Exact) as [mrs2 e2].
  cbn [fst snd] in *.
  pose proof (Zdigits2_le m2 d2 (proj1 Hm2') ltac:(unfold d2; lia) (proj2 Hm2'))
    as HD2.
  pose proof (Zdigits2_nonneg m2) as HD20.
  rewrite fexp_eq in H2m, H2e.
  set (n2 := Z.max 0 (Z.max (Zdigits2 m2 + e1 - 53) (-1074) - e1)) in *.
  pose proof (div_pow2_lt m2 d2 n2 Hm2' ltac:(unfold d2; lia) ltac:(lia)) as Hm3.
  rewrite <- H2m in Hm3.
  destruct (shr_m mrs2) as [|m|m]; [now left | | lia].
  assert (He2 : e2 <= 971) by (unfold d2 in *; lia).
  unfold prec, emax. replace (e2 <=? 1024 - 53) with true
    by (symmetry; apply Z.leb_le; lia).
  right. exists m, e2, (Z.max (d2 - n2) 0).
  split; [reflexivity|]. split; [lia|]. split; [lia|].
  destruct (Z.le_gt_cases n2 d2) as [Hle|Hgt].
  - unfold d2 in *. lia.
  - exfalso. replace (Z.max (d2 - n2) 0) with 0 in Hm3 by lia.
    change (2 ^ 0) with 1 in Hm3. lia.
Qed.

Lemma fits_le (K K' : Z) (s : bool) (f : spec_float) :
  K <= K' -> fits K s f -> fits K' s f.
Proof.
  intros HK [H | [m [e [d [H1 [H2 [H3 H4]]]]]]]; [now left|].
  right. exists m, e, d. repeat split; try assumption. lia.
Qed.

Lemma SFdiv_fits (sx sy : bool) (mx my : positive) (ex ey d1 : Z) :
  Zpos mx < 2 ^ d1 -> 0 <= d1 ->
  d1 + ex - (Zdigits2 (Zpos my) + ey) + 2 <= 1024 ->
  fits (Z.max (d1 + ex - (Zdigits2 (Zpos my) + ey) + 2) (-1073)) (xorb sx sy)
    (SFdiv prec emax (S754_finite sx mx ex) (S754_finite sy my ey)).
Proof.
  intros Hmx Hd1 Hsum. cbn [SFdiv]. unfold SFdiv_core_binary.
  pose proof (Zdigits2_le (Zpos mx) d1 ltac:(lia) Hd1 Hmx) as HD1.
  pose proof (Zdigits2_nonneg (Zpos mx)) as HD10.
  pose proof (Zdigits2_lower my) as Hmy.
  pose proof (Zdigits2_nonneg (Zpos my)) as HD20.
  assert (HD21 : 1 <= Zdigits2 (Zpos my)) by (cbn [Zdigits2]; lia).
  set (D1 := Zdigits2 (Zpos mx)) in *. set (D2 := Zdigits2 (Zpos my)) in *.
  rewrite fexp_eq.
  set (e' := Z.min (Z.max (D1 + ex - (D2 + ey) - 53) (-1074)) (ex - ey)).
  set (s := ex - ey - e').
  assert (Hs : 0 <= s) by (unfold s, e'; lia).
  set (m' := match s with
             | 0 => Zpos mx
             | Zpos _ => Z.shiftl (Zpos mx) s
             | Zneg _ => 0
             end).
  assert (Hm' : m' = Zpos mx * 2 ^ s).
  { unfold m'. destruct s as [|p|p] eqn:Es; [lia | | lia].
    apply Z.shiftl_mul_pow2. lia. }
  assert (Hm'lt : 0 <= m' < 2 ^ (d1 + s)).
  { rewrite Hm', Z.pow_add_r by lia.
    assert (0 < 2 ^ s) by (apply Z.pow_pos_nonneg; lia). nia. }
  destruct (Z.div_eucl m' (Zpos my)) as [q r] eqn:E.
  assert (Hq : q = m' / Zpos my) by (unfold Z.div; now rewrite E).
  assert (Hqlt : 0 <= q < 2 ^ Z.max (d1 + s - (D2 - 1)) 0).
  { pose proof (div_pow2_lt m' (d1 + s) (D2 - 1) Hm'lt ltac:(lia) ltac:(lia))
      as [_ Hlt].
    assert (0 < 2 ^ (D2 - 1)) by (apply Z.pow_pos_nonneg; lia).
    split; [rewrite Hq; apply Z.div_pos; lia|].
    eapply Z.le_lt_trans; [|exact Hlt].
    rewrite Hq. apply Z.div_le_compat_l; lia. }
  eapply fits_le;
    [|apply (binary_round_aux_fits _ q e' _ (Z.max (d1 + s - (D2 - 1)) 0))];
    try assumption; unfold s, e' in *; lia.
Qed.

Lemma iter_xO (mx p : positive) :
  Zpos (Pos.iter xO mx p) = Zpos mx * 2 ^ Zpos p.
Proof.
  induction p as [|p IH] using Pos.peano_ind.
  - cbn [Pos.iter]. change (2 ^ 1) with 2. lia.
  - rewrite Pos.iter_succ, Pos2Z.inj_xO, IH, Pos2Z.inj_succ, Z.pow_succ_r by lia.
    ring.
Qed.

Lemma binary_round_fits (sx : bool) (mx : positive) (ex d : Z) :
  Zpos mx < 2 ^ d -> 0 <= d -> d + ex + 1 <= 1024 ->
  fits (Z.max (d + ex + 1) (-1073)) sx (binary_round prec emax sx mx ex).
Proof.
  intros Hmx Hd Hsum. unfold binary_round, shl_align.
  pose proof (Zdigits2_le (Zpos mx) d ltac:(lia) Hd Hmx) as HD.
  cbn [Zdigits2] in HD. rewrite fexp_eq.
  set (D := Zpos (digits2_pos mx)) in *.
  destruct (Z.max (D + ex - 53) (-1074) - ex) as [|p|p] eqn:E.
  - eapply fits_le; [|apply (binary_round_aux_fits _ _ _ _ d)]; lia.
  - eapply fits_le; [|apply (binary_round_aux_fits _ _ _ _ d)]; lia.
  - assert (Hlt : Zpos (Pos.iter xO mx p) < 2 ^ (d + Zpos p)).
    { rewrite iter_xO, Z.pow_add_r by lia.
      assert (0 < 2 ^ Zpos p) by (apply Z.pow_pos_nonneg; lia). nia. }
    eapply fits_le;
      [|apply (binary_round_aux_fits _ _ _ _ (d + Zpos p))]; lia.
Qed.

Lemma bounded_digits (m : positive) (e : Z) :
  bounded prec emax m e = true -> Zdigits2 (Zpos m) + e <= 1024.
Proof.
  unfold bounded, canonical_mantissa. rewrite andb_true_iff, fexp_eq.
  intros [H1 H2]. apply Z.eqb_eq in H1. apply Z.leb_le in H2.
  unfold prec, emax in *. cbn [Zdigits2]. lia.
Qed.

(** ** Rounding to decimals *)

Lemma round_half_even_spec (a b : Z) :
  0 < b ->
  let n := round_half_even a b in
  2 * Z.abs (n * b - a) <= b /\
  (2 * Z.abs (n * b - a) = b -> Z.even n = true).
Proof.
  intros Hb n. subst n. unfold round_half_even.
  pose proof (Z.div_mod a b ltac:(lia)) as Hdm.
  pose proof (Z.mod_pos_bound a b Hb) as Hr.
  set (q := a / b) in *. set (r := a mod b) in *.
  destruct (2 * r ?= b) eqn:C.
  - apply Z.compare_eq in C.
    destruct (Z.even q) eqn:Ev.
    + split; [nia | intros _; exact Ev].
    + split; [nia|]. intros _. rewrite Z.even_add, Ev. reflexivity.
  - rewrite Z.compare_lt_iff in C. split; nia.
  - rewrite Z.compare_gt_iff in C. split; nia.
Qed.

Lemma nearest_ratio (n a : Z) (P : positive) :
  2 * Z.abs (n * Zpos P - a) <= Zpos P ->
  (2 * Z.abs (n * Zpos P - a) = Zpos P -> Z.even n = true) ->
  nearest n (a # P).
Proof.
  intros H1 H2.
  assert (E : (Qabs (inject_Z n - (a # P)) == Z.abs (n * Zpos P - a) # P)%Q).
  { unfold Qabs, Qminus, Qplus, Qopp, inject_Z, Qeq. cbn [Qnum Qden].
    change (Zpos (1 * P)) with (Zpos P).
    replace (n * Zpos P + - a * 1) with (n * Zpos P - a) by lia.
    reflexivity. }
  unfold nearest. rewrite E. unfold Qle, Qeq. cbn [Qnum Qden].
  split; [lia|]. intros H. apply H2. lia.
Qed.

Lemma nearest_hundredths (n a : Z) (P : positive) :
  2 * Z.abs (n * Zpos P - 100 * a) <= Zpos P ->
  (2 * Z.abs (n * Zpos P - 100 * a) = Zpos P -> Z.even n = true) ->
  nearest n (100 * (a # P)).
Proof. intros H1 H2. now apply (nearest_ratio n (100 * a) P). Qed.

Lemma pow2_pos (k : Z) : 0 <= k -> 0 < 2 ^ k.
Proof. intros. apply Z.pow_pos_nonneg; lia. Qed.

Lemma scaled_round_nearest (m : positive) (e : Z) :
  nearest (scaled_round 2 m e) (100 * finite_value false m e) /\
  0 <= scaled_round 2 m e.
Proof.
  unfold scaled_round, finite_value. cbn [cond_Zopp].
  change (10 ^ Z.of_nat 2) with 100.
  destruct (0 <=? e) eqn:He.
  - apply Z.leb_le in He. pose proof (pow2_pos e He). split; [|nia].
    unfold inject_Z. apply nearest_hundredths; lia.
  - apply Z.leb_gt in He. pose proof (pow2_pos (- e) ltac:(lia)) as Hp.
    pose proof (round_half_even_spec (Zpos m * 100) (2 ^ (- e)) Hp) as [H1 H2].
    split.
    + apply nearest_hundredths; rewrite Z2Pos.id by assumption;
        replace (100 * Zpos m) with (Zpos m * 100) by lia; assumption.
    + unfold round_half_even.
      assert (0 <= Zpos m * 100 / 2 ^ (- e)) by (apply Z.div_pos; lia).
      destruct (2 * ((Zpos m * 100) mod 2 ^ (- e)) ?= 2 ^ (- e)); try lia.
      destruct (Z.even (Zpos m * 100 / 2 ^ (- e))); lia.
Qed.

Lemma finite_value_pos (m : positive) (e : Z) :
  (0 < finite_value false m e)%Q.
Proof.
  unfold finite_value. cbn [cond_Zopp]. destruct (0 <=? e) eqn:He.
  - apply Z.leb_le in He. pose proof (pow2_pos e He).
    unfold Qlt, inject_Z. cbn [Qnum Qden]. nia.
  - unfold Qlt. cbn [Qnum Qden]. lia.
Qed.

Lemma finite_value_neg (m : positive) (e : Z) :
  (finite_value true m e < 0)%Q.
Proof.
  unfold finite_value. cbn [cond_Zopp]. destruct (0 <=? e) eqn:He.
  - apply Z.leb_le in He. pose proof (pow2_pos e He).
    unfold Qlt, inject_Z. cbn [Qnum Qden]. nia.
  - unfold Qlt. cbn [Qnum Qden]. lia.
Qed.

Lemma nearest_zero : nearest 0 (100 * 0).
Proof. apply (nearest_hundredths 0 0 1); [lia | intros H; discriminate H]. Qed.

(** What [format] shows for a float of sign bit [false]. *)
Lemma format_fits (K : Z) (r : spec_float) :
  fits K false r ->
  exists y n,
    float_value r = Vfin y /\ (0 <= y)%Q /\ nearest n (100 * y) /\ 0 <= n /\
    format_float 2 r = fixed_point 2 n.
Proof.
  intros [-> | [m [e [d [-> _]]]]].
  - exists 0%Q, 0. repeat split; try apply nearest_zero; try reflexivity.
    apply Qle_refl.
  - exists (finite_value false m e), (scaled_round 2 m e).
    pose proof (scaled_round_nearest m e) as [H1 H2].
    repeat split; try apply H1; try assumption.
    apply Qlt_le_weak, finite_value_pos.
Qed.

Lemma is_digit_chars :
  is_digit "0" /\ is_digit "1" /\ is_digit "2" /\ is_digit "3" /\
  is_digit "4" /\ is_digit "5" /\ is_digit "6" /\ is_digit "7" /\
  is_digit "8" /\ is_digit "9".
Proof.
  repeat split;
    [exists 0 | exists 1 | exists 2 | exists 3 | exists 4
    | exists 5 | exists 6 | exists 7 | exists 8 | exists 9];
    (split; [lia | reflexivity]).
Qed.

Lemma uint_digits (u : uint) :
  Forall is_digit (list_ascii_of_string (NilEmpty.string_of_uint u)).
Proof.
  pose proof is_digit_chars as [? [? [? [? [? [? [? [? [? ?]]]]]]]]].
  induction u; cbn [NilEmpty.string_of_uint list_ascii_of_string];
    constructor; assumption.
Qed.

Lemma decimal_digits (k : Z) : digits_only (decimal k).
Proof.
  unfold decimal, NilZero.string_of_uint.
  destruct (N.to_uint (Z.to_N k)) as [|u|u|u|u|u|u|u|u|u|u] eqn:E;
    (split; [discriminate|]);
    try (rewrite <- E; apply uint_digits).
  repeat constructor. apply is_digit_chars.
Qed.

Lemma fixed_point_two (n : Z) :
  fixed_point 2 n =
  decimal (n / 100) ++ "."
  ++ String (digit_char (n / 10 mod 10))
       (String (digit_char (n mod 10)) EmptyString).
Proof. reflexivity. Qed.

(** ** Division by the constants of the program *)

Lemma Qltb_inject (a b : Z) : Qltb (inject_Z a) (inject_Z b) = (a <? b).
Proof.
  destruct (a <? b) eqn:E.
  - apply Qltb_true. rewrite <- Zlt_Qlt. now apply Z.ltb_lt.
  - apply Qltb_false. rewrite <- Zle_Qle. now apply Z.ltb_ge.
Qed.

Lemma int_truediv_fits (a b : Z) :
  a <> 0 -> Z.abs a < 2 ^ 1024 -> 2 <= b ->
  exists r, int_truediv a b = Ok r /\ fits 1024 (a <? 0) r.
Proof.
  intros Ha0 Ha Hb. unfold int_truediv.
  assert (Hlt : Zpos (Z.to_pos (Z.abs a)) < 2 ^ 1024)
    by (rewrite Z2Pos.id; [exact Ha | clear Ha; lia]).
  clear Ha.
  destruct a as [|pa|pa]; [congruence | |]; clear Ha0;
    (destruct b as [|pb|pb]; [lia | | lia]);
    (assert (HD : 2 <= Zdigits2 (Zpos pb))
      by (destruct pb as [pb|pb|]; cbn [Zdigits2 digits2_pos]; lia));
    clear Hb; cbn [Z.abs Z.to_pos Z.ltb Z.compare] in *;
    (assert (Hsum : 1024 + 0 - (Zdigits2 (Zpos pb) + 0) + 2 <= 1024)
      by (clear Hlt; lia));
    match goal with
    | |- context [S754_finite ?sx pa 0] =>
        pose proof (SFdiv_fits sx false pa pb 0 0 1024 Hlt ltac:(discriminate)
                      Hsum) as H
    end;
    clear Hlt; (apply (fits_le _ 1024) in H; [|lia]); cbn [xorb] in H;
    (destruct H as [H | [m [e [d [H Hd]]]]]; rewrite H; eexists;
     (split; [reflexivity|]); [now left | right; now exists m, e, d]).
Qed.

Lemma float_truediv_fits (s : bool) (x : spec_float) (my : positive) (ey : Z) :
  fits 1024 s x ->
  2 <= Zdigits2 (Zpos my) + ey ->
  exists r,
    float_truediv x (S754_finite false my ey) = Ok r /\ fits 1024 s r.
Proof.
  intros Hx Hy. unfold float_truediv.
  eexists. split; [reflexivity|].
  destruct Hx as [-> | [m [e [d [-> [Hd [Hm Hde]]]]]]].
  - left. cbn [SFdiv]. now destruct s.
  - pose proof (SFdiv_fits s false m my e ey d Hm Hd ltac:(lia)) as H.
    apply (fits_le _ 1024) in H; [|lia].
    now replace (xorb s false) with s in H by (now destruct s).
Qed.

(** A divisor of the program: a whole number of at least 2 that converts
    to [float] exactly. *)
Lemma divisor_constants (k : Z) :
  In k [2; 1000; 1000000; 1000000000; 1024; 1024 ^ 2; 1024 ^ 3] ->
  2 <= k /\
  exists my ey,
    float_of_int k = Ok (S754_finite false my ey) /\
    2 <= Zdigits2 (Zpos my) + ey.
Proof.
  cbn [In]. intros [<- | [<- | [<- | [<- | [<- | [<- | [<- | []]]]]]]];
    (split; [vm_compute; discriminate|]);
    eexists; eexists; (split; [vm_compute; reflexivity | vm_compute; discriminate]).
Qed.

Lemma float_sign (s : bool) (f : spec_float) (x : Q) :
  fits 1024 s f -> float_value f = Vfin x ->
  ((0 < x)%Q -> s = false /\ exists m e, f = S754_finite false m e) /\
  ((x < 0)%Q -> s = true /\ exists m e, f = S754_finite true m e).
Proof.
  intros [-> | [m [e [d [-> _]]]]]; cbn [float_value]; intros H;
    injection H as <-.
  - split; intros Hx; exfalso; apply (Qlt_irrefl 0 Hx).
  - destruct s; split; intros Hx.
    + exfalso. apply (Qlt_irrefl 0).
      eapply Qlt_trans; [exact Hx | apply finite_value_neg].
    + split; [reflexivity | now exists m, e].
    + split; [reflexivity | now exists m, e].
    + exfalso. apply (Qlt_irrefl 0).
      eapply Qlt_trans; [apply finite_value_pos | exact Hx].
Qed.

(** A positive number in range, divided by a constant of the program, is
    a float of sign bit [false] in range. *)
Lemma num_truediv_fits (d : num) (x : Q) (k : Z) :
  num_value d = Vfin x -> (0 < x)%Q -> in_range d ->
  In k [2; 1000; 1000000; 1000000000; 1024; 1024 ^ 2; 1024 ^ 3] ->
  exists r, num_truediv d (PyInt k) = Ok (PyFloat r) /\ fits 1024 false r.
Proof.
  intros Hx Hpos Hrep Hk.
  destruct (divisor_constants k Hk) as [Hk2 [my [ey [Hc Hdig]]]].
  destruct d as [z|f].
  - cbn [num_value] in Hx. injection Hx as <-.
    change 0%Q with (inject_Z 0) in Hpos.
    rewrite <- (Zlt_Qlt 0 z) in Hpos. cbn [in_range] in Hrep.
    assert (Hz : z <> 0) by (clear Hrep; lia).
    destruct (int_truediv_fits z k Hz Hrep Hk2) as [r [Hr Hf]].
    replace (z <? 0) with false in Hf
      by (symmetry; apply Z.ltb_ge; clear Hrep; lia).
    exists r. cbn [num_truediv]. rewrite Hr. split; [reflexivity | exact Hf].
  - cbn [num_value] in Hx. cbn [in_range] in Hrep. destruct Hrep as [s Hs].
    destruct (proj1 (float_sign s f x Hs Hx) Hpos) as [-> _].
    destruct (float_truediv_fits false f my ey Hs Hdig) as [r [Hr Hf]].
    exists r. cbn [num_truediv]. rewrite Hc. cbn [bind]. rewrite Hr.
    split; [reflexivity | exact Hf].
Qed.

(** ** Whole numbers below 1024 *)

Lemma small_int_format_all :
  forallb
    (fun z =>
       match format_f 2 (PyInt z) with
       | Ok s => String.eqb s (fixed_point 2 (100 * z))
       | Raise _ => false
       end)
    (map Z.of_nat (seq 0 1024)) = true.
Proof. vm_compute. reflexivity. Qed.

Lemma small_int_format (z : Z) :
  0 <= z < 1024 -> format_f 2 (PyInt z) = Ok (fixed_point 2 (100 * z)).
Proof.
  intros Hz. pose proof small_int_format_all as H.
  rewrite forallb_forall in H. specialize (H z).
  assert (Hin : In z (map Z.of_nat (seq 0 1024))).
  { apply in_map_iff. exists (Z.to_nat z). split; [lia|].
    apply in_seq. lia. }
  specialize (H Hin).
  destruct (format_f 2 (PyInt z)) as [s|e]; [|discriminate].
  apply String.eqb_eq in H. now rewrite H.
Qed.

(** ** Two decimals *)

Lemma shows_fixed_point (n : Z) (y : Q) :
  (0 <= y)%Q -> nearest n (100 * y) -> shows_two_decimals (fixed_point 2 n) y.
Proof.
  intros Hy Hn. exists n. split; [exact Hy|]. split; [exact Hn|].
  split; [apply decimal_digits | apply fixed_point_two].
Qed.

Lemma valid_in_range (f : spec_float) (x : Q) :
  valid_binary prec emax f = true -> float_value f = Vfin x ->
  in_range (PyFloat f).
Proof.
  destruct f as [s|s| |s m e]; cbn [float_value valid_binary in_range];
    try discriminate; intros Hv Hx.
  - exists s. now left.
  - destruct s; discriminate Hx.
  - exists s. right. exists m, e, (Zdigits2 (Zpos m)).
    split; [reflexivity|]. split; [apply Zdigits2_nonneg|].
    split; [apply Zdigits2_gt | now apply bounded_digits].
Qed.

Lemma representable_in_range (d : num) (x : Q) :
  representable d -> num_value d = Vfin x -> in_range d.
Proof.
  destruct d as [z|f]; [intros H _; exact H | apply valid_in_range].
Qed.

(** A number from 0 to below 1024, shown as it is. *)
Lemma unscaled_two_decimals (d : num) (x : Q) :
  num_value d = Vfin x -> (0 <= x)%Q -> (x < 1024)%Q -> in_range d ->
  exists s,
    format_f 2 d = Ok (minus_zero d ++ s) /\ shows_two_decimals s x.
Proof.
  intros Hx Hx0 Hlt Hrange. destruct d as [z|f].
  - cbn [num_value] in Hx. injection Hx as <-.
    change 0%Q with (inject_Z 0) in Hx0. rewrite <- Zle_Qle in Hx0.
    change 1024%Q with (inject_Z 1024) in Hlt. rewrite <- Zlt_Qlt in Hlt.
    exists (fixed_point 2 (100 * z)).
    split; [apply small_int_format; lia|].
    apply shows_fixed_point.
    + change 0%Q with (inject_Z 0). now rewrite <- Zle_Qle.
    + unfold inject_Z. apply nearest_hundredths; lia.
  - cbn [num_value] in Hx. destruct Hrange as [s Hs].
    cbn [format_f].
    destruct Hs as [-> | [m [e [dd [-> Hd]]]]]; cbn [float_value] in Hx;
      injection Hx as <-.
    + exists (fixed_point 2 0). split; [now destruct s|].
      apply shows_fixed_point; [apply Qle_refl | apply nearest_zero].
    + destruct s.
      { exfalso. apply (Qlt_irrefl 0).
        eapply Qle_lt_trans; [exact Hx0 | apply finite_value_neg]. }
      pose proof (scaled_round_nearest m e) as [H1 H2].
      exists (fixed_point 2 (scaled_round 2 m e)). split; [reflexivity|].
      apply shows_fixed_point; assumption.
Qed.

Lemma minus_zero_positive (d : num) (x : Q) :
  num_value d = Vfin x -> (0 < x)%Q -> minus_zero d = EmptyString.
Proof.
  destruct d as [z|[[|]| | |]]; try reflexivity.
  cbn [num_value float_value]. intros H Hx. injection H as <-.
  exfalso. apply (Qlt_irrefl 0 Hx).
Qed.

(** A positive number divided by a constant of the program, and the
    quotient shown. *)
Lemma scaled_two_decimals (d : num) (x : Q) (k : Z) :
  num_value d = Vfin x -> (0 < x)%Q -> in_range d ->
  In k [2; 1000; 1000000; 1000000000; 1024; 1024 ^ 2; 1024 ^ 3] ->
  exists q y s,
    num_truediv d (PyInt k) = Ok q /\ num_value q = Vfin y /\
    format_f 2 q = Ok (minus_zero d ++ s) /\ shows_two_decimals s y.
Proof.
  intros Hx Hpos Hrange Hk.
  destruct (num_truediv_fits d x k Hx Hpos Hrange Hk) as [r [Hr Hf]].
  destruct (format_fits 1024 r Hf) as [y [n [Hy [Hy0 [Hn [Hn0 Hfmt]]]]]].
  exists (PyFloat r), y, (fixed_point 2 n).
  split; [exact Hr|]. split; [exact Hy|].
  rewrite (minus_zero_positive d x Hx Hpos). cbn [format_f append].
  split; [now rewrite Hfmt | now apply shows_fixed_point].
Qed.

(** ** The tiers of the formatters *)

Lemma format_time_tier (d : num) (x : Q) :
  num_value d = Vfin x ->
  format_time d =
  (q <- (if fst (spec_tier x) =? 1 then Ok d
         else num_truediv d (PyInt (fst (spec_tier x)))) ;;
   s <- format_f 2 q ;; Ok (s ++ " " ++ snd (spec_tier x))).
Proof.
  intros Hx. unfold format_time, spec_tier, num_ltb. rewrite Hx.
  cbn [num_value value_ltb].
  change (inject_Z 1000) with 1000%Q.
  change (inject_Z 1000000) with 1000000%Q.
  change (inject_Z 1000000000) with 1000000000%Q.
  destruct (Qltb x 1000); [reflexivity|].
  destruct (Qltb x 1000000); [reflexivity|].
  destruct (Qltb x 1000000000); reflexivity.
Qed.

Lemma format_bytes_tier (d : num) (x : Q) :
  num_value d = Vfin x ->
  format_bytes d =
  (q <- (if fst (spec_size_tier x) =? 1 then Ok d
         else num_truediv d (PyInt (fst (spec_size_tier x)))) ;;
   s <- format_f 2 q ;; Ok (s ++ " " ++ snd (spec_size_tier x))).
Proof.
  intros Hx. unfold format_bytes, spec_size_tier, num_ltb. rewrite Hx.
  cbn [num_value value_ltb].
  change (inject_Z 1024) with 1024%Q.
  change (inject_Z (1024 ^ 2)) with 1048576%Q.
  change (inject_Z (1024 ^ 3)) with 1073741824%Q.
  destruct (Qltb x 1024); [reflexivity|].
  destruct (Qltb x 1048576); [reflexivity|].
  destruct (Qltb x 1073741824); reflexivity.
Qed.

(** One tier: the number as it is when the divisor is 1 and the number
    is below 1024, the quotient by a constant of the program otherwise. *)
Lemma tier_two_decimals (d : num) (x : Q) (k : Z) (unit : string) :
  num_value d = Vfin x -> (0 <= x)%Q -> in_range d ->
  (k = 1 /\ (x < 1024)%Q) \/
  ((0 < x)%Q /\
   In k [2; 1000; 1000000; 1000000000; 1024; 1024 ^ 2; 1024 ^ 3]) ->
  exists q y s,
    (if k =? 1 then q = d else num_truediv d (PyInt k) = Ok q) /\
    num_value q = Vfin y /\ shows_two_decimals s y /\
    (q <- (if k =? 1 then Ok d else num_truediv d (PyInt k)) ;;
     s <- format_f 2 q ;; Ok (s ++ " " ++ unit)) =
    Ok (minus_zero d ++ s ++ " " ++ unit).
Proof.
  intros Hx Hx0 Hrange [[-> Hlt] | [Hpos Hk]].
  - destruct (unscaled_two_decimals d x Hx Hx0 Hlt Hrange) as [s [Hf Hs]].
    exists d, x, s. change (1 =? 1) with true. cbv iota. cbn [bind].
    rewrite Hf. cbn [bind]. rewrite append_assoc.
    repeat (split; [reflexivity || assumption|]). reflexivity.
  - destruct (scaled_two_decimals d x k Hx Hpos Hrange Hk)
      as [q [y [s [Hq [Hy [Hf Hs]]]]]].
    exists q, y, s.
    assert (Hk1 : (k =? 1) = false).
    { apply Z.eqb_neq. intros ->. revert Hk. cbn [In].
      intros [H | [H | [H | [H | [H | [H | [H | []]]]]]]]; discriminate H. }
    rewrite Hk1, Hq. cbn [bind]. rewrite Hf. cbn [bind].
    rewrite append_assoc.
    repeat (split; [reflexivity || assumption|]). reflexivity.
Qed.

Lemma Qltb_ge_pos (x : Q) (k : Z) :
  0 < k -> Qltb x (inject_Z k) = false -> (0 < x)%Q.
Proof.
  intros Hk H. apply Qltb_false in H.
  eapply Qlt_le_trans; [|exact H]. change 0%Q with (inject_Z 0).
  now rewrite <- Zlt_Qlt.
Qed.

(** X1.  For a duration of [x >= 0] nanoseconds in the range of a double,
    [format_time] picks the unit by the tiers below a thousand, a million
    and a billion, divides by the matching power of 1000 (not at all in
    the first tier), and shows the quotient as digits, a point and two
    decimals that are the hundredths nearest to the quotient (ties to
    even), then a space and the unit. *)
Theorem format_time_in_range (d : num) (x : Q) :
  num_value d = Vfin x -> (0 <= x)%Q -> representable d ->
  exists q y s,
    (if fst (spec_tier x) =? 1 then q = d
     else num_truediv d (PyInt (fst (spec_tier x))) = Ok q) /\
    num_value q = Vfin y /\ shows_two_decimals s y /\
    format_time d = Ok (minus_zero d ++ s ++ " " ++ snd (spec_tier x)).
Proof.
  intros Hx Hx0 Hrep.
  pose proof (representable_in_range d x Hrep Hx) as Hrange.
  rewrite (format_time_tier d x Hx).
  apply (tier_two_decimals d x _ _ Hx Hx0 Hrange).
  unfold spec_tier.
  change 1000%Q with (inject_Z 1000).
  change 1000000%Q with (inject_Z 1000000).
  change 1000000000%Q with (inject_Z 1000000000).
  destruct (Qltb x (inject_Z 1000)) eqn:E1; cbn [fst].
  - left. split; [reflexivity|]. apply Qltb_true in E1.
    eapply Qlt_trans; [exact E1 | reflexivity].
  - right. split; [apply (Qltb_ge_pos x 1000 eq_refl E1)|].
    destruct (Qltb x (inject_Z 1000000)); [cbn; tauto|].
    destruct (Qltb x (inject_Z 1000000000)); cbn; tauto.
Qed.

(** Fifteen hundred nanoseconds. *)
Lemma format_time_in_range_witness :
  exists q y s,
    num_truediv (PyInt 1500) (PyInt 1000) = Ok q /\
    num_value q = Vfin y /\ shows_two_decimals s y /\
    format_time (PyInt 1500) = Ok (s ++ " μs").
Proof.
  destruct (format_time_in_range (PyInt 1500) (inject_Z 1500) eq_refl)
    as [q [y [s H]]]; [discriminate | reflexivity|].
  exists q, y, s. exact H.
Defined.

(** X2.  For a size of [x >= 0] bytes in the range of a double,
    [format_bytes] picks the unit by the tiers below 1024, 1024^2 and
    1024^3, divides by the matching power of 1024 (not at all in the first
    tier), and shows the quotient with two decimals, a space and the
    unit. *)
Theorem format_bytes_in_range (d : num) (x : Q) :
  num_value d = Vfin x -> (0 <= x)%Q -> representable d ->
  exists q y s,
    (if fst (spec_size_tier x) =? 1 then q = d
     else num_truediv d (PyInt (fst (spec_size_tier x))) = Ok q) /\
    num_value q = Vfin y /\ shows_two_decimals s y /\
    format_bytes d = Ok (minus_zero d ++ s ++ " " ++ snd (spec_size_tier x)).
Proof.
  intros Hx Hx0 Hrep.
  pose proof (representable_in_range d x Hrep Hx) as Hrange.
  rewrite (format_bytes_tier d x Hx).
  apply (tier_two_decimals d x _ _ Hx Hx0 Hrange).
  unfold spec_size_tier.
  change 1024%Q with (inject_Z 1024).
  change 1048576%Q with (inject_Z 1048576).
  change 1073741824%Q with (inject_Z 1073741824).
  destruct (Qltb x (inject_Z 1024)) eqn:E1; cbn [fst].
  - left. split; [reflexivity|]. now apply Qltb_true in E1.
  - right. split; [apply (Qltb_ge_pos x 1024 eq_refl E1)|].
    destruct (Qltb x (inject_Z 1048576)); [cbn; tauto|].
    destruct (Qltb x (inject_Z 1073741824)); cbn; tauto.
Qed.

(** Three mebibytes. *)
Lemma format_bytes_in_range_witness :
  exists q y s,
    num_truediv (PyInt 3145728) (PyInt 1048576) = Ok q /\
    num_value q = Vfin y /\ shows_two_decimals s y /\
    format_bytes (PyInt 3145728) = Ok (s ++ " MB").
Proof.
  destruct (format_bytes_in_range (PyInt 3145728) (inject_Z 3145728) eq_refl)
    as [q [y [s H]]]; [discriminate | reflexivity|].
  exists q, y, s. exact H.
Defined.
(** ** Driver: success, failure after loading, and what is left alone *)

Lemma load_data_ok (json_loads : string -> result json) input_file w data :
  (text <- read_file (path_str input_file) w ;; json_loads text) = Ok data ->
  load_data json_loads input_file w = (Some data, w).
Proof. unfold load_data. now intros ->. Qed.

Lemma read_ok_exists (json_loads : string -> result json) input_file w data :
  (text <- read_file (path_str input_file) w ;; json_loads text) = Ok data ->
  node_at w (path_str input_file) <> None.
Proof.
  unfold read_file. destruct (node_at w (path_str input_file));
    [discriminate|]. discriminate.
Qed.

Lemma open_ok path w :
  node_at w path <> Some Directory -> writable w path = true ->
  open_error path w = None.
Proof.
  intros Hdir Hw. unfold open_error. rewrite Hw.
  destruct (node_at w path) as [[c|]|]; congruence.
Qed.

Lemma set_node_frame path n w :
  node_at (set_node path n w) path = Some n /\
  (forall p, p <> path -> node_at (set_node path n w) p = node_at w p) /\
  stdout (set_node path n w) = stdout w /\ cwd (set_node path n w) = cwd w.
Proof.
  unfold set_node. cbn [node_at stdout cwd]. rewrite String.eqb_refl.
  split; [reflexivity|]. split; [|split; reflexivity].
  intros p Hp. apply String.eqb_neq in Hp. now rewrite Hp.
Qed.

Lemma write_file_ok path content w :
  open_error path w = None -> utf8_error content = None ->
  write_file path content w = (None, set_node path (File content) w).
Proof. intros Ho He. unfold write_file. now rewrite Ho, He. Qed.


Lemma no_data_page_encodes : utf8_error no_data_page = None.
Proof. vm_compute. reflexivity. Qed.



(** X4.  When the input loads but rendering raises, or the output path
    cannot be opened for writing, [generate_report] prints the failure
    with the text of the exception and returns [False], [main] returns 1,
    and the file system is as it was: no output is created, truncated or
    replaced. *)
Theorem failure_after_loading_writes_nothing
  (json_loads : string -> result json) (input output : string) (w : world)
  (data : json) (e : exn) :
  (text <- read_file (path_str input) w ;; json_loads text) = Ok data ->
  (generate_html_report data input (clock w) = Raise e \/
   exists html,
     generate_html_report data input (clock w) = Ok html /\
     open_error (path_str output) w = Some e) ->
  generate_report json_loads input output w =
    (false, print ("❌ 生成报告失败: " ++ str_exn e) w) /\
  main json_loads input output w =
    (1, print ("❌ 生成报告失败: " ++ str_exn e) w) /\
  (forall p,
      node_at (snd (main json_loads input output w)) p = node_at w p).
Proof.
  intros Hload Hfail.
  assert (Hgen : generate_report json_loads input output w =
                 (false, print ("❌ 生成报告失败: " ++ str_exn e) w)).
  { unfold generate_report. rewrite (load_data_ok _ _ _ _ Hload).
    destruct Hfail as [-> | [html [-> Hopen]]]; [reflexivity|].
    unfold write_file. now rewrite Hopen. }
  assert (Hmain : main json_loads input output w =
                  (1, print ("❌ 生成报告失败: " ++ str_exn e) w)).
  { unfold main. pose proof (read_ok_exists _ _ _ _ Hload) as Hex.
    destruct (node_at w (path_str input)); [|congruence]. now rewrite Hgen. }
  split; [exact Hgen|]. split; [exact Hmain|].
  intros p. now rewrite Hmain.
Qed.

(** An input that is a non-empty list, and an output path that is a
    directory. *)
Lemma failure_after_loading_writes_nothing_witness :
  let disk := fun p : string =>
    if String.eqb p "in.json" then Some (File "[1]")
    else if String.eqb p "out" then Some Directory else None in
  let w := {| node_at := disk; readable := fun _ => true;
              writable := fun _ => true; cwd := "/tmp";
              clock := "2025-01-01 00:00:00"; stdout := [] |} in
  main (fun _ => Ok (JOther "list" true)) "in.json" "out.html" w =
    (1, print "❌ 生成报告失败: 'list' object has no attribute 'get'" w) /\
  main (fun _ => Ok (JOther "list" false)) "in.json" "out" w =
    (1, print "❌ 生成报告失败: [Errno 21] Is a directory: 'out'" w).
Proof.
  intros disk w. split.
  - apply (failure_after_loading_writes_nothing
             (fun _ => Ok (JOther "list" true)) "in.json" "out.html" w
             (JOther "list" true)
             (AttributeError "'list' object has no attribute 'get'"));
      [reflexivity | left; reflexivity].
  - apply (failure_after_loading_writes_nothing
             (fun _ => Ok (JOther "list" false)) "in.json" "out" w
             (JOther "list" false)
             (OSError "[Errno 21] Is a directory: 'out'"));
      [reflexivity | right; eexists; split; reflexivity].
Defined.


(** X6.  When the loaded JSON value is falsy (an empty object, an empty
    list, null, zero), the page rendered is the fixed page without data,
    whatever the input path and the time; with a writable output [main]
    writes that page and returns 0. *)
Theorem empty_data_gives_the_no_data_page
  (json_loads : string -> result json) (input output : string) (w : world)
  (data : json) :
  truthy data = false ->
  (forall input_file now,
      generate_html_report data input_file now = Ok no_data_page) /\
  ((text <- read_file (path_str input) w ;; json_loads text) = Ok data ->
   node_at w (path_str output) <> Some Directory ->
   writable w (path_str output) = true ->
   fst (main json_loads input output w) = 0 /\
   node_at (snd (main json_loads input output w)) (path_str output)
   = Some (File no_data_page)).
Proof.
  intros Ht.
  assert (Hpage : forall input_file now,
             generate_html_report data input_file now = Ok no_data_page).
  { intros input_file now. unfold generate_html_report. now rewrite Ht. }
  split; [exact Hpage|].
  intros Hload Hdir Hw.
  pose proof (write_file_ok (path_str output) no_data_page w
                (open_ok _ _ Hdir Hw) no_data_page_encodes) as Hwrite.
  destruct (set_node_frame (path_str output) (File no_data_page) w)
    as [Hout _].
  unfold main. pose proof (read_ok_exists _ _ _ _ Hload) as Hex.
  destruct (node_at w (path_str input)); [|congruence].
  unfold generate_report. rewrite (load_data_ok _ _ _ _ Hload), Hpage.
  rewrite Hwrite. cbn [fst snd print node_at].
  split; [reflexivity | exact Hout].
Qed.

(** The empty object. *)
Lemma empty_data_gives_the_no_data_page_witness :
  let data := JObject {| benchmarks := None; context_info := None;
                         other_keys := false |} in
  let disk := fun p : string =>
    if String.eqb p "in.json" then Some (File "{}") else None in
  let w := {| node_at := disk; readable := fun _ => true;
              writable := fun _ => true; cwd := "/tmp";
              clock := "2025-01-01 00:00:00"; stdout := [] |} in
  fst (main (fun _ => Ok data) "in.json" "out.html" w) = 0 /\
  node_at (snd (main (fun _ => Ok data) "in.json" "out.html" w)) "out.html"
  = Some (File no_data_page).
Proof.
  intros data disk w.
  apply (empty_data_gives_the_no_data_page (fun _ => Ok data) "in.json"
           "out.html" w data eq_refl);
    [reflexivity | discriminate | reflexivity].
Defined.

(** ** Aggregator: extrema *)

Lemma py_min_fold (rest : list num) : forall acc,
  ordered acc -> Forall ordered rest ->
  let m := fold_left (fun acc y => if num_ltb y acc then y else acc) rest acc in
  (m = acc \/ In m rest) /\ ordered m /\ num_le m acc /\
  (forall t, In t rest -> num_le m t).
Proof.
  induction rest as [|y rest IH]; intros acc Hacc Hrest; cbn [fold_left].
  - repeat split; [now left | exact Hacc | apply num_le_refl | intros t []].
  - inversion Hrest as [|? ? Hy Hrest']; subst.
    set (acc' := if num_ltb y acc then y else acc).
    assert (Hacc' : ordered acc') by (unfold acc'; now destruct (num_ltb y acc)).
    assert (Hle1 : num_le acc' acc).
    { unfold acc'. destruct (num_ltb y acc) eqn:E.
      - now apply num_ltb_asym. - apply num_le_refl. }
    assert (Hle2 : num_le acc' y).
    { unfold acc'. destruct (num_ltb y acc) eqn:E.
      - apply num_le_refl. - exact E. }
    destruct (IH acc' Hacc' Hrest') as [Hin [Hord [Hle Hall]]].
    split; [|split; [exact Hord|split]].
    + destruct Hin as [Hin | Hin]; [|right; now right].
      rewrite Hin. unfold acc'. destruct (num_ltb y acc); [right; now left | now left].
    + now apply (num_le_trans _ acc').
    + intros t [<- | Ht]; [now apply (num_le_trans _ acc') | now apply Hall].
Qed.

Lemma py_max_fold (rest : list num) : forall acc,
  ordered acc -> Forall ordered rest ->
  let m := fold_left (fun acc y => if num_gtb y acc then y else acc) rest acc in
  (m = acc \/ In m rest) /\ ordered m /\ num_le acc m /\
  (forall t, In t rest -> num_le t m).
Proof.
  induction rest as [|y rest IH]; intros acc Hacc Hrest; cbn [fold_left].
  - repeat split; [now left | exact Hacc | apply num_le_refl | intros t []].
  - inversion Hrest as [|? ? Hy Hrest']; subst.
    set (acc' := if num_gtb y acc then y else acc).
    assert (Hacc' : ordered acc') by (unfold acc'; now destruct (num_gtb y acc)).
    assert (Hle1 : num_le acc acc').
    { unfold acc', num_gtb. destruct (num_ltb acc y) eqn:E.
      - now apply num_ltb_asym. - apply num_le_refl. }
    assert (Hle2 : num_le y acc').
    { unfold acc', num_gtb. destruct (num_ltb acc y) eqn:E.
      - apply num_le_refl. - exact E. }
    destruct (IH acc' Hacc' Hrest') as [Hin [Hord [Hle Hall]]].
    split; [|split; [exact Hord|split]].
    + destruct Hin as [Hin | Hin]; [|right; now right].
      rewrite Hin. unfold acc'. destruct (num_gtb y acc); [right; now left | now left].
    + now apply (num_le_trans _ acc').
    + intros t [<- | Ht]; [now apply (num_le_trans _ acc') | now apply Hall].
Qed.

(** What a summary holds, field by field. *)
Lemma summary_fields (bs : list benchmark) (st : summary) :
  generate_summary_stats bs = Ok (Some st) ->
  let times := map real_time_of bs in
  bs <> [] /\
  count st = Z.of_nat (List.length bs) /\
  total_tests st = Z.of_nat (List.length bs) /\
  mean times = Ok (avg_time st) /\
  median times = Ok (median_time st) /\
  py_min times = Ok (min_time st) /\
  py_max times = Ok (max_time st).
Proof.
  unfold generate_summary_stats. destruct bs as [|b bs]; [discriminate|].
  set (times := map real_time_of (b :: bs)).
  destruct (mean times) as [avg|e]; cbn [bind]; [|discriminate].
  destruct (median times) as [med|e]; cbn [bind]; [|discriminate].
  destruct (py_min times) as [mn|e]; cbn [bind]; [|discriminate].
  destruct (py_max times) as [mx|e]; cbn [bind]; [|discriminate].
  intros H. injection H as <-. cbn [count total_tests avg_time median_time
                                     min_time max_time].
  repeat split; try reflexivity. discriminate.
Qed.

(** The extrema of a summary. *)
Lemma summary_extrema_facts (bs : list benchmark) (st : summary) :
  generate_summary_stats bs = Ok (Some st) ->
  Forall (fun b => ordered (real_time_of b)) bs ->
  let times := map real_time_of bs in
  count st = Z.of_nat (List.length bs) /\
  In (min_time st) times /\ (forall t, In t times -> num_le (min_time st) t) /\
  In (max_time st) times /\ (forall t, In t times -> num_le t (max_time st)) /\
  num_le (min_time st) (max_time st).
Proof.
  intros Hst Hord times.
  destruct (summary_fields bs st Hst) as [Hne [Hc [_ [_ [_ [Hmin Hmax]]]]]].
  fold times in Hmin, Hmax.
  assert (Hord' : Forall ordered times).
  { unfold times. rewrite Forall_forall in Hord |- *. intros t Ht.
    apply in_map_iff in Ht. destruct Ht as [b [<- Hb]]. now apply Hord. }
  destruct times as [|t0 rest] eqn:Et.
  { destruct bs; [congruence | discriminate]. }
  inversion Hord' as [|? ? H0 Hrest]; subst.
  cbn [py_min py_max] in Hmin, Hmax.
  injection Hmin as Hmin. injection Hmax as Hmax.
  destruct (py_min_fold rest t0 H0 Hrest) as [Hin1 [_ [Hle1 Hall1]]].
  destruct (py_max_fold rest t0 H0 Hrest) as [Hin2 [Hom [Hle2 Hall2]]].
  rewrite Hmin in Hin1, Hle1, Hall1. rewrite Hmax in Hin2, Hle2, Hall2, Hom.
  split; [exact Hc|].
  split; [destruct Hin1 as [-> | H]; [now left | now right]|].
  split; [intros t [<- | Ht]; [exact Hle1 | now apply Hall1]|].
  split; [destruct Hin2 as [-> | H]; [now left | now right]|].
  split; [intros t [<- | Ht]; [exact Hle2 | now apply Hall2]|].
  now apply (num_le_trans _ t0).
Qed.

(** X7.  In the summary of a category whose times can be ordered, the
    fastest time is one of the times of the category and no time is below
    it; the slowest time is one of them and no time is above it; and the
    count is the number of records. *)
Theorem summary_extrema (bs : list benchmark) (st : summary) :
  generate_summary_stats bs = Ok (Some st) ->
  Forall (fun b => ordered (real_time_of b)) bs ->
  let times := map real_time_of bs in
  count st = Z.of_nat (List.length bs) /\
  In (min_time st) times /\ (forall t, In t times -> num_le (min_time st) t) /\
  In (max_time st) times /\ (forall t, In t times -> num_le t (max_time st)) /\
  num_le (min_time st) (max_time st).
Proof. exact (summary_extrema_facts bs st). Qed.

(** The times 5, 3, 1, 4, 2. *)
Lemma summary_extrema_witness :
  let row t := {| name := None; real_time := Some (PyInt t); cpu_time := None;
                  iterations := None; items_per_second := None |} in
  let bs := map row [5; 3; 1; 4; 2] in
  exists st,
    generate_summary_stats bs = Ok (Some st) /\
    min_time st = PyInt 1 /\ max_time st = PyInt 5 /\ count st = 5 /\
    num_le (min_time st) (max_time st).
Proof.
  intros row bs.
  destruct (generate_summary_stats bs) as [[st|]|e] eqn:E;
    try (vm_compute in E; discriminate E).
  exists st. split; [reflexivity|].
  assert (Hord : Forall (fun b => ordered (real_time_of b)) bs)
    by (repeat constructor; discriminate).
  destruct (summary_extrema bs st E Hord) as [Hc [_ [_ [_ [_ Hle]]]]].
  vm_compute in E. injection E as <-.
  split; [reflexivity|]. split; [reflexivity|]. split; [reflexivity|].
  exact Hle.
Defined.

(** ** Aggregator: median *)

Lemma filter_length_perm {A : Type} (p : A -> bool) (l l' : list A) :
  Permutation l l' -> List.length (filter p l) = List.length (filter p l').
Proof.
  induction 1 as [|x l l' _ IH|x y l|l l' l'' _ IH1 _ IH2]; cbn [filter].
  - reflexivity.
  - destruct (p x); cbn [List.length]; now rewrite IH.
  - destruct (p x), (p y); reflexivity.
  - now rewrite IH1.
Qed.

Lemma filter_length_all {A : Type} (p : A -> bool) (l : list A) :
  Forall (fun x => p x = true) l -> List.length (filter p l) = List.length l.
Proof.
  induction 1 as [|x l Hx _ IH]; cbn [filter]; [reflexivity|].
  rewrite Hx. cbn [List.length]. now rewrite IH.
Qed.

Lemma filter_length_le_app {A : Type} (p : A -> bool) (l1 l2 : list A) :
  (List.length (filter p l1) <= List.length (filter p (l1 ++ l2)))%nat /\
  (List.length (filter p l2) <= List.length (filter p (l1 ++ l2)))%nat.
Proof. rewrite filter_app, length_app. lia. Qed.

Lemma strongly_sorted_after {A : Type} (R : A -> A -> Prop)
  (pre post : list A) (b : A) :
  StronglySorted R (pre ++ b :: post)%list -> Forall (R b) post.
Proof.
  induction pre as [|c pre IH]; cbn [app]; intros H.
  - now inversion H.
  - inversion H; subst. now apply IH.
Qed.

(** In a sorted list, the element at index [i] has the [i + 1] first
    elements at or below it and the elements from [i] on at or above. *)
Lemma sorted_rank (s : list num) (i : nat) :
  StronglySorted num_le s -> (i < List.length s)%nat ->
  let x := nth i s (PyInt 0) in
  In x s /\
  (i + 1 <= List.length (filter (fun u => negb (num_ltb x u)) s))%nat /\
  (List.length s - i <= List.length (filter (fun u => negb (num_ltb u x)) s))%nat.
Proof.
  intros Hs Hi x.
  destruct (nth_split s (PyInt 0) Hi) as [pre [post [Hsplit Hlen]]].
  fold x in Hsplit.
  assert (Hin : In x s) by (rewrite Hsplit; apply in_elt).
  split; [exact Hin|].
  rewrite Hsplit in Hs.
  pose proof (strongly_sorted_before _ _ _ _ Hs) as Hbefore.
  pose proof (strongly_sorted_after _ _ _ _ Hs) as Hafter.
  assert (Hxx : num_ltb x x = false) by apply num_le_refl.
  split.
  - replace (pre ++ x :: post)%list with ((pre ++ [x]) ++ post)%list in Hsplit
      by (now rewrite <- app_assoc).
    rewrite Hsplit.
    pose proof (proj1 (filter_length_le_app (fun u => negb (num_ltb x u))
                         (pre ++ [x]) post)) as H.
    rewrite filter_length_all in H.
    + rewrite length_app in H. cbn [List.length] in H. lia.
    + apply Forall_app. split.
      * eapply Forall_impl; [|exact Hbefore]. cbv beta. intros u Hu.
        unfold num_le, le_of in Hu. now rewrite Hu.
      * constructor; [now rewrite Hxx | constructor].
  - rewrite Hsplit.
    pose proof (proj2 (filter_length_le_app (fun u => negb (num_ltb u x))
                         pre (x :: post))) as H.
    rewrite filter_length_all in H.
    + rewrite length_app. cbn [List.length] in *. lia.
    + constructor; [now rewrite Hxx|].
      eapply Forall_impl; [|exact Hafter]. cbv beta. intros u Hu.
      unfold num_le, le_of in Hu. now rewrite Hu.
Qed.

Lemma sorted_nth_le (s : list num) (i j : nat) :
  StronglySorted num_le s -> (i <= j)%nat -> (j < List.length s)%nat ->
  num_le (nth i s (PyInt 0)) (nth j s (PyInt 0)).
Proof.
  intros Hs Hij Hj.
  destruct (Nat.eq_dec i j) as [->|Hne]; [apply num_le_refl|].
  destruct (nth_split s (PyInt 0) Hj) as [pre [post [Hsplit Hlen]]].
  rewrite Hsplit in Hs.
  pose proof (strongly_sorted_before _ _ _ _ Hs) as Hbefore.
  rewrite Forall_forall in Hbefore. apply Hbefore.
  assert (Hi : (i < List.length pre)%nat) by lia.
  rewrite Hsplit at 1. rewrite app_nth1 by exact Hi. now apply nth_In.
Qed.

Lemma sorted_times (times : list num) :
  Forall ordered times ->
  StronglySorted num_le (sorted num_ltb times) /\
  Permutation (sorted num_ltb times) times.
Proof.
  intros Hord. split; [|apply sorted_perm].
  apply (sorted_sorted num_ltb ordered); [| |exact Hord].
  - apply num_ltb_asym.
  - intros a b c Hb. apply num_le_trans. exact Hb.
Qed.

(** The two middle values of the median. *)
Lemma median_middle (times : list num) :
  Forall ordered times -> times <> [] ->
  let n := List.length times in
  exists lo hi,
    In lo times /\ In hi times /\ num_le lo hi /\
    (n <= 2 * List.length (filter (fun u => negb (num_ltb lo u)) times))%nat /\
    (n <= 2 * List.length (filter (fun u => negb (num_ltb u hi)) times))%nat /\
    (n mod 2 = 1 -> lo = hi /\ median times = Ok lo)%nat /\
    (n mod 2 = 0 ->
     median times = (s <- num_add lo hi ;; num_truediv s (PyInt 2)))%nat.
Proof.
  intros Hord Hne n.
  destruct (sorted_times times Hord) as [Hs Hperm].
  pose proof (Permutation_length Hperm) as Hlen. fold n in Hlen.
  assert (Hn : (0 < n)%nat).
  { unfold n. destruct times; [congruence | cbn [List.length]; lia]. }
  set (s := sorted num_ltb times) in *.
  pose proof (Nat.div_mod_eq n 2) as Hdm.
  pose proof (Nat.mod_upper_bound n 2 ltac:(lia)) as Hmod.
  set (k := (n / 2)%nat) in *.
  set (lo := nth (if Nat.eqb (n mod 2) 1 then k else k - 1)%nat s (PyInt 0)).
  set (hi := nth k s (PyInt 0)).
  assert (Hk : (k < List.length s)%nat) by lia.
  assert (Hlo_i : ((if Nat.eqb (n mod 2) 1 then k else k - 1) < List.length s)%nat)
    by (destruct (Nat.eqb (n mod 2) 1); lia).
  destruct (sorted_rank s _ Hs Hlo_i) as [Hlo_in [Hlo_le _]]. fold lo in Hlo_in, Hlo_le.
  destruct (sorted_rank s k Hs Hk) as [Hhi_in [_ Hhi_ge]]. fold hi in Hhi_in, Hhi_ge.
  exists lo, hi.
  split; [eapply Permutation_in; eassumption|].
  split; [eapply Permutation_in; eassumption|].
  split.
  { apply sorted_nth_le; [exact Hs | | exact Hk].
    destruct (Nat.eqb (n mod 2) 1); lia. }
  split.
  { rewrite <- (filter_length_perm _ _ _ Hperm). fold s.
    destruct (Nat.eqb (n mod 2) 1) eqn:E.
    - apply Nat.eqb_eq in E. lia.
    - apply Nat.eqb_neq in E. lia. }
  split.
  { rewrite <- (filter_length_perm _ _ _ Hperm). fold s. lia. }
  unfold median. fold s. rewrite Hlen.
  replace (Nat.eqb n 0) with false by (symmetry; apply Nat.eqb_neq; lia).
  fold k. split.
  - intros Hodd. unfold lo. rewrite Hodd. cbn [Nat.eqb]. split; reflexivity.
  - intros Heven. unfold lo. rewrite Heven. cbn [Nat.eqb]. reflexivity.
Qed.

(** X8.  The median of times that can be ordered is taken from two of
    them, [lo <= hi], that sit in the middle: at least half of the times
    are at or below [lo] and at least half are at or above [hi].  For an
    odd count the two are the same time and it is the median; for an even
    count the median is [(lo + hi) / 2]. *)
Theorem median_of_middle_values (times : list num) :
  Forall ordered times -> times <> [] ->
  let n := List.length times in
  exists lo hi,
    In lo times /\ In hi times /\ num_le lo hi /\
    (n <= 2 * List.length (filter (fun u => negb (num_ltb lo u)) times))%nat /\
    (n <= 2 * List.length (filter (fun u => negb (num_ltb u hi)) times))%nat /\
    (n mod 2 = 1 -> lo = hi /\ median times = Ok lo)%nat /\
    (n mod 2 = 0 ->
     median times = (s <- num_add lo hi ;; num_truediv s (PyInt 2)))%nat.
Proof. exact (median_middle times). Qed.

(** Four times, out of order. *)
Lemma median_of_middle_values_witness :
  exists lo hi,
    In lo [PyInt 7; PyInt 1; PyInt 4; PyInt 2] /\ num_le lo hi /\
    median [PyInt 7; PyInt 1; PyInt 4; PyInt 2] =
    (s <- num_add lo hi ;; num_truediv s (PyInt 2)).
Proof.
  destruct (median_of_middle_values [PyInt 7; PyInt 1; PyInt 4; PyInt 2])
    as [lo [hi [H1 [_ [H3 [_ [_ [_ H7]]]]]]]].
  - repeat constructor; discriminate.
  - discriminate.
  - exists lo, hi. split; [exact H1|]. split; [exact H3|].
    apply H7. reflexivity.
Defined.

(** ** Aggregator: mean *)

Lemma Qred_whole (v : Q) (k : Z) : (v == inject_Z k)%Q -> Qred v = inject_Z k.
Proof.
  intros Hv.
  assert (Hc : (Qred v == inject_Z k)%Q)
    by (eapply Qeq_trans; [apply Qred_correct | exact Hv]).
  pose proof (gcd_Qred v) as Hg.
  destruct (Qred v) as [a b]. cbn [Qnum Qden] in Hg.
  unfold Qeq, inject_Z in Hc. cbn [Qnum Qden] in Hc.
  rewrite Z.mul_1_r in Hc.
  rewrite Hc, Z.gcd_comm, (Z.mul_comm k), Z.gcd_mul_diag_l in Hg by lia.
  assert (b = 1%positive) by lia. subst b.
  unfold inject_Z. f_equal. lia.
Qed.

Lemma Qred_den_one (v : Q) :
  Qden (Qred v) = 1%positive -> (v == inject_Z (Qnum (Qred v)))%Q.
Proof.
  intros Hd. rewrite <- (Qred_correct v) at 1.
  destruct (Qred v) as [a b]. cbn [Qnum Qden] in *. subst b. reflexivity.
Qed.

Lemma exact_sum_ints (zs : list Z) : forall acc : Q,
  (fold_left (fun acc x => acc + get (exact_ratio x) 0) (map PyInt zs) acc
   == acc + inject_Z (fold_right Z.add 0%Z zs))%Q.
Proof.
  induction zs as [|z zs IH]; intros acc; cbn [map fold_left fold_right].
  - unfold inject_Z. ring.
  - rewrite IH. cbn [exact_ratio num_value get]. rewrite inject_Z_plus. ring.
Qed.

Lemma forallb_ints (zs : list Z) :
  forallb is_finite (map PyInt zs) = true /\
  forallb is_int (map PyInt zs) = true.
Proof. induction zs as [|z zs [IH1 IH2]]; cbn; auto. Qed.

(** The mean of whole numbers. *)
Lemma mean_ints (zs : list Z) :
  zs <> [] ->
  let n := Z.of_nat (List.length zs) in
  let total := fold_right Z.add 0 zs in
  mean (map PyInt zs) =
  if total mod n =? 0 then Ok (PyInt (total / n))
  else f <- float_of_fraction (total # Z.to_pos n) ;; Ok (PyFloat f).
Proof.
  intros Hne n total.
  assert (Hn : 0 < n).
  { unfold n. destruct zs; [congruence | cbn [List.length]; lia]. }
  destruct (forallb_ints zs) as [Hfin Hint].
  unfold mean. rewrite length_map. fold n.
  replace (n <? 1) with false by (symmetry; apply Z.ltb_ge; lia).
  rewrite Hfin, Hint. cbn [andb].
  assert (Hv : (exact_sum (map PyInt zs) / inject_Z n == total # Z.to_pos n)%Q).
  { unfold exact_sum. rewrite exact_sum_ints. fold total.
    rewrite Qplus_0_l. unfold Qdiv, Qinv, inject_Z, Qeq, Qmult.
    cbn [Qnum Qden]. destruct n as [|p|p]; try lia. cbn [Qnum Qden Z.to_pos].
    lia. }
  set (v := Qred (exact_sum (map PyInt zs) / inject_Z n)).
  destruct (total mod n =? 0) eqn:Ediv.
  - apply Z.eqb_eq in Ediv.
    assert (Hk : (exact_sum (map PyInt zs) / inject_Z n
                  == inject_Z (total / n))%Q).
    { rewrite Hv. unfold Qeq, inject_Z. cbn [Qnum Qden].
      rewrite Z2Pos.id by lia.
      pose proof (Z.div_mod total n ltac:(lia)). lia. }
    unfold v. rewrite (Qred_whole _ _ Hk). reflexivity.
  - apply Z.eqb_neq in Ediv.
    assert (Hden : (Zpos (Qden v) =? 1) = false).
    { apply Z.eqb_neq. intros Hd.
      assert (Hd' : Qden v = 1%positive) by lia.
      pose proof (Qred_den_one _ Hd') as Hw. fold v in Hw.
      rewrite Hv in Hw. unfold Qeq, inject_Z in Hw. cbn [Qnum Qden] in Hw.
      rewrite Z2Pos.id in Hw by lia. apply Ediv.
      rewrite Z.mul_1_r in Hw. rewrite Hw. apply Z.mod_mul. lia. }
    rewrite Hden. unfold float_of_fraction.
    assert (Hr : Qred v = Qred (total # Z.to_pos n)).
    { apply Qred_complete. unfold v. now rewrite Qred_correct. }
    now rewrite Hr.
Qed.

(** X9.  The mean of whole-number times is their exact sum over their
    count: the quotient itself, as an [int], when the count divides the
    sum, and otherwise the fraction sum over count converted to
    [float]. *)
Theorem mean_of_ints (zs : list Z) :
  zs <> [] ->
  let n := Z.of_nat (List.length zs) in
  let total := fold_right Z.add 0 zs in
  mean (map PyInt zs) =
  if total mod n =? 0 then Ok (PyInt (total / n))
  else f <- float_of_fraction (total # Z.to_pos n) ;; Ok (PyFloat f).
Proof. exact (mean_ints zs). Qed.

(** The times 5, 3, 1, 4, 2, and the times 1, 2. *)
Lemma mean_of_ints_witness :
  mean (map PyInt [5; 3; 1; 4; 2]) = Ok (PyInt 3) /\
  mean (map PyInt [1; 2]) =
  Ok (PyFloat (S754_finite false 6755399441055744 (-52))).
Proof.
  split.
  - rewrite (mean_of_ints [5; 3; 1; 4; 2]) by discriminate. reflexivity.
  - rewrite (mean_of_ints [1; 2]) by discriminate. reflexivity.
Defined.

(** ** The name of the input file *)

Lemma last_component_no_slash (s : string) : forall cur last,
  no_slash cur -> no_slash last -> no_slash (last_component s cur last).
Proof.
  induction s as [|c s IH]; intros cur last Hc Hl; cbn [last_component].
  - destruct (String.eqb cur EmptyString || String.eqb cur "."); assumption.
  - destruct (Ascii.eqb c "/") eqn:E.
    + apply IH; [constructor|].
      destruct (String.eqb cur EmptyString || String.eqb cur "."); assumption.
    + apply IH; [|exact Hl]. apply Ascii.eqb_neq in E.
      clear IH Hl. unfold no_slash in *.
      induction cur as [|a cur IHc]; cbn [append list_ascii_of_string] in *.
      * constructor; [exact E | constructor].
      * inversion Hc; subst. constructor; [assumption | now apply IHc].
Qed.

Lemma last_component_plain (s : string) : forall cur last,
  no_slash s ->
  last_component s cur last =
  if String.eqb (cur ++ s) EmptyString || String.eqb (cur ++ s) "." then last
  else cur ++ s.
Proof.
  induction s as [|c s IH]; intros cur last Hs; cbn [last_component].
  - now rewrite append_nil_r.
  - unfold no_slash in Hs. cbn [list_ascii_of_string] in Hs.
    inversion Hs as [|? ? Hc Hs']; subst.
    apply Ascii.eqb_neq in Hc. rewrite Hc.
    rewrite IH by exact Hs'. rewrite append_assoc. reflexivity.
Qed.

(** Reading a prefix of a path leaves the reader in some state, from
    which the rest of the path is read. *)
Lemma last_component_app (a : string) : forall cur last,
  exists cur' last',
    forall s, last_component (a ++ s) cur last = last_component s cur' last'.
Proof.
  induction a as [|c a IH]; intros cur last; cbn [append last_component].
  - now exists cur, last.
  - destruct (Ascii.eqb c "/"); apply IH.
Qed.

(** X10.  The name taken from the input path for the footer never holds
    a slash; it is the part after the last slash when that part is a file
    name, the whole path when the path is a file name, and a slash at the
    end of the path changes nothing. *)
Theorem path_name_is_last_component (dir file p : string) :
  no_slash (path_name p) /\
  path_name (p ++ "/") = path_name p /\
  (file_name file ->
   path_name (dir ++ "/" ++ file) = file /\ path_name file = file).
Proof.
  split; [apply last_component_no_slash; constructor|].
  split.
  - unfold path_name.
    destruct (last_component_app p EmptyString EmptyString)
      as [cur' [last' H]].
    rewrite H, <- (append_nil_r p), H. cbn [last_component Ascii.eqb].
    change (Ascii.eqb "/" "/") with true. cbv iota. cbn [last_component].
    cbn [String.eqb orb].
    destruct (String.eqb cur' EmptyString || String.eqb cur' "."); reflexivity.
  - intros [Hne [Hdot Hslash]].
    assert (Hkeep : forall last,
               (if String.eqb file EmptyString || String.eqb file "."
                then last else file) = file).
    { intros last. apply String.eqb_neq in Hne, Hdot. now rewrite Hne, Hdot. }
    split.
    + unfold path_name.
      destruct (last_component_app dir EmptyString EmptyString)
        as [cur' [last' H]].
      rewrite H. cbn [append last_component].
      change (Ascii.eqb "/" "/") with true. cbv iota.
      rewrite last_component_plain by exact Hslash. cbn [append].
      apply Hkeep.
    + unfold path_name. rewrite last_component_plain by exact Hslash.
      cbn [append]. apply Hkeep.
Qed.

(** The default input under a directory. *)
Lemma path_name_is_last_component_witness :
  path_name "build/results/benchmark_results.json" = "benchmark_results.json".
Proof.
  apply (path_name_is_last_component "build/results" "benchmark_results.json"
           EmptyString).
  split; [discriminate|]. split; [discriminate|].
  repeat constructor; discriminate.
Defined.

(** ** Classifying again *)

Lemma filter_filter_category (k k' : string) (bs : list benchmark) :
  filter (fun b => String.eqb (category_of b) k')
    (filter (fun b => String.eqb (category_of b) k) bs) =
  if String.eqb k' k then filter (fun b => String.eqb (category_of b) k) bs
  else [].
Proof.
  induction bs as [|b bs IH]; cbn [filter].
  - now destruct (String.eqb k' k).
  - destruct (String.eqb (category_of b) k) eqn:E; [|exact IH].
    apply String.eqb_eq in E. cbn [filter]. rewrite IH, E.
    rewrite (String.eqb_sym k k').
    now destruct (String.eqb k' k).
Qed.

(** X11.  Classifying the records of one category again puts all of them
    back in that category, in the same order, and leaves every other
    category empty. *)
Theorem classification_is_stable (d : document) (k k' : string) :
  let again := {| benchmarks := Some (lookup k (categorize_benchmarks d));
                  context_info := context_info d;
                  other_keys := other_keys d |} in
  lookup k' (categorize_benchmarks again) =
  if String.eqb k' k then lookup k (categorize_benchmarks d) else [].
Proof.
  intros again. rewrite lookup_categorize. cbn [again benchmarks get].
  rewrite (lookup_categorize d k). apply filter_filter_category.
Qed.

(** ** Counts *)

Lemma collect_length {A B : Type} (f : A -> result B) (l : list A) :
  forall ys, collect f l = Ok ys -> Forall2 (fun x y => f x = Ok y) l ys.
Proof.
  induction l as [|x l IH]; cbn [collect]; intros ys H.
  - injection H as <-. constructor.
  - destruct (f x) as [y|e] eqn:Ex; cbn [bind] in H; [|discriminate].
    destruct (collect f l) as [ys'|e]; cbn [bind] in H; [|discriminate].
    injection H as <-. constructor; [exact Ex | now apply IH].
Qed.

Lemma category_sizes (bs : list benchmark) :
  let size k :=
    List.length (filter (fun b => String.eqb (category_of b) k) bs) in
  (size "Core" + size "Network" + size "Config" + size "Memory"
   + size "Other" = List.length bs)%nat.
Proof.
  intros size.
  pose proof (Permutation_length (partition_by_category bs)) as H.
  cbv zeta in H. rewrite !length_app in H. unfold size. lia.
Qed.

(** X12.  The section of a category shows as its count the number of
    rows of its table, one row for each record of the category; and the
    record counts of the five categories add up to the total that the
    overview shows. *)
Theorem counts_agree (d : document) :
  let cats := categorize_benchmarks d in
  (forall category_name bs text,
      bs <> [] -> section_of (category_name, bs) = Ok text ->
      exists avg fastest slowest rows,
        Forall2 (fun b row => render_row b = Ok row) (sorted_by_time bs) rows /\
        List.length rows = List.length bs /\
        text = section_header category_name
                 (str_int (Z.of_nat (List.length rows))) avg fastest slowest
               ++ join rows ++ section_footer) /\
  (List.length (lookup "Core" cats) + List.length (lookup "Network" cats)
   + List.length (lookup "Config" cats) + List.length (lookup "Memory" cats)
   + List.length (lookup "Other" cats)
   = List.length (get (benchmarks d) []))%nat.
Proof.
  intros cats. split.
  - intros category_name bs text Hne Hsec. rewrite section_of_eq in Hsec.
    destruct bs as [|b bs]; [congruence|].
    destruct (generate_summary_stats (b :: bs)) as [[st|]|e] eqn:Est;
      cbn [bind] in Hsec; try discriminate.
    destruct (format_time (avg_time st)) as [avg|e]; cbn [bind] in Hsec;
      [|discriminate].
    destruct (format_time (min_time st)) as [fastest|e]; cbn [bind] in Hsec;
      [|discriminate].
    destruct (format_time (max_time st)) as [slowest|e]; cbn [bind] in Hsec;
      [|discriminate].
    destruct (collect render_row (sorted_by_time (b :: bs))) as [rows|e] eqn:Er;
      cbn [bind] in Hsec; [|discriminate].
    injection Hsec as <-.
    pose proof (collect_length _ _ _ Er) as Hrows.
    assert (Hlen : List.length rows = List.length (b :: bs)).
    { rewrite <- (Forall2_length Hrows).
      apply Permutation_length, sorted_by_time_perm. }
    exists avg, fastest, slowest, rows.
    split; [exact Hrows|]. split; [exact Hlen|].
    destruct (summary_fields _ _ Est) as [_ [Hc _]].
    now rewrite Hlen, <- Hc.
  - unfold cats. rewrite !lookup_categorize. apply category_sizes.
Qed.

(** Two records in one category. *)
Lemma counts_agree_witness :
  let row t := {| name := Some "BM_Memory_Pool"; real_time := Some (PyInt t);
                  cpu_time := None; iterations := None;
                  items_per_second := None |} in
  let d := {| benchmarks := Some [row 9; row 4]; context_info := None;
              other_keys := false |} in
  exists text avg fastest slowest rows,
    section_of ("Memory", [row 9; row 4]) = Ok text /\
    List.length rows = 2%nat /\
    text = section_header "Memory" "2" avg fastest slowest
           ++ join rows ++ section_footer.
Proof.
  intros row d.
  destruct (section_of ("Memory", [row 9; row 4])) as [text|e] eqn:E;
    [|vm_compute in E; discriminate E].
  destruct (proj1 (counts_agree d) "Memory" [row 9; row 4] text
              ltac:(discriminate) E)
    as [avg [fastest [slowest [rows [_ [Hlen Htext]]]]]].
  exists text, avg, fastest, slowest, rows.
  split; [reflexivity|]. split; [exact Hlen|].
  rewrite Htext, Hlen. reflexivity.
Defined.

(** ** Ties in the table *)

Lemma same_time_gt (t : num) (x y : benchmark) :
  ordered t ->
  num_ltb (real_time_of x) (real_time_of y) = true ->
  same_time t x = true -> same_time t y = false.
Proof.
  intros Ht Hlt Hx. unfold same_time in *.
  apply andb_true_iff in Hx. destruct Hx as [H1 H2].
  apply negb_true_iff in H1, H2.
  destruct (num_ltb (real_time_of y) t) eqn:E1; [reflexivity|].
  destruct (num_ltb t (real_time_of y)) eqn:E2; [now rewrite andb_false_r|].
  exfalso.
  assert (H : num_le (real_time_of y) (real_time_of x))
    by (apply (num_le_trans _ t); assumption).
  unfold num_le, le_of in H. congruence.
Qed.

Lemma no_same_time_after (t : num) (x : benchmark) (l : list benchmark) :
  ordered t -> same_time t x = true ->
  Forall (fun z => num_ltb (real_time_of x) (real_time_of z) = true) l ->
  filter (same_time t) l = [].
Proof.
  intros Ht Ex. induction 1 as [|z l Hz _ IH]; cbn [filter]; [reflexivity|].
  now rewrite (same_time_gt t x z Ht Hz Ex).
Qed.

Lemma insert_same_time (t : num) (x : benchmark) (l : list benchmark) :
  ordered t -> Forall (fun b => ordered (real_time_of b)) l ->
  StronglySorted time_le l ->
  filter (same_time t)
    (insert (fun a b => num_ltb (real_time_of a) (real_time_of b)) x l) =
  (filter (same_time t) l ++ filter (same_time t) [x])%list.
Proof.
  intros Ht Hord Hs.
  induction l as [|y l IH]; cbn [insert]; [reflexivity|].
  inversion Hs as [|? ? Hs' Hy]; subst.
  inversion Hord as [|? ? Oy Ol]; subst.
  destruct (num_ltb (real_time_of x) (real_time_of y)) eqn:E.
  - cbn [filter]. destruct (same_time t x) eqn:Ex; [|now rewrite app_nil_r].
    rewrite (same_time_gt t x y Ht E Ex).
    assert (Hnone : filter (same_time t) l = []).
    { apply no_same_time_after with (x := x); [exact Ht | exact Ex|].
      rewrite Forall_forall in Hy, Ol |- *. intros z Hz.
      destruct (num_ltb (real_time_of x) (real_time_of z)) eqn:F;
        [reflexivity|].
      exfalso.
      assert (H : num_le (real_time_of y) (real_time_of x)).
      { apply (num_le_trans _ (real_time_of z));
          [now apply Ol | now apply Hy | exact F]. }
      unfold num_le, le_of in H. congruence. }
    now rewrite Hnone.
  - cbn [filter]. rewrite (IH Ol Hs').
    destruct (same_time t y); reflexivity.
Qed.

Lemma sorted_from_same_time (t : num) (l : list benchmark) :
  ordered t -> forall acc,
  Forall (fun b => ordered (real_time_of b)) acc ->
  Forall (fun b => ordered (real_time_of b)) l ->
  StronglySorted time_le acc ->
  filter (same_time t)
    (fold_left
       (fun acc x =>
          insert (fun a b => num_ltb (real_time_of a) (real_time_of b)) x acc)
       l acc) =
  (filter (same_time t) acc ++ filter (same_time t) l)%list.
Proof.
  intros Ht. induction l as [|x l IH]; intros acc Oacc Ol Hs; cbn [fold_left].
  - now rewrite app_nil_r.
  - inversion Ol as [|? ? Ox Ol']; subst.
    rewrite IH.
    + rewrite (insert_same_time t x acc Ht Oacc Hs).
      cbn [filter]. destruct (same_time t x); cbn [app];
        now rewrite <- ?app_assoc, ?app_nil_r.
    + rewrite Forall_forall in Oacc |- *. intros z Hz.
      apply (Permutation_in _ (insert_perm _ x acc)) in Hz.
      destruct Hz as [<- | Hz]; [exact Ox | now apply Oacc].
    + exact Ol'.
    + apply (insert_sorted _ (fun b => ordered (real_time_of b)));
        try assumption.
      * intros a b. apply num_ltb_asym.
      * intros a b c Hb. unfold le_of. apply num_le_trans. exact Hb.
Qed.

(** X13.  When no [real_time] of a category is a NaN, the table keeps
    ties in input order: for every time [t] that is not a NaN, the records
    of the category whose [real_time] equals [t] come in the table in the
    order they have in the input.  (With a NaN in the category the sort
    can reverse ties, so the condition is needed.) *)
Theorem table_keeps_ties_in_input_order (bs : list benchmark) (t : num) :
  Forall (fun b => ordered (real_time_of b)) bs -> ordered t ->
  filter (same_time t) (sorted_by_time bs) = filter (same_time t) bs.
Proof.
  intros Hord Ht. rewrite sorted_by_time_stable by assumption.
  unfold stable_sort.
  rewrite (sorted_from_same_time t bs Ht []); try assumption;
    [reflexivity | constructor | constructor].
Qed.

(** Two records of 5 ns around one of 3 ns. *)
Lemma table_keeps_ties_in_input_order_witness :
  let row nm t := {| name := Some nm; real_time := Some (PyInt t);
                     cpu_time := None; iterations := None;
                     items_per_second := None |} in
  let bs := [row "first" 5; row "quick" 3; row "second" 5] in
  filter (same_time (PyInt 5)) (sorted_by_time bs)
  = [row "first" 5; row "second" 5].
Proof.
  intros row bs.
  rewrite (table_keeps_ties_in_input_order bs (PyInt 5)).
  - reflexivity.
  - repeat constructor; discriminate.
  - discriminate.
Defined.

(** ** Decimal notation *)

Lemma string_of_revapp (u v : uint) :
  NilEmpty.string_of_uint (revapp u v) =
  NilEmpty.string_of_uint (rev u) ++ NilEmpty.string_of_uint v.
Proof.
  revert v. unfold rev.
  induction u as [|u IH|u IH|u IH|u IH|u IH|u IH|u IH|u IH|u IH|u IH];
    intros v; cbn [revapp]; [reflexivity|..];
    rewrite IH, (IH (_ Nil)); cbn [NilEmpty.string_of_uint];
    rewrite append_assoc; reflexivity.
Qed.

Lemma revapp_nonnil (u v : uint) : v <> Nil -> revapp u v <> Nil.
Proof.
  revert v.
  induction u as [|u IH|u IH|u IH|u IH|u IH|u IH|u IH|u IH|u IH|u IH];
    intros v Hv; cbn [revapp]; [exact Hv|..]; apply IH; discriminate.
Qed.

Lemma string_nonnil (d : uint) :
  d <> Nil -> NilZero.string_of_uint d = NilEmpty.string_of_uint d.
Proof. destruct d; [congruence|..]; reflexivity. Qed.

Lemma to_lu_digit (p : positive) (r : N) :
  (r <= 9)%N ->
  DecimalPos.Unsigned.to_lu (10 * Npos p + r) =
  match r with
  | 0 => D0 | 1 => D1 | 2 => D2 | 3 => D3 | 4 => D4
  | 5 => D5 | 6 => D6 | 7 => D7 | 8 => D8 | _ => D9
  end%N (Pos.to_little_uint p).
Proof.
  intros Hr.
  pose proof (DecimalPos.Unsigned.to_ldec_tenfold p) as H0.
  change (DecimalPos.Unsigned.to_lu (N.pos p)) with (Pos.to_little_uint p) in H0.
  assert (Hs : forall n, DecimalPos.Unsigned.to_lu (n + 1) =
                         Little.succ (DecimalPos.Unsigned.to_lu n)).
  { intros n. rewrite N.add_1_r. apply DecimalPos.Unsigned.to_lu_succ. }
  assert (Hr' : (r = 0 \/ r = 1 \/ r = 2 \/ r = 3 \/ r = 4 \/ r = 5 \/ r = 6
                \/ r = 7 \/ r = 8 \/ r = 9)%N) by lia.
  destruct Hr' as [->|[->|[->|[->|[->|[->|[->|[->|[->| ->]]]]]]]]].
  - now rewrite N.add_0_r.
  - now rewrite Hs, H0.
  - replace (10 * N.pos p + 2)%N with (10 * N.pos p + 1 + 1)%N by lia.
    now rewrite !Hs, H0.
  - replace (10 * N.pos p + 3)%N with (10 * N.pos p + 1 + 1 + 1)%N by lia.
    now rewrite !Hs, H0.
  - replace (10 * N.pos p + 4)%N with (10 * N.pos p + 1 + 1 + 1 + 1)%N by lia.
    now rewrite !Hs, H0.
  - replace (10 * N.pos p + 5)%N
      with (10 * N.pos p + 1 + 1 + 1 + 1 + 1)%N by lia.
    now rewrite !Hs, H0.
  - replace (10 * N.pos p + 6)%N
      with (10 * N.pos p + 1 + 1 + 1 + 1 + 1 + 1)%N by lia.
    now rewrite !Hs, H0.
  - replace (10 * N.pos p + 7)%N
      with (10 * N.pos p + 1 + 1 + 1 + 1 + 1 + 1 + 1)%N by lia.
    now rewrite !Hs, H0.
  - replace (10 * N.pos p + 8)%N
      with (10 * N.pos p + 1 + 1 + 1 + 1 + 1 + 1 + 1 + 1)%N by lia.
    now rewrite !Hs, H0.
  - replace (10 * N.pos p + 9)%N
      with (10 * N.pos p + 1 + 1 + 1 + 1 + 1 + 1 + 1 + 1 + 1)%N by lia.
    now rewrite !Hs, H0.
Qed.

Lemma decimal_digit (r : Z) :
  0 <= r <= 9 -> decimal r = String (digit_char r) EmptyString.
Proof.
  intros Hr.
  assert (H : r = 0 \/ r = 1 \/ r = 2 \/ r = 3 \/ r = 4 \/ r = 5 \/ r = 6
              \/ r = 7 \/ r = 8 \/ r = 9) by lia.
  destruct H as [->|[->|[->|[->|[->|[->|[->|[->|[->| ->]]]]]]]]]; reflexivity.
Qed.

(** Positional notation: the digits of [10 * q + r] are the digits of
    [q] and then the digit [r]. *)
Lemma decimal_step (q r : Z) :
  0 < q -> 0 <= r <= 9 ->
  decimal (10 * q + r) = decimal q ++ String (digit_char r) EmptyString.
Proof.
  intros Hq Hr. unfold decimal.
  destruct q as [|p|p]; try lia.
  assert (HN : Z.to_N (10 * Zpos p + r) = (10 * Npos p + Z.to_N r)%N) by lia.
  rewrite HN. cbn [Z.to_N].
  assert (Hr9 : (Z.to_N r <= 9)%N) by lia.
  pose proof (to_lu_digit p (Z.to_N r) Hr9) as Hlu.
  destruct (10 * N.pos p + Z.to_N r)%N as [|p'] eqn:Ep; [lia|].
  cbn [DecimalPos.Unsigned.to_lu] in Hlu.
  cbn [N.to_uint]. unfold Pos.to_uint. rewrite Hlu.
  pose proof (DecimalPos.Unsigned.to_uint_nonnil p) as Hnn.
  unfold Pos.to_uint in Hnn.
  rewrite (string_nonnil (rev (Pos.to_little_uint p)) Hnn).
  assert (H : r = 0 \/ r = 1 \/ r = 2 \/ r = 3 \/ r = 4 \/ r = 5 \/ r = 6
              \/ r = 7 \/ r = 8 \/ r = 9) by lia.
  destruct H as [->|[->|[->|[->|[->|[->|[->|[->|[->| ->]]]]]]]]];
    cbn [Z.to_N]; unfold rev at 1; cbn [revapp];
    (rewrite string_nonnil by (apply revapp_nonnil; discriminate));
    rewrite string_of_revapp; reflexivity.
Qed.

(** ** Thousands separators *)

Lemma string_length_app (a b : string) :
  String.length (a ++ b) = (String.length a + String.length b)%nat.
Proof. induction a as [|c a IH]; cbn; [reflexivity | now rewrite IH]. Qed.

Lemma group3_short (b : string) :
  (String.length b <= 3)%nat -> group3 (String.length b) b = b.
Proof.
  destruct b as [|c1 [|c2 [|c3 [|c4 b]]]]; cbn [String.length]; intros H;
    try reflexivity. lia.
Qed.

Lemma group3_app (b : string) (a : string) :
  String.length b = 3%nat -> a <> EmptyString ->
  group3 (String.length a + 3) (a ++ b) =
  group3 (String.length a) a ++ "," ++ b.
Proof.
  intros Hb. induction a as [|c a IH]; intros Ha; [congruence|].
  cbn [String.length append Nat.add group3].
  destruct a as [|c' a'].
  - cbn [append String.length Nat.add].
    destruct b as [|c1 [|c2 [|c3 [|c4 b]]]]; try discriminate Hb.
    reflexivity.
  - specialize (IH ltac:(discriminate)).
    set (a := String c' a') in *.
    assert (Hmod : ((String.length a + 3) mod 3 = String.length a mod 3)%nat).
    { replace (String.length a + 3)%nat with (String.length a + 1 * 3)%nat
        by lia. apply Nat.Div0.mod_add. }
    rewrite Hmod, IH.
    replace (a ++ b) with (String c' (a' ++ b)) by reflexivity.
    cbv iota.
    unfold a at 3. cbv iota. fold a.
    destruct (Nat.eqb (String.length a mod 3) 0); reflexivity.
Qed.

Lemma decimal_div10 (z : Z) :
  10 <= z ->
  decimal z = decimal (z / 10) ++ String (digit_char (z mod 10)) EmptyString.
Proof.
  intros Hz. pose proof (Z.div_mod z 10 ltac:(lia)) as H.
  pose proof (Z.mod_pos_bound z 10 ltac:(lia)) as Hr.
  rewrite H at 1. apply decimal_step; lia.
Qed.

Lemma decimal_nonempty (z : Z) : decimal z <> EmptyString.
Proof. apply decimal_digits. Qed.

Lemma decimal_thousands (z : Z) :
  1000 <= z -> decimal z = decimal (z / 1000) ++ fixed_digits 3 (z mod 1000).
Proof.
  intros Hz.
  pose proof (Z.div_mod z 1000 ltac:(lia)) as H.
  pose proof (Z.mod_pos_bound z 1000 ltac:(lia)) as Hr.
  set (q := z / 1000) in *. set (r := z mod 1000) in *.
  assert (Hq : 1 <= q) by lia.
  assert (E1 : z / 10 = 100 * q + r / 10).
  { rewrite H. replace (1000 * q + r) with (r + (100 * q) * 10) by lia.
    rewrite Z.div_add by lia. lia. }
  assert (E2 : z mod 10 = r mod 10).
  { rewrite H. replace (1000 * q + r) with (r + (100 * q) * 10) by lia.
    apply Z.mod_add. lia. }
  assert (Hr10 : 0 <= r / 10 < 100).
  { split; [apply Z.div_pos; lia | apply Z.div_lt_upper_bound; lia]. }
  assert (E3 : z / 10 / 10 = 10 * q + r / 10 / 10).
  { rewrite E1. replace (100 * q + r / 10) with (r / 10 + (10 * q) * 10) by lia.
    rewrite Z.div_add by lia. lia. }
  assert (E4 : (z / 10) mod 10 = (r / 10) mod 10).
  { rewrite E1. replace (100 * q + r / 10) with (r / 10 + (10 * q) * 10) by lia.
    apply Z.mod_add. lia. }
  assert (Hr100 : 0 <= r / 10 / 10 < 10).
  { split; [apply Z.div_pos; lia | apply Z.div_lt_upper_bound; lia]. }
  assert (E5 : z / 10 / 10 / 10 = q).
  { rewrite E3. replace (10 * q + r / 10 / 10) with (r / 10 / 10 + q * 10) by lia.
    rewrite Z.div_add by lia. rewrite Z.div_small by lia. lia. }
  assert (E6 : (z / 10 / 10) mod 10 = (r / 10 / 10) mod 10).
  { rewrite E3. replace (10 * q + r / 10 / 10) with (r / 10 / 10 + q * 10) by lia.
    apply Z.mod_add. lia. }
  rewrite (decimal_div10 z) by lia.
  rewrite (decimal_div10 (z / 10)) by lia.
  rewrite (decimal_div10 (z / 10 / 10)) by lia.
  rewrite E5, E6, E4, E2. cbn [fixed_digits append].
  now rewrite !append_assoc.
Qed.

Lemma fixed_digits_length (p : nat) (n : Z) :
  String.length (fixed_digits p n) = p.
Proof.
  revert n. induction p as [|p IH]; intros n; cbn [fixed_digits];
    [reflexivity|].
  rewrite string_length_app, IH. cbn [String.length]. lia.
Qed.

Lemma grouped_below_thousand :
  forallb (fun z => String.eqb (format_grouped z) (decimal z))
    (map Z.of_nat (seq 0 1000)) = true.
Proof. vm_compute. reflexivity. Qed.

(** X14.  The iteration count is shown in groups of three digits: a count
    below a thousand as its digits; a larger count as the grouping of its
    thousands, a comma, and its last three digits; a negative count as a
    minus sign and the grouping of its magnitude. *)
Theorem format_grouped_by_thousands (z : Z) :
  (0 <= z < 1000 -> format_grouped z = decimal z) /\
  (1000 <= z ->
   format_grouped z =
   format_grouped (z / 1000) ++ "," ++ fixed_digits 3 (z mod 1000)) /\
  (z < 0 -> format_grouped z = "-" ++ format_grouped (- z)).
Proof.
  split; [|split].
  - intros Hz. pose proof grouped_below_thousand as H.
    rewrite forallb_forall in H. apply String.eqb_eq, H.
    apply in_map_iff. exists (Z.to_nat z). split; [lia|]. apply in_seq. lia.
  - intros Hz.
    assert (Hq : 0 <= z / 1000) by (apply Z.div_pos; lia).
    unfold format_grouped.
    replace (z <? 0) with false by (symmetry; apply Z.ltb_ge; lia).
    replace (z / 1000 <? 0) with false by (symmetry; apply Z.ltb_ge; lia).
    rewrite !Z.abs_eq by lia. cbn [append].
    rewrite (decimal_thousands z Hz) at 2.
    rewrite (decimal_thousands z Hz), string_length_app, fixed_digits_length.
    apply group3_app; [apply fixed_digits_length | apply decimal_nonempty].
  - intros Hz. unfold format_grouped.
    replace (z <? 0) with true by (symmetry; apply Z.ltb_lt; lia).
    replace (- z <? 0) with false by (symmetry; apply Z.ltb_ge; lia).
    now rewrite Z.abs_opp.
Qed.

(** One million two hundred thirty-four thousand five hundred sixty-seven. *)
Lemma format_grouped_by_thousands_witness :
  format_grouped 1234567 = format_grouped 1234 ++ ",567" /\
  format_grouped 1234 = format_grouped 1 ++ ",234" /\
  format_grouped 1 = "1".
Proof.
  split; [|split].
  - apply (format_grouped_by_thousands 1234567). lia.
  - apply (format_grouped_by_thousands 1234). lia.
  - apply (format_grouped_by_thousands 1). lia.
Defined.

(** ** Throughput *)

Lemma scaled_round_whole (m : positive) (e : Z) :
  nearest (scaled_round 0 m e) (finite_value false m e).
Proof.
  unfold scaled_round, finite_value. cbn [cond_Zopp].
  change (10 ^ Z.of_nat 0) with 1. rewrite !Z.mul_1_r.
  destruct (0 <=? e) eqn:He.
  - unfold inject_Z. apply nearest_ratio; [lia | intros H; lia].
  - apply Z.leb_gt in He. pose proof (pow2_pos (- e) ltac:(lia)) as Hp.
    pose proof (round_half_even_spec (Zpos m) (2 ^ (- e)) Hp) as [H1 H2].
    apply nearest_ratio; rewrite Z2Pos.id by assumption; assumption.
Qed.

Lemma fixed_point_whole (n : Z) : fixed_point 0 n = decimal n.
Proof.
  unfold fixed_point. change (10 ^ Z.of_nat 0) with 1.
  now rewrite Z.div_1_r, append_nil_r.
Qed.

Lemma nearest_zero_whole : nearest 0 0.
Proof.
  change 0%Q with (0 # 1). apply nearest_ratio; [lia | intros H; lia].
Qed.

Lemma format_whole (K : Z) (r : spec_float) :
  fits K false r ->
  exists y n,
    float_value r = Vfin y /\ nearest n y /\ format_float 0 r = decimal n.
Proof.
  intros [-> | [m [e [d [-> _]]]]].
  - exists 0%Q, 0. split; [reflexivity|]. split; [apply nearest_zero_whole|].
    reflexivity.
  - exists (finite_value false m e), (scaled_round 0 m e).
    split; [reflexivity|]. split; [apply scaled_round_whole|].
    cbn [format_float append]. apply fixed_point_whole.
Qed.

(** A whole number below [2^1023] in magnitude converts to [float]. *)
Lemma float_of_int_fits (z : Z) :
  Z.abs z < 2 ^ 1023 ->
  exists r, float_of_int z = Ok r /\ fits 1024 (z <? 0) r.
Proof.
  intros Hz. unfold float_of_int, binary_normalize.
  destruct z as [|p|p]; cbn [Z.abs] in Hz.
  - eexists. split; [reflexivity | now left].
  - pose proof (binary_round_fits false p 0 1023 Hz ltac:(discriminate)
                  ltac:(discriminate)) as H.
    clear Hz. apply (fits_le _ 1024) in H; [|discriminate].
    destruct H as [H | [m [e [d [H Hd]]]]]; rewrite H; eexists;
      (split; [reflexivity|]); [now left | right; now exists m, e, d].
  - pose proof (binary_round_fits true p 0 1023 Hz ltac:(discriminate)
                  ltac:(discriminate)) as H.
    clear Hz. apply (fits_le _ 1024) in H; [|discriminate].
    destruct H as [H | [m [e [d [H Hd]]]]]; rewrite H; eexists;
      (split; [reflexivity|]); [now left | right; now exists m, e, d].
Qed.

Lemma positive_float (f : spec_float) (x : Q) :
  float_value f = Vfin x -> (0 < x)%Q -> exists m e, f = S754_finite false m e.
Proof.
  destruct f as [s|s| |s m e]; cbn [float_value]; try discriminate.
  - intros H Hx. injection H as <-. exfalso. apply (Qlt_irrefl 0 Hx).
  - destruct s; discriminate.
  - intros H Hx. injection H as <-. destruct s; [|now exists m, e].
    exfalso. apply (Qlt_irrefl 0).
    eapply Qlt_trans; [exact Hx | apply finite_value_neg].
Qed.

(** X15.  The throughput cell reads N/A when [items_per_second] is zero
    or negative (an absent one counts as 0); when it is positive, the
    cell is the whole number nearest to the value as a [float] (ties to
    even), in digits without a decimal point, followed by items/sec. *)
Theorem throughput_cell (ips : num) (x : Q) :
  num_value ips = Vfin x ->
  ((x <= 0)%Q -> throughput_of ips = Ok "N/A") /\
  ((0 < x)%Q ->
   match ips with
   | PyInt z => z < 2 ^ 1023
   | PyFloat _ => True
   end ->
   exists f y n,
     match ips with
     | PyInt z => float_of_int z = Ok f
     | PyFloat g => f = g
     end /\
     float_value f = Vfin y /\ nearest n y /\ digits_only (decimal n) /\
     throughput_of ips = Ok (decimal n ++ " items/sec")).
Proof.
  intros Hx. unfold throughput_of, num_gtb, num_ltb. rewrite Hx.
  cbn [num_value value_ltb]. change (inject_Z 0) with 0%Q. split.
  - intros Hle. apply Qltb_false in Hle. now rewrite Hle.
  - intros Hpos Hrange. rewrite (proj2 (Qltb_true 0 x) Hpos).
    destruct ips as [z|g].
    + cbn [num_value] in Hx. injection Hx as <-.
      change 0%Q with (inject_Z 0) in Hpos. rewrite <- Zlt_Qlt in Hpos.
      assert (Habs : Z.abs z < 2 ^ 1023)
        by (rewrite Z.abs_eq by (clear Hrange; lia); exact Hrange).
      destruct (float_of_int_fits z Habs) as [r [Hr Hf]].
      replace (z <? 0) with false in Hf
        by (symmetry; apply Z.ltb_ge; clear Hrange Habs; lia).
      destruct (format_whole 1024 r Hf) as [y [n [Hy [Hn Hfmt]]]].
      exists r, y, n. cbn [format_f]. rewrite Hr. cbn [bind]. rewrite Hfmt.
      split; [reflexivity|]. split; [exact Hy|]. split; [exact Hn|].
      split; [apply decimal_digits | reflexivity].
    + cbn [num_value] in Hx.
      destruct (positive_float g x Hx Hpos) as [m [e ->]].
      exists (S754_finite false m e), (finite_value false m e),
        (scaled_round 0 m e).
      split; [reflexivity|]. split; [reflexivity|].
      split; [apply scaled_round_whole|]. split; [apply decimal_digits|].
      cbn [format_f bind format_float append]. now rewrite fixed_point_whole.
Qed.

(** No items, and two and a half million items a second. *)
Lemma throughput_cell_witness :
  throughput_of (PyInt 0) = Ok "N/A" /\
  exists n,
    digits_only (decimal n) /\
    throughput_of (PyInt 2500000) = Ok (decimal n ++ " items/sec").
Proof.
  split.
  - apply (throughput_cell (PyInt 0) 0 eq_refl). discriminate.
  - destruct (throughput_cell (PyInt 2500000) (inject_Z 2500000) eq_refl)
      as [_ H].
    destruct (H eq_refl eq_refl) as [f [y [n [_ [_ [_ [Hd Ht]]]]]]].
    exists n. split; [exact Hd | exact Ht].
Defined.

(** ** No exception on moderate data *)

Lemma moderate_convertible (x : num) : moderate x -> convertible x.
Proof.
  intros [v [Hv Hb]]. destruct x as [z|f]; [|exact I].
  cbn [num_value] in Hv. injection Hv as <-. cbn [convertible].
  change (Qabs (inject_Z z)) with (inject_Z (Z.abs z)) in Hb.
  rewrite <- Zle_Qle in Hb.
  eapply Z.le_lt_trans; [exact Hb|]. apply Z.pow_lt_mono_r; lia.
Qed.

Lemma format_f_ok (p : nat) (x : num) :
  convertible x -> exists s, format_f p x = Ok s.
Proof.
  destruct x as [z|f]; cbn [convertible format_f]; intros H.
  - destruct (float_of_int_fits z H) as [r [Hr _]]. rewrite Hr.
    cbn [bind]. now eexists.
  - now eexists.
Qed.

Lemma pow2_1023_1024 : 2 ^ 1023 < 2 ^ 1024.
Proof. apply Z.pow_lt_mono_r; lia. Qed.

(** Division by a constant of the program raises for no float, and for
    no [int] that converts to [float]. *)
Lemma num_truediv_ok (x : num) (k : Z) :
  convertible x ->
  In k [2; 1000; 1000000; 1000000000; 1024; 1024 ^ 2; 1024 ^ 3] ->
  exists f, num_truediv x (PyInt k) = Ok (PyFloat f).
Proof.
  intros Hx Hk.
  destruct (divisor_constants k Hk) as [Hk2 [my [ey [Hc _]]]].
  destruct x as [z|f]; cbn [convertible num_truediv] in *.
  - destruct (Z.eq_dec z 0) as [->|Hz].
    + unfold int_truediv. destruct k; try (clear Hx; lia); now eexists.
    + assert (Hz' : Z.abs z < 2 ^ 1024)
        by (eapply Z.lt_trans; [exact Hx | apply pow2_1023_1024]).
      destruct (int_truediv_fits z k Hz Hz' Hk2) as [r [Hr _]].
      rewrite Hr. cbn [bind]. now eexists.
  - rewrite Hc. cbn [bind float_truediv]. now eexists.
Qed.

(** [format_time] raises for no float, whatever the
    float, and for no [int] that converts to [float]. *)
Lemma format_time_ok (x : num) :
  convertible x -> exists s, format_time x = Ok s.
Proof.
  intros Hx. unfold format_time.
  assert (Hq : forall k unit,
             In k [2; 1000; 1000000; 1000000000; 1024; 1024 ^ 2; 1024 ^ 3] ->
             exists s,
               (q <- num_truediv x (PyInt k) ;;
                s <- format_f 2 q ;; Ok (s ++ unit)) = Ok s).
  { intros k unit Hk. destruct (num_truediv_ok x k Hx Hk) as [f Hf].
    rewrite Hf. cbn [bind format_f]. now eexists. }
  destruct (num_ltb x (PyInt 1000)).
  - destruct (format_f_ok 2 x Hx) as [s Hs]. rewrite Hs. cbn [bind].
    now eexists.
  - destruct (num_ltb x (PyInt 1000000)); [apply Hq; cbn; tauto|].
    destruct (num_ltb x (PyInt 1000000000)); apply Hq; cbn; tauto.
Qed.

Lemma throughput_ok (x : num) :
  convertible x -> exists s, throughput_of x = Ok s.
Proof.
  intros Hx. unfold throughput_of.
  destruct (num_gtb x (PyInt 0)); [|now eexists].
  destruct (format_f_ok 0 x Hx) as [s Hs]. rewrite Hs. cbn [bind].
  now eexists.
Qed.

Lemma render_row_ok (b : benchmark) :
  sane b -> exists row, render_row b = Ok row.
Proof.
  intros [H1 [H2 H3]]. rewrite render_row_named. unfold row_named.
  destruct (throughput_ok _ (moderate_convertible _ H3)) as [t Ht].
  destruct (format_time_ok _ (moderate_convertible _ H1)) as [r Hr].
  destruct (format_time_ok _ (moderate_convertible _ H2)) as [c Hc].
  rewrite Ht, Hr, Hc. cbn [bind]. now eexists.
Qed.

Lemma collect_ok {A B : Type} (f : A -> result B) (l : list A) :
  Forall (fun x => exists y, f x = Ok y) l -> exists ys, collect f l = Ok ys.
Proof.
  induction 1 as [|x l [y Hy] _ [ys IH]]; cbn [collect].
  - now eexists.
  - rewrite Hy, IH. cbn [bind]. now eexists.
Qed.

Lemma moderate_ordered (x : num) : moderate x -> ordered x.
Proof. intros [v [Hv _]]. unfold ordered. now rewrite Hv. Qed.

Lemma moderate_finite (x : num) : moderate x -> is_finite x = true.
Proof.
  intros [v [Hv _]]. unfold is_finite, exact_ratio. now rewrite Hv.
Qed.

Lemma exact_sum_bound (l : list num) :
  Forall moderate l -> forall acc : Q,
  (Qabs (fold_left (fun acc x => acc + get (exact_ratio x) 0) l acc)
   <= Qabs acc + inject_Z (Z.of_nat (List.length l)) * inject_Z (2 ^ 1000))%Q.
Proof.
  induction 1 as [|x l [v [Hv Hb]] _ IH]; intros acc;
    cbn [fold_left List.length].
  - change (inject_Z (Z.of_nat 0)) with 0%Q. rewrite Qmult_0_l, Qplus_0_r.
    apply Qle_refl.
  - eapply Qle_trans; [apply IH|].
    unfold exact_ratio. rewrite Hv. cbn [get].
    rewrite Nat2Z.inj_succ, <- Z.add_1_r, inject_Z_plus.
    eapply Qle_trans.
    + apply Qplus_le_compat; [apply Qabs_triangle | apply Qle_refl].
    + setoid_replace
        (Qabs acc + Qabs v
         + inject_Z (Z.of_nat (List.length l)) * inject_Z (2 ^ 1000))%Q
        with (Qabs acc
              + (inject_Z (Z.of_nat (List.length l)) * inject_Z (2 ^ 1000)
                 + Qabs v))%Q by ring.
      apply Qplus_le_compat; [apply Qle_refl|].
      setoid_replace
        ((inject_Z (Z.of_nat (List.length l)) + inject_Z 1)
         * inject_Z (2 ^ 1000))%Q
        with (inject_Z (Z.of_nat (List.length l)) * inject_Z (2 ^ 1000)
              + inject_Z (2 ^ 1000))%Q by ring.
      apply Qplus_le_compat; [apply Qle_refl | exact Hb].
Qed.

Lemma mean_value_bound (l : list num) :
  l <> [] -> Forall moderate l ->
  (Qabs (exact_sum l / inject_Z (Z.of_nat (List.length l)))
   <= inject_Z (2 ^ 1000))%Q.
Proof.
  intros Hne Hl.
  pose proof (exact_sum_bound l Hl 0) as H. fold (exact_sum l) in H.
  change (Qabs 0) with 0%Q in H. rewrite Qplus_0_l in H.
  set (n := inject_Z (Z.of_nat (List.length l))) in *.
  assert (Hn : (0 < n)%Q).
  { unfold n. change 0%Q with (inject_Z 0). rewrite <- Zlt_Qlt.
    destruct l; [congruence | cbn [List.length]; lia]. }
  apply Qabs_Qle_condition in H. destruct H as [H1 H2].
  apply Qabs_Qle_condition. split.
  - apply Qle_shift_div_l; [exact Hn|].
    setoid_replace (- inject_Z (2 ^ 1000) * n)%Q
      with (- (n * inject_Z (2 ^ 1000)))%Q by ring.
    exact H1.
  - apply Qle_shift_div_r; [exact Hn|].
    setoid_replace (inject_Z (2 ^ 1000) * n)%Q
      with (n * inject_Z (2 ^ 1000))%Q by ring.
    exact H2.
Qed.

(** A fraction of magnitude at most [2^1000] converts to [float]. *)
Lemma int_truediv_ratio_ok (a : Z) (b : positive) :
  Z.abs a <= 2 ^ 1000 * Zpos b -> exists r, int_truediv a (Zpos b) = Ok r.
Proof.
  intros Hab. unfold int_truediv.
  destruct (Z.eq_dec a 0) as [->|Ha]; [now eexists|].
  assert (Hlt : Zpos (Z.to_pos (Z.abs a)) < 2 ^ (1000 + Zdigits2 (Zpos b))).
  { rewrite Z2Pos.id by (clear Hab; lia).
    pose proof (Zdigits2_gt b) as Hb. pose proof (Zdigits2_nonneg (Zpos b)).
    rewrite Z.pow_add_r by lia.
    eapply Z.le_lt_trans; [exact Hab|].
    apply Z.mul_lt_mono_pos_l; [apply pow2_pos; lia | exact Hb]. }
  clear Hab.
  pose proof (Zdigits2_nonneg (Zpos b)) as HD.
  assert (Hsum : 1000 + Zdigits2 (Zpos b) + 0 - (Zdigits2 (Zpos b) + 0) + 2
                 <= 1024) by (clear Hlt; lia).
  destruct a as [|pa|pa]; [congruence | |];
    cbn [Z.abs Z.to_pos Z.ltb Z.compare] in *;
    match goal with
    | |- context [S754_finite ?sx pa 0] =>
        pose proof (SFdiv_fits sx false pa b 0 0 _ Hlt ltac:(clear Hlt; lia)
                      Hsum) as H
    end;
    clear Hlt; cbn [xorb] in H;
    (destruct H as [H | [m [e [d [H Hd]]]]]; rewrite H; now eexists).
Qed.

Lemma mean_ok (times : list num) :
  times <> [] -> Forall moderate times ->
  exists avg, mean times = Ok avg /\ convertible avg.
Proof.
  intros Hne Hmod. unfold mean.
  assert (Hn : 0 < Z.of_nat (List.length times)).
  { destruct times; [congruence | cbn [List.length]; lia]. }
  replace (Z.of_nat (List.length times) <? 1) with false
    by (symmetry; apply Z.ltb_ge; lia).
  assert (Hfin : forallb is_finite times = true).
  { apply forallb_forall. intros x Hx. apply moderate_finite.
    rewrite Forall_forall in Hmod. now apply Hmod. }
  rewrite Hfin.
  pose proof (mean_value_bound times Hne Hmod) as Hb.
  set (q := (exact_sum times / inject_Z (Z.of_nat (List.length times)))%Q) in *.
  assert (Hv : (Qabs (Qred q) <= inject_Z (2 ^ 1000))%Q)
    by (now rewrite Qred_correct).
  set (v := Qred q) in *.
  assert (Hab : Z.abs (Qnum v) <= 2 ^ 1000 * Zpos (Qden v)).
  { destruct v as [a b]. unfold Qabs, Qle, inject_Z in Hv.
    cbn [Qnum Qden] in *. rewrite Z.mul_1_r in Hv. exact Hv. }
  destruct (forallb is_int times && (Zpos (Qden v) =? 1)) eqn:E.
  - apply andb_true_iff in E. destruct E as [_ E]. apply Z.eqb_eq in E.
    eexists. split; [reflexivity|]. cbn [convertible].
    rewrite E, Z.mul_1_r in Hab.
    eapply Z.le_lt_trans; [exact Hab|]. apply Z.pow_lt_mono_r; lia.
  - unfold float_of_fraction.
    assert (Hr : Qred v = v) by (apply Qred_complete, Qred_correct).
    rewrite Hr.
    destruct (int_truediv_ratio_ok (Qnum v) (Qden v) Hab) as [r Hr'].
    rewrite Hr'. cbn [bind]. eexists. split; [reflexivity | exact I].
Qed.

Lemma pow2_1023_sum (a b : Z) :
  Z.abs a < 2 ^ 1023 -> Z.abs b < 2 ^ 1023 -> Z.abs (a + b) < 2 ^ 1024.
Proof.
  intros Ha Hb.
  assert (E : 2 ^ 1024 = 2 ^ 1023 + 2 ^ 1023).
  { replace 1024 with (1023 + 1) by reflexivity.
    rewrite Z.pow_add_r by lia. change (2 ^ 1) with 2. lia. }
  rewrite E. clear E. set (B := 2 ^ 1023) in *. clearbody B. lia.
Qed.

Lemma median_ok (times : list num) :
  times <> [] -> Forall convertible times -> exists m, median times = Ok m.
Proof.
  intros Hne Hconv. unfold median.
  pose proof (sorted_perm num_ltb times) as Hperm.
  pose proof (Permutation_length Hperm) as Hlen.
  set (s := sorted num_ltb times) in *.
  assert (Hs : Forall convertible s).
  { rewrite Forall_forall in Hconv |- *. intros x Hx. apply Hconv.
    eapply Permutation_in; eassumption. }
  assert (Hn : (0 < List.length s)%nat).
  { rewrite Hlen. destruct times; [congruence | cbn [List.length]; lia]. }
  replace (Nat.eqb (List.length s) 0) with false
    by (symmetry; apply Nat.eqb_neq; lia).
  destruct (Nat.eqb (List.length s mod 2) 1) eqn:Eodd; [now eexists|].
  apply Nat.eqb_neq in Eodd.
  pose proof (Nat.div_mod_eq (List.length s) 2) as Hdm.
  pose proof (Nat.mod_upper_bound (List.length s) 2 ltac:(lia)) as Hmod.
  set (k := (List.length s / 2)%nat) in *.
  assert (Hlo : convertible (nth (k - 1) s (PyInt 0))).
  { rewrite Forall_forall in Hs. apply Hs, nth_In. lia. }
  assert (Hhi : convertible (nth k s (PyInt 0))).
  { rewrite Forall_forall in Hs. apply Hs, nth_In. lia. }
  destruct (nth (k - 1) s (PyInt 0)) as [a|x], (nth k s (PyInt 0)) as [b|y];
    cbn [convertible num_add] in *.
  - cbn [bind num_truediv].
    destruct (Z.eq_dec (a + b) 0) as [E|E].
    + rewrite E. now eexists.
    + destruct (int_truediv_fits (a + b) 2 E (pow2_1023_sum a b Hlo Hhi)
                  ltac:(lia)) as [r [Hr _]].
      rewrite Hr. now eexists.
  - destruct (float_of_int_fits a Hlo) as [r [Hr _]]. rewrite Hr.
    cbn [bind]. destruct (num_truediv_ok (PyFloat (SFadd prec emax r y)) 2 I)
      as [f Hf]; [cbn; tauto|]. rewrite Hf. now eexists.
  - destruct (float_of_int_fits b Hhi) as [r [Hr _]]. rewrite Hr.
    cbn [bind]. destruct (num_truediv_ok (PyFloat (SFadd prec emax x r)) 2 I)
      as [f Hf]; [cbn; tauto|]. rewrite Hf. now eexists.
  - cbn [bind]. destruct (num_truediv_ok (PyFloat (SFadd prec emax x y)) 2 I)
      as [f Hf]; [cbn; tauto|]. rewrite Hf. now eexists.
Qed.

Lemma summary_ok (b : benchmark) (bs : list benchmark) :
  Forall sane (b :: bs) ->
  exists st,
    generate_summary_stats (b :: bs) = Ok (Some st) /\
    convertible (avg_time st) /\ convertible (min_time st) /\
    convertible (max_time st).
Proof.
  intros Hsane.
  assert (Hmod : Forall moderate (map real_time_of (b :: bs))).
  { rewrite Forall_forall in Hsane |- *. intros t Ht.
    apply in_map_iff in Ht. destruct Ht as [c [<- Hc]]. now apply Hsane. }
  assert (Hconv : Forall convertible (map real_time_of (b :: bs))).
  { eapply Forall_impl; [|exact Hmod]. apply moderate_convertible. }
  assert (Hord : Forall ordered (map real_time_of (b :: bs))).
  { eapply Forall_impl; [|exact Hmod]. apply moderate_ordered. }
  unfold generate_summary_stats.
  set (times := map real_time_of (b :: bs)) in *.
  assert (Hne : times <> []) by discriminate.
  destruct (mean_ok times Hne Hmod) as [avg [Havg Hca]].
  destruct (median_ok times Hne Hconv) as [med Hmed].
  rewrite Havg, Hmed. cbn [bind].
  unfold times in *. cbn [map] in *. cbn [py_min py_max bind].
  inversion Hord as [|? ? H0 Hrest]; subst.
  destruct (py_min_fold _ _ H0 Hrest) as [Hin1 _].
  destruct (py_max_fold _ _ H0 Hrest) as [Hin2 _].
  eexists. split; [reflexivity|].
  cbn [avg_time min_time max_time].
  rewrite Forall_forall in Hconv.
  split; [exact Hca|]. split; apply Hconv.
  - destruct Hin1 as [-> | H]; [now left | now right].
  - destruct Hin2 as [-> | H]; [now left | now right].
Qed.

Lemma section_ok (category_name : string) (bs : list benchmark) :
  Forall sane bs -> exists text, section_of (category_name, bs) = Ok text.
Proof.
  intros Hsane. rewrite section_of_eq.
  destruct bs as [|b bs]; [now eexists|].
  destruct (summary_ok b bs Hsane) as [st [Hst [Ha [Hmin Hmax]]]].
  rewrite Hst. cbn [bind].
  destruct (format_time_ok _ Ha) as [s1 H1].
  destruct (format_time_ok _ Hmin) as [s2 H2].
  destruct (format_time_ok _ Hmax) as [s3 H3].
  rewrite H1, H2, H3. cbn [bind].
  destruct (collect_ok render_row (sorted_by_time (b :: bs))) as [rows Hrows].
  { rewrite Forall_forall in Hsane |- *. intros c Hc. apply render_row_ok.
    apply Hsane. eapply Permutation_in; [apply sorted_by_time_perm | exact Hc]. }
  rewrite Hrows. cbn [bind]. now eexists.
Qed.

(** X16.  Rendering raises no exception on moderate data: when every
    real_time, cpu_time and items_per_second of the loaded object (an
    absent one counting as 0) is a finite number of magnitude at most
    [2^1000], [generate_html_report] returns a page. *)
Theorem rendering_succeeds_on_moderate_data
  (d : document) (input_file now : string) :
  Forall sane (get (benchmarks d) []) ->
  exists html, generate_html_report (JObject d) input_file now = Ok html.
Proof.
  intros Hsane. rewrite generate_html_report_sections.
  destruct (truthy (JObject d)); [|now eexists].
  destruct (collect_ok section_of
              (filter non_empty (categorize_benchmarks d))) as [ss Hss].
  - apply Forall_forall. intros [k bs] Hin.
    apply filter_In in Hin. destruct Hin as [Hin _].
    apply section_ok.
    assert (Hkeys : map fst (categorize_benchmarks d)
                    = ["Core"; "Network"; "Config"; "Memory"; "Other"])
      by (unfold categorize_benchmarks; now rewrite keys_fold).
    rewrite (five_entries _ Hkeys) in Hin.
    rewrite Forall_forall in Hsane |- *. intros b Hb. apply Hsane.
    cbn [In] in Hin.
    destruct Hin as [E|[E|[E|[E|[E|[]]]]]]; injection E as <- <-;
      apply in_lookup_categorize in Hb; tauto.
  - rewrite Hss. cbn [bind]. now eexists.
Qed.

(** Two records, one of them without any number. *)
Lemma rendering_succeeds_on_moderate_data_witness :
  let d := {| benchmarks :=
                Some [ {| name := Some "BM_Batch_Send";
                          real_time := Some (PyInt 2500000);
                          cpu_time := Some (PyInt 2400000);
                          iterations := Some 280;
                          items_per_second := Some (PyInt 400) |};
                       {| name := None; real_time := None; cpu_time := None;
                          iterations := None; items_per_second := None |} ];
              context_info := None; other_keys := false |} in
  exists html,
    generate_html_report (JObject d) "results.json" "2025-01-01 00:00:00"
    = Ok html.
Proof.
  intros d. apply rendering_succeeds_on_moderate_data.
  assert (H : forall z, Z.abs z <= 2500000 -> moderate (PyInt z)).
  { intros z Hz. exists (inject_Z z). split; [reflexivity|].
    change (Qabs (inject_Z z)) with (inject_Z (Z.abs z)).
    rewrite <- Zle_Qle. eapply Z.le_trans; [exact Hz|]. discriminate. }
  repeat constructor; apply H; cbn; lia.
Defined.

(** ** Formatters outside their usual range *)

Lemma format_bytes_ok (x : num) :
  convertible x -> exists s, format_bytes x = Ok s.
Proof.
  intros Hx. unfold format_bytes.
  assert (Hq : forall k unit,
             In k [2; 1000; 1000000; 1000000000; 1024; 1024 ^ 2; 1024 ^ 3] ->
             exists s,
               (q <- num_truediv x (PyInt k) ;;
                s <- format_f 2 q ;; Ok (s ++ unit)) = Ok s).
  { intros k unit Hk. destruct (num_truediv_ok x k Hx Hk) as [f Hf].
    rewrite Hf. cbn [bind format_f]. now eexists. }
  destruct (num_ltb x (PyInt 1024)).
  - destruct (format_f_ok 2 x Hx) as [s Hs]. rewrite Hs. cbn [bind].
    now eexists.
  - destruct (num_ltb x (PyInt (1024 ^ 2))); [apply Hq; cbn; tauto|].
    destruct (num_ltb x (PyInt (1024 ^ 3))); apply Hq; cbn; tauto.
Qed.

Lemma negative_first_tier (x : num) (v : Q) (k : Z) :
  num_value x = Vfin v -> (v < 0)%Q -> 0 <= k -> num_ltb x (PyInt k) = true.
Proof.
  intros Hv Hneg Hk. unfold num_ltb. rewrite Hv. cbn [num_value value_ltb].
  apply Qltb_true. eapply Qlt_le_trans; [exact Hneg|].
  change 0%Q with (inject_Z 0). now rewrite <- Zle_Qle.
Qed.

(** X17.  The formatters raise no exception for any float (NaN,
    infinities and negative values included) nor for any [int] below
    [2^1023] in magnitude; and a negative number is never scaled: it is
    shown in the first unit, ns or B, whatever its magnitude. *)
Theorem formatters_raise_only_out_of_range (x : num) :
  convertible x ->
  (exists s, format_time x = Ok s) /\
  (exists s, format_bytes x = Ok s) /\
  (forall v, num_value x = Vfin v -> (v < 0)%Q ->
     exists s, format_f 2 x = Ok s /\
               format_time x = Ok (s ++ " ns") /\
               format_bytes x = Ok (s ++ " B")).
Proof.
  intros Hx.
  split; [now apply format_time_ok|]. split; [now apply format_bytes_ok|].
  intros v Hv Hneg. destruct (format_f_ok 2 x Hx) as [s Hs].
  exists s. split; [exact Hs|].
  unfold format_time, format_bytes.
  rewrite (negative_first_tier x v 1000 Hv Hneg ltac:(lia)).
  rewrite (negative_first_tier x v 1024 Hv Hneg ltac:(lia)).
  rewrite Hs. split; reflexivity.
Qed.

(** Minus five billion nanoseconds. *)
Lemma formatters_raise_only_out_of_range_witness :
  format_time (PyInt (-5000000000)) = Ok "-5000000000.00 ns".
Proof.
  destruct (formatters_raise_only_out_of_range (PyInt (-5000000000)) eq_refl)
    as [_ [_ H]].
  destruct (H (inject_Z (-5000000000)) eq_refl eq_refl) as [s [Hs [Ht _]]].
  rewrite Ht. vm_compute in Hs. injection Hs as <-. reflexivity.
Defined.

(** ** Severity along the table *)

Lemma num_ltb_le_trans (a b c : num) :
  ordered a -> num_le a b -> num_ltb b c = true -> num_ltb a c = true.
Proof.
  intros Ha Hab Hbc. destruct (num_ltb a c) eqn:E; [reflexivity|].
  exfalso.
  assert (H : num_le c b) by (apply (num_le_trans c a b); assumption).
  unfold num_le, le_of in H. congruence.
Qed.

Lemma time_class_monotone (a b : num) :
  ordered a -> num_le a b ->
  (severity_rank (time_class a) <= severity_rank (time_class b))%nat.
Proof.
  intros Ha Hab. unfold time_class.
  destruct (num_ltb b (PyInt 1000000)) eqn:B1.
  - now rewrite (num_ltb_le_trans a b _ Ha Hab B1).
  - destruct (num_ltb b (PyInt 10000000)) eqn:B2.
    + destruct (num_ltb a (PyInt 1000000)); [cbn; lia|].
      now rewrite (num_ltb_le_trans a b _ Ha Hab B2).
    + destruct (num_ltb a (PyInt 1000000)); [cbn; lia|].
      destruct (num_ltb a (PyInt 10000000)); cbn; lia.
Qed.

Lemma strongly_sorted_weaken {A : Type} (R R' : A -> A -> Prop)
  (P : A -> Prop) (l : list A) :
  (forall a b, P a -> R a b -> R' a b) ->
  Forall P l -> StronglySorted R l -> StronglySorted R' l.
Proof.
  intros HR HP Hs. induction Hs as [|a l Hs IH Ha]; [constructor|].
  inversion HP as [|? ? Pa Pl]; subst.
  constructor; [now apply IH|].
  eapply Forall_impl; [|exact Ha]. intros b. now apply HR.
Qed.

(** X18.  Down the table of a category the severity classes never go
    back: every good row comes before every warning row, and every
    warning row before every danger row. *)
Theorem severity_never_decreases_down_the_table (bs : list benchmark) :
  Forall (fun b => ordered (real_time_of b)) bs ->
  StronglySorted
    (fun a b =>
       (severity_rank (time_class (real_time_of a))
        <= severity_rank (time_class (real_time_of b)))%nat)
    (sorted_by_time bs).
Proof.
  intros Hord.
  apply (strongly_sorted_weaken time_le _
           (fun b => ordered (real_time_of b))).
  - intros a b Ha Hab. now apply time_class_monotone.
  - rewrite Forall_forall in Hord |- *. intros b Hb. apply Hord.
    eapply Permutation_in; [apply sorted_by_time_perm | exact Hb].
  - now apply sorted_by_time_sorted.
Qed.

(** A danger row, a good row and a warning row, in input order. *)
Lemma severity_never_decreases_down_the_table_witness :
  let row t := {| name := None; real_time := Some (PyInt t); cpu_time := None;
                  iterations := None; items_per_second := None |} in
  StronglySorted
    (fun a b =>
       (severity_rank (time_class (real_time_of a))
        <= severity_rank (time_class (real_time_of b)))%nat)
    (sorted_by_time [row 20000000; row 5; row 2000000]).
Proof.
  intros row. apply severity_never_decreases_down_the_table.
  repeat constructor; discriminate.
Defined.

(** ** A document without records *)

Lemma categorize_no_records (d : document) :
  get (benchmarks d) [] = [] ->
  filter non_empty (categorize_benchmarks d) = [].
Proof.
  intros H. unfold categorize_benchmarks. now rewrite H.
Qed.

(** X19.  A loaded object that has keys but no records (no benchmarks
    key, or an empty list) renders as the overview with the total 0
    directly followed by the footer: no section at all. *)
Theorem no_records_no_sections (d : document) (input_file now : string) :
  truthy (JObject d) = true -> get (benchmarks d) [] = [] ->
  generate_html_report (JObject d) input_file now =
    Ok (overview d now ++ page_footer (path_name input_file)) /\
  exists host cpu_model cores,
    overview d now = page_header now host cpu_model cores "0".
Proof.
  intros Ht Hb. split.
  - rewrite generate_html_report_sections, Ht, (categorize_no_records d Hb).
    reflexivity.
  - unfold overview. rewrite Hb. cbn [List.length Z.of_nat].
    change (str_int 0) with "0". eexists. eexists. eexists. reflexivity.
Qed.

(** An object with a context and an empty list of benchmarks. *)
Lemma no_records_no_sections_witness :
  let d := {| benchmarks := Some [];
              context_info := Some {| host_name := Some "ci"; cpu := None |};
              other_keys := false |} in
  generate_html_report (JObject d) "results.json" "2025-01-01 00:00:00" =
  Ok (overview d "2025-01-01 00:00:00" ++ page_footer "results.json").
Proof.
  intros d.
  apply (no_records_no_sections d "results.json" "2025-01-01 00:00:00");
    reflexivity.
Defined.

(** ** Names are copied as they are *)

Lemma occurs_in_app (x a p s : string) :
  occurs_in x a -> occurs_in x (p ++ a ++ s).
Proof.
  intros [pre [post ->]]. exists (p ++ pre), (post ++ s).
  now rewrite !append_assoc.
Qed.

Lemma occurs_in_join (x a : string) (pieces : list string) :
  In a pieces -> occurs_in x a -> occurs_in x (join pieces).
Proof.
  intros Hin Hx. induction pieces as [|p pieces IH]; [contradiction|].
  unfold join. cbn [fold_right]. fold (join pieces).
  destruct Hin as [-> | Hin].
  - rewrite <- (append_nil_r (a ++ join pieces)), append_assoc.
    now apply (occurs_in_app x a EmptyString).
  - specialize (IH Hin). rewrite <- (append_nil_r (join pieces)).
    now apply occurs_in_app.
Qed.

Lemma forall2_in_left {A B : Type} (R : A -> B -> Prop) (l : list A)
  (l' : list B) (a : A) :
  Forall2 R l l' -> In a l -> exists b, In b l' /\ R a b.
Proof.
  induction 1 as [|x y l l' Hxy _ IH]; intros Hin; [contradiction|].
  destruct Hin as [-> | Hin].
  - exists y. split; [now left | exact Hxy].
  - destruct (IH Hin) as [b [Hb HR]]. exists b. split; [now right | exact HR].
Qed.

Lemma row_holds_name (b : benchmark) (row : string) :
  render_row b = Ok row -> occurs_in (get (name b) "Unknown") row.
Proof.
  rewrite render_row_named. unfold row_named.
  destruct (throughput_of _); cbn [bind]; [|discriminate].
  destruct (format_time (real_time_of b)); cbn [bind]; [|discriminate].
  destruct (format_time _); cbn [bind]; [|discriminate].
  intros H. injection H as <-. unfold table_row.
  eexists. eexists. reflexivity.
Qed.

Lemma section_holds_rows (category_name : string) (bs : list benchmark)
  (text : string) (b : benchmark) :
  section_of (category_name, bs) = Ok text -> In b bs ->
  exists row, render_row b = Ok row /\ occurs_in row text.
Proof.
  intros Hsec Hin. rewrite section_of_eq in Hsec.
  destruct bs as [|b0 bs]; [contradiction|].
  destruct (generate_summary_stats (b0 :: bs)) as [[st|]|e];
    cbn [bind] in Hsec; try discriminate.
  destruct (format_time (avg_time st)); cbn [bind] in Hsec; [|discriminate].
  destruct (format_time (min_time st)); cbn [bind] in Hsec; [|discriminate].
  destruct (format_time (max_time st)); cbn [bind] in Hsec; [|discriminate].
  destruct (collect render_row (sorted_by_time (b0 :: bs))) as [rows|e] eqn:Er;
    cbn [bind] in Hsec; [|discriminate].
  apply ok_inj in Hsec. subst text.
  pose proof (collect_length _ _ _ Er) as Hrows.
  assert (Hin' : In b (sorted_by_time (b0 :: bs))).
  { eapply Permutation_in; [symmetry; apply sorted_by_time_perm | exact Hin]. }
  destruct (forall2_in_left _ _ _ _ Hrows Hin') as [row [Hrow Hr]].
  exists row. split; [exact Hr|].
  apply occurs_in_app. apply (occurs_in_join row row); [exact Hrow|].
  exists EmptyString, EmptyString. now rewrite append_nil_r.
Qed.

Lemma occurs_in_trans (x a c : string) :
  occurs_in x a -> occurs_in a c -> occurs_in x c.
Proof.
  intros Hxa [pre [post ->]]. now apply occurs_in_app.
Qed.

(** The name of a record occurs in the page as it is. *)
Lemma name_occurs_in_page
  (d : document) (input_file now html : string) (b : benchmark) :
  generate_html_report (JObject d) input_file now = Ok html ->
  truthy (JObject d) = true ->
  In b (get (benchmarks d) []) ->
  occurs_in (get (name b) "Unknown") html.
Proof.
  intros Hhtml Ht Hin.
  rewrite generate_html_report_sections, Ht in Hhtml.
  destruct (collect section_of (filter non_empty (categorize_benchmarks d)))
    as [ss|e] eqn:Es; cbn [bind] in Hhtml; [|discriminate].
  apply ok_inj in Hhtml. subst html.
  pose proof (collect_length _ _ _ Es) as Hss.
  set (k := category_of b).
  assert (Hb : In b (lookup k (categorize_benchmarks d)))
    by (apply in_lookup_categorize; split; [exact Hin | reflexivity]).
  assert (Hitem : In (k, lookup k (categorize_benchmarks d))
                    (filter non_empty (categorize_benchmarks d))).
  { apply filter_In. split.
    - assert (Hkeys : map fst (categorize_benchmarks d)
                      = ["Core"; "Network"; "Config"; "Memory"; "Other"])
        by (unfold categorize_benchmarks; now rewrite keys_fold).
      rewrite (five_entries _ Hkeys) at 2.
      pose proof (category_of_name_cases (get (name b) EmptyString)) as Hc.
      fold (category_of b) in Hc. fold k in Hc. cbn [In] in Hc |- *.
      destruct Hc as [<-|[<-|[<-|[<-|[<-|[]]]]]]; tauto.
    - unfold non_empty. cbn [snd].
      destruct (lookup k (categorize_benchmarks d)); [contradiction|reflexivity]. }
  destruct (forall2_in_left _ _ _ _ Hss Hitem) as [text [Htext Hsec]].
  destruct (section_holds_rows _ _ _ b Hsec Hb) as [row [Hrow Hocc]].
  apply occurs_in_app. apply (occurs_in_join _ text); [exact Htext|].
  apply (occurs_in_trans _ row); [now apply row_holds_name | exact Hocc].
Qed.

(** X20.  The page holds the name of every record as it is in the input,
    with no escaping of markup: when the page of a loaded object renders,
    the name of each of its records (Unknown for an absent name) occurs
    in the page character for character. *)
Theorem names_are_copied_verbatim
  (d : document) (input_file now html : string) (b : benchmark) :
  generate_html_report (JObject d) input_file now = Ok html ->
  truthy (JObject d) = true ->
  In b (get (benchmarks d) []) ->
  occurs_in (get (name b) "Unknown") html.
Proof. apply name_occurs_in_page. Qed.

(** A name that is markup. *)
Lemma names_are_copied_verbatim_witness :
  let b := {| name := Some "<script>alert(1)</script>";
              real_time := Some (PyInt 5); cpu_time := None;
              iterations := None; items_per_second := None |} in
  let d := {| benchmarks := Some [b]; context_info := None;
              other_keys := false |} in
  exists html,
    generate_html_report (JObject d) "results.json" "2025-01-01 00:00:00"
    = Ok html /\
    occurs_in "<script>alert(1)</script>" html.
Proof.
  intros b d.
  destruct (generate_html_report (JObject d) "results.json"
              "2025-01-01 00:00:00") as [html|e] eqn:E;
    [|vm_compute in E; discriminate E].
  exists html. split; [reflexivity|].
  apply (names_are_copied_verbatim d "results.json" "2025-01-01 00:00:00"
           html b E eq_refl).
  now left.
Defined.

(** ** Overflow of the top tier *)

Lemma digits_of_large (p : positive) (k : Z) :
  0 <= k -> 2 ^ k <= Zpos p -> k < Zdigits2 (Zpos p).
Proof.
  intros Hk Hp. pose proof (Zdigits2_gt p) as Hgt.
  pose proof (Zdigits2_nonneg (Zpos p)) as H0.
  apply (Z.pow_lt_mono_r_iff 2); [lia | assumption |].
  eapply Z.le_lt_trans; eassumption.
Qed.

Lemma digits_of_multiple (z d : positive) (k : Z) :
  0 <= k -> Zpos d * 2 ^ k <= Zpos z ->
  Zdigits2 (Zpos d) + k <= Zdigits2 (Zpos z).
Proof.
  intros Hk Hz. pose proof (Zdigits2_lower d) as Hd.
  assert (HD : 1 <= Zdigits2 (Zpos d)) by (cbn [Zdigits2]; lia).
  assert (H2 : 0 < 2 ^ k) by (apply Z.pow_pos_nonneg; lia).
  enough (Zdigits2 (Zpos d) - 1 + k < Zdigits2 (Zpos z)) by lia.
  apply digits_of_large; [lia|].
  rewrite Z.pow_add_r by lia.
  eapply Z.le_trans; [|exact Hz].
  apply Z.mul_le_mono_nonneg_r; [lia | exact Hd].
Qed.

(** Rounding a significand of [1025] bits or more, counted with its
    exponent, gives infinity. *)
Lemma binary_round_aux_overflows (sx : bool) (p : positive) (lx : location) :
  1025 <= Zdigits2 (Zpos p) ->
  binary_round_aux prec emax sx (Zpos p) 0 lx = S754_infinity sx.
Proof.
  intros HD. unfold binary_round_aux.
  pose proof (shr_fexp_div (Zpos p) 0 lx ltac:(lia)) as [H1m H1e].
  destruct (shr_fexp prec emax (Zpos p) 0 lx) as [mrs1 e1].
  cbn [fst snd] in *.
  rewrite fexp_eq in H1m, H1e.
  pose proof (Zdigits2_gt p) as Hgt. pose proof (Zdigits2_lower p) as Hlow.
  set (D := Zdigits2 (Zpos p)) in *.
  replace (Z.max 0 (Z.max (D + 0 - 53) (-1074) - 0)) with (D - 53)
    in H1m, H1e by lia.
  assert (Hm1 : 2 ^ 52 <= shr_m mrs1 < 2 ^ 53).
  { rewrite H1m.
    assert (0 < 2 ^ (D - 53)) by (apply Z.pow_pos_nonneg; lia).
    split.
    - apply Z.div_le_lower_bound; [assumption|].
      rewrite Z.mul_comm, <- Z.pow_add_r by lia.
      now replace (52 + (D - 53)) with (D - 1) by lia.
    - apply Z.div_lt_upper_bound; [assumption|].
      rewrite <- Z.pow_add_r by lia.
      now replace (D - 53 + 53) with D by lia. }
  clear Hgt Hlow H1m.
  pose proof (round_nearest_even_bounds (shr_m mrs1) (loc_of_shr_record mrs1))
    as Hm2.
  set (m2 := round_nearest_even (shr_m mrs1) (loc_of_shr_record mrs1)) in *.
  assert (Hm2' : 2 ^ 52 <= m2 < 2 ^ 54).
  { change (2 ^ 52) with 4503599627370496 in *.
    change (2 ^ 53) with 9007199254740992 in *.
    change (2 ^ 54) with 18014398509481984. lia. }
  clear Hm1 Hm2.
  pose proof (shr_fexp_div m2 e1 loc_Exact ltac:(lia)) as [H2m H2e].
  destruct (shr_fexp prec emax m2 e1 loc_Exact) as [mrs2 e2].
  cbn [fst snd] in *.
  rewrite fexp_eq in H2m, H2e.
  pose proof (Zdigits2_le m2 54 ltac:(lia) ltac:(lia) (proj2 Hm2')) as HD2.
  pose proof (Zdigits2_nonneg m2) as HD20.
  set (n2 := Z.max 0 (Z.max (Zdigits2 m2 + e1 - 53) (-1074) - e1)) in *.
  assert (Hn2 : 0 <= n2 <= 1) by (unfold n2; lia).
  assert (Hm3 : 0 < shr_m mrs2).
  { rewrite H2m. apply Z.div_str_pos. split; [apply Z.pow_pos_nonneg; lia|].
    eapply Z.le_trans; [|exact (proj1 Hm2')].
    apply Z.pow_le_mono_r; lia. }
  destruct (shr_m mrs2) as [|m|m]; [lia | | lia].
  unfold prec, emax. replace (e2 <=? 1024 - 53) with false
    by (symmetry; apply Z.leb_gt; lia).
  reflexivity.
Qed.

(** [a / b] on two positive [int]s raises once the quotient reaches
    [2 ^ 1024]. *)
Lemma int_truediv_overflows (z d : positive) :
  Zpos d * 2 ^ 1024 <= Zpos z ->
  int_truediv (Zpos z) (Zpos d)
  = Raise (OverflowError "integer division result too large for a float").
Proof.
  intros Hz. unfold int_truediv.
  change (Z.to_pos (Z.abs (Zpos z))) with z.
  change (Z.to_pos (Z.abs (Zpos d))) with d.
  change (Zpos z <? 0) with false. change (Zpos d <? 0) with false.
  cbn [SFdiv]. unfold SFdiv_core_binary.
  pose proof (digits_of_multiple z d 1024 ltac:(discriminate) Hz) as HD.
  assert (HD2 : 1 <= Zdigits2 (Zpos d)) by (cbn [Zdigits2]; lia).
  assert (Hq : 2 ^ 1024 <= Zpos z / Zpos d)
    by (apply Z.div_le_lower_bound; [reflexivity | exact Hz]).
  clear Hz.
  rewrite fexp_eq.
  set (D1 := Zdigits2 (Zpos z)) in *. set (D2 := Zdigits2 (Zpos d)) in *.
  replace (Z.min (Z.max (D1 + 0 - (D2 + 0) - 53) (-1074)) (0 - 0)) with 0
    by (clear Hq; lia).
  change (0 - 0 - 0) with 0. cbv iota.
  destruct (Z.div_eucl (Zpos z) (Zpos d)) as [q r] eqn:E.
  assert (Hq' : q = Zpos z / Zpos d) by (unfold Z.div; now rewrite E).
  rewrite <- Hq' in Hq. clear E Hq' HD HD2.
  destruct q as [|q|q].
  - exfalso. revert Hq. apply Z.lt_nge. reflexivity.
  - rewrite binary_round_aux_overflows; [reflexivity|].
    pose proof (digits_of_large q 1024 ltac:(discriminate) Hq) as H.
    clear Hq. lia.
  - exfalso. revert Hq. apply Z.lt_nge.
    apply (Z.lt_trans _ 0); [reflexivity | reflexivity].
Qed.

Lemma int_ltb (a b : Z) : num_ltb (PyInt a) (PyInt b) = (a <? b).
Proof. unfold num_ltb. cbn [num_value value_ltb]. apply Qltb_inject. Qed.

(** X21.  An int too large for the top tier is an error, not a string:
    from [2 ^ 1054] on, so that the quotient by the divisor of the top tier
    reaches [2 ^ 1024], both formatters raise the OverflowError of the
    division. *)
Theorem formatters_overflow_on_huge_ints (z : Z) :
  2 ^ 1054 <= z ->
  format_time (PyInt z)
  = Raise (OverflowError "integer division result too large for a float") /\
  format_bytes (PyInt z)
  = Raise (OverflowError "integer division result too large for a float").
Proof.
  intros Hz.
  assert (Ht : 1000000000 * 2 ^ 1024 <= z).
  { eapply Z.le_trans; [|exact Hz].
    change (2 ^ 1054) with (2 ^ 30 * 2 ^ 1024).
    apply Z.mul_le_mono_nonneg_r; discriminate. }
  assert (Hb : 1024 ^ 3 * 2 ^ 1024 <= z)
    by (eapply Z.le_trans; [|exact Hz]; apply Z.le_refl).
  assert (Hbig : 2 ^ 30 <= z).
  { eapply Z.le_trans; [|exact Hz]. discriminate. }
  destruct z as [|p|p]; [exfalso; now apply Hbig | | exfalso; now apply Hbig].
  clear Hz. split.
  - unfold format_time. rewrite !int_ltb.
    replace (Zpos p <? 1000) with false
      by (symmetry; apply Z.ltb_ge; clear Ht Hb;
          change (2 ^ 30) with 1073741824 in Hbig; lia).
    replace (Zpos p <? 1000000) with false
      by (symmetry; apply Z.ltb_ge; clear Ht Hb;
          change (2 ^ 30) with 1073741824 in Hbig; lia).
    replace (Zpos p <? 1000000000) with false
      by (symmetry; apply Z.ltb_ge; clear Ht Hb;
          change (2 ^ 30) with 1073741824 in Hbig; lia).
    cbn [num_truediv].
    rewrite (int_truediv_overflows p 1000000000 Ht). reflexivity.
  - unfold format_bytes. rewrite !int_ltb.
    replace (Zpos p <? 1024) with false
      by (symmetry; apply Z.ltb_ge; clear Ht Hb;
          change (2 ^ 30) with 1073741824 in Hbig; lia).
    replace (Zpos p <? 1024 ^ 2) with false
      by (symmetry; apply Z.ltb_ge; clear Ht Hb;
          change (2 ^ 30) with 1073741824 in Hbig;
          change (1024 ^ 2) with 1048576; lia).
    replace (Zpos p <? 1024 ^ 3) with false
      by (symmetry; apply Z.ltb_ge; clear Ht Hb;
          change (2 ^ 30) with 1073741824 in Hbig;
          change (1024 ^ 3) with 1073741824; lia).
    cbn [num_truediv].
    change (1024 ^ 3) with (Zpos (1024 ^ 3)) in Hb |- *.
    rewrite (int_truediv_overflows p (1024 ^ 3) Hb). reflexivity.
Qed.

(** The least int of the theorem. *)
Lemma formatters_overflow_on_huge_ints_witness :
  2 ^ 1054 <= 2 ^ 1054 /\
  format_time (PyInt (2 ^ 1054))
  = Raise (OverflowError "integer division result too large for a float") /\
  format_bytes (PyInt (2 ^ 1054))
  = Raise (OverflowError "integer division result too large for a float").
Proof.
  split; [apply Z.le_refl|].
  apply (formatters_overflow_on_huge_ints (2 ^ 1054)). apply Z.le_refl.
Defined.

(** ** The cells of a row *)

Lemma cell_frame (P C M D S : string) :
  occurs_in (C ++ M ++ D) ((P ++ C) ++ M ++ D ++ S).
Proof. exists P, S. now rewrite !append_assoc. Qed.

(** The row of a record holds its name cell and the cell of its real
    time. *)
Lemma table_row_cells (shown class real cpu iters throughput : string) :
  occurs_in (name_cell shown)
    (table_row shown class real cpu iters throughput) /\
  occurs_in (time_cell class real)
    (table_row shown class real cpu iters throughput).
Proof.
  unfold table_row, name_cell, time_cell. split.
  - match goal with
    | |- occurs_in (?C ++ _ ++ ?D) (?L1 ++ _ ++ ?L2 ++ ?rest) =>
        let k := eval vm_compute in (String.length L1 - String.length C)%nat in
        let L1' := eval vm_compute in (substring 0 k L1) in
        let j := eval vm_compute in (String.length L2 - String.length D)%nat in
        let L2' := eval vm_compute in
                     (substring (String.length D) j L2) in
        change L1 with (L1' ++ C); change L2 with (D ++ L2');
        rewrite (append_assoc D L2' rest)
    end.
    apply cell_frame.
  - match goal with
    | |- occurs_in (?C ++ class ++ ?L3 ++ real ++ ?D)
           (?L1 ++ shown ++ ?L2 ++ class ++ ?L3 ++ real ++ ?L4 ++ ?rest) =>
        let k := eval vm_compute in (String.length L2 - String.length C)%nat in
        let L2' := eval vm_compute in (substring 0 k L2) in
        let j := eval vm_compute in (String.length L4 - String.length D)%nat in
        let L4' := eval vm_compute in
                     (substring (String.length D) j L4) in
        change L2 with (L2' ++ C); change L4 with (D ++ L4');
        exists (L1 ++ shown ++ L2'), (L4' ++ rest)
    end.
    now rewrite !append_assoc.
Qed.

Lemma row_cells (b : benchmark) (row : string) :
  render_row b = Ok row ->
  exists real,
    format_time (real_time_of b) = Ok real /\
    occurs_in (name_cell (get (name b) "Unknown")) row /\
    occurs_in (time_cell (time_class (real_time_of b)) real) row.
Proof.
  rewrite render_row_named. unfold row_named.
  destruct (throughput_of _) as [th|]; cbn [bind]; [|discriminate].
  destruct (format_time (real_time_of b)) as [real|]; cbn [bind];
    [|discriminate].
  destruct (format_time _) as [cpu|]; cbn [bind]; [|discriminate].
  intros H. apply ok_inj in H. subst row.
  exists real. split; [reflexivity|]. apply table_row_cells.
Qed.

(** The order of the table is the order of the exact values. *)
Lemma time_le_value (a b : benchmark) :
  ordered (real_time_of a) -> ordered (real_time_of b) ->
  (time_le a b <->
   value_le (num_value (real_time_of a)) (num_value (real_time_of b))).
Proof.
  unfold time_le, num_le, le_of, num_ltb, ordered.
  destruct (num_value (real_time_of a)) as [| |x|],
           (num_value (real_time_of b)) as [| |y|];
    cbn [value_ltb value_le]; intros Ha Hb; try congruence;
    try (split; [discriminate | contradiction]);
    try (split; [trivial | reflexivity]).
  apply Qltb_false.
Qed.

(** The severity class of every value: a NaN and the infinity above are
    danger, the infinity below is good. *)
Lemma time_class_of_value (t : num) :
  match num_value t with
  | Vfin x =>
      (time_class t = "good" <-> (x < 1000000)%Q) /\
      (time_class t = "warning" <-> (1000000 <= x < 10000000)%Q) /\
      (time_class t = "danger" <-> (10000000 <= x)%Q)
  | Vneginf => time_class t = "good"
  | Vposinf | Vnan => time_class t = "danger"
  end.
Proof.
  destruct (num_value t) as [| |x|] eqn:E.
  - unfold time_class, num_ltb. now rewrite E.
  - unfold time_class, num_ltb. now rewrite E.
  - now apply time_class_thresholds.
  - unfold time_class, num_ltb. now rewrite E.
Qed.

Lemma forall2_impl {A B : Type} (R R' : A -> B -> Prop) (l : list A)
  (l' : list B) :
  (forall a b, R a b -> R' a b) -> Forall2 R l l' -> Forall2 R' l l'.
Proof. intros H. induction 1; constructor; auto. Qed.

(** C7, amended.  The table of a category that has records holds one row
    for each record of the category (every record, as many times as it
    occurs), in the order of [sorted_by_time]; that order is ascending in
    [real_time] when no [real_time] of the category is a NaN.  The row of
    a record holds its name cell and the cell of its formatted
    [real_time] under its severity class, which is good below
    1,000,000 ns, warning below 10,000,000 ns and danger otherwise, a NaN
    included.  The section renders when the numbers of the records are
    moderate. *)
Theorem table_rows_sorted_and_tagged
  (category_name : string) (b0 : benchmark) (rest : list benchmark) :
  let bs := b0 :: rest in
  let table := sorted_by_time bs in
  Permutation table bs /\
  (forall text,
      section_of (category_name, bs) = Ok text ->
      exists heading rows,
        text = heading ++ join rows ++ section_footer /\
        Forall2
          (fun b row =>
             render_row b = Ok row /\
             exists real,
               format_time (real_time_of b) = Ok real /\
               occurs_in (name_cell (get (name b) "Unknown")) row /\
               occurs_in (time_cell (time_class (real_time_of b)) real) row)
          table rows) /\
  (Forall sane bs -> exists text, section_of (category_name, bs) = Ok text) /\
  (Forall (fun b => ordered (real_time_of b)) bs ->
   StronglySorted time_le table) /\
  (forall a b,
      ordered (real_time_of a) -> ordered (real_time_of b) ->
      (time_le a b <->
       value_le (num_value (real_time_of a)) (num_value (real_time_of b)))) /\
  (forall t,
      match num_value t with
      | Vfin x =>
          (time_class t = "good" <-> (x < 1000000)%Q) /\
          (time_class t = "warning" <-> (1000000 <= x < 10000000)%Q) /\
          (time_class t = "danger" <-> (10000000 <= x)%Q)
      | Vneginf => time_class t = "good"
      | Vposinf | Vnan => time_class t = "danger"
      end).
Proof.
  intros bs table.
  split; [apply sorted_by_time_perm|].
  split.
  { intros text Hsec. rewrite section_of_eq in Hsec. unfold bs in Hsec.
    fold bs in Hsec.
    destruct (generate_summary_stats bs) as [[st|]|e];
      cbn [bind] in Hsec; try discriminate.
    destruct (format_time (avg_time st)) as [avg|]; cbn [bind] in Hsec;
      [|discriminate].
    destruct (format_time (min_time st)) as [fastest|]; cbn [bind] in Hsec;
      [|discriminate].
    destruct (format_time (max_time st)) as [slowest|]; cbn [bind] in Hsec;
      [|discriminate].
    fold table in Hsec.
    destruct (collect render_row table) as [rows|e] eqn:Er;
      cbn [bind] in Hsec; [|discriminate].
    apply ok_inj in Hsec. subst text.
    exists (section_header category_name (str_int (count st))
              avg fastest slowest), rows.
    split; [reflexivity|].
    eapply forall2_impl; [|exact (collect_length _ _ _ Er)].
    intros b row Hrow. split; [exact Hrow | now apply row_cells]. }
  split; [apply section_ok|].
  split; [apply sorted_by_time_sorted|].
  split; [apply time_le_value | apply time_class_of_value].
Qed.

(** Three records out of order, one of each severity. *)
Lemma table_rows_sorted_and_tagged_witness :
  let row t := {| name := None; real_time := Some (PyInt t); cpu_time := None;
                  iterations := None; items_per_second := None |} in
  let bs := [row 20000000; row 5; row 2000000] in
  StronglySorted time_le (sorted_by_time bs) /\
  sorted_by_time bs = [row 5; row 2000000; row 20000000] /\
  map (fun b => time_class (real_time_of b)) (sorted_by_time bs)
  = ["good"; "warning"; "danger"] /\
  exists text, section_of ("Other", bs) = Ok text.
Proof.
  intros row bs.
  destruct (table_rows_sorted_and_tagged "Other" (row 20000000)
              [row 5; row 2000000]) as [_ [_ [Hok [Hsorted _]]]].
  split; [|split; [reflexivity | split; [reflexivity|]]].
  - apply Hsorted. repeat constructor; discriminate.
  - apply Hok.
    assert (H : forall z, Z.abs z <= 20000000 -> moderate (PyInt z)).
    { intros z Hz. exists (inject_Z z). split; [reflexivity|].
      change (Qabs (inject_Z z)) with (inject_Z (Z.abs z)).
      rewrite <- Zle_Qle. eapply Z.le_trans; [exact Hz|]. discriminate. }
    repeat constructor; apply H; cbn; lia.
Defined.

(** C7 is not what the program does when a [real_time] is a NaN, which a
    JSON file can hold: no comparison with a NaN is true, so the sort
    leaves the times 2, NaN, 1 as they are, and the row of 2 ns comes
    before the row of 1 ns. *)
Lemma nan_time_breaks_the_order :
  let row nm t := {| name := Some nm; real_time := Some t; cpu_time := None;
                     iterations := None; items_per_second := None |} in
  let a := row "a" (PyInt 2) in
  let b := row "b" (PyFloat S754_nan) in
  let c := row "c" (PyInt 1) in
  sorted_by_time [a; b; c] = [a; b; c] /\
  num_ltb (real_time_of c) (real_time_of a) = true /\
  ~ StronglySorted time_le (sorted_by_time [a; b; c]) /\
  exists heading ra rb rc,
    section_of ("Other", [a; b; c])
    = Ok (heading ++ join [ra; rb; rc] ++ section_footer) /\
    render_row a = Ok ra /\ render_row b = Ok rb /\ render_row c = Ok rc.
Proof.
  intros row a b c.
  assert (Hs : sorted_by_time [a; b; c] = [a; b; c]) by reflexivity.
  split; [exact Hs|]. split; [reflexivity|]. split.
  { rewrite Hs. intros H. inversion H as [|? ? _ Hall]; subst.
    inversion Hall as [|? ? _ Hall']; subst.
    inversion Hall' as [|? ? Hac _]; subst. discriminate Hac. }
  rewrite section_of_eq, Hs.
  assert (Hst : generate_summary_stats [a; b; c]
                = Ok (Some {| count := 3; avg_time := PyFloat S754_nan;
                              median_time := PyFloat S754_nan;
                              min_time := PyInt 1; max_time := PyInt 2;
                              total_tests := 3 |}))
    by (vm_compute; reflexivity).
  rewrite Hst. cbn [bind avg_time min_time max_time count].
  destruct (format_time (PyFloat S754_nan)) as [avg|e] eqn:E1;
    [|vm_compute in E1; discriminate E1].
  destruct (format_time (PyInt 1)) as [fastest|e] eqn:E2;
    [|vm_compute in E2; discriminate E2].
  destruct (format_time (PyInt 2)) as [slowest|e] eqn:E3;
    [|vm_compute in E3; discriminate E3].
  cbn [bind collect].
  destruct (render_row a) as [ra|e] eqn:Ea; [|vm_compute in Ea; discriminate Ea].
  destruct (render_row b) as [rb|e] eqn:Eb; [|vm_compute in Eb; discriminate Eb].
  destruct (render_row c) as [rc|e] eqn:Ec; [|vm_compute in Ec; discriminate Ec].
  cbn [bind].
  eexists. exists ra, rb, rc. repeat split; reflexivity.
Qed.

(** ** An absent [real_time] *)

Lemma times_with_zero (b : benchmark) (pre post : list benchmark) :
  real_time b = None ->
  map real_time_of (pre ++ b :: post)
  = (map real_time_of pre ++ PyInt 0 :: map real_time_of post)%list.
Proof.
  intros Hb. rewrite map_app. cbn [map]. unfold real_time_of at 2.
  now rewrite Hb.
Qed.

(** The extrema of a summary bound every time of the category. *)
Lemma summary_bounds (bs : list benchmark) (st : summary) (t : num) :
  generate_summary_stats bs = Ok (Some st) ->
  Forall (fun b => ordered (real_time_of b)) bs ->
  In t (map real_time_of bs) ->
  num_le (min_time st) t /\ num_le t (max_time st).
Proof.
  intros Hst Hord Hin.
  destruct (summary_fields bs st Hst) as [_ [_ [_ [_ [_ [Hmin Hmax]]]]]].
  assert (Hord' : Forall ordered (map real_time_of bs)).
  { rewrite Forall_forall in Hord |- *. intros u Hu.
    apply in_map_iff in Hu. destruct Hu as [c [<- Hc]]. now apply Hord. }
  destruct (map real_time_of bs) as [|t0 rest]; [contradiction|].
  inversion Hord' as [|? ? H0 Hrest]; subst.
  cbn [py_min py_max] in Hmin, Hmax.
  apply ok_inj in Hmin. apply ok_inj in Hmax.
  destruct (py_min_fold rest t0 H0 Hrest) as [_ [_ [Hle1 Hall1]]].
  destruct (py_max_fold rest t0 H0 Hrest) as [_ [_ [Hle2 Hall2]]].
  rewrite Hmin in Hle1, Hall1. rewrite Hmax in Hle2, Hall2.
  destruct Hin as [<- | Hin]; [now split|].
  split; [now apply Hall1 | now apply Hall2].
Qed.

Lemma sane_ordered (bs : list benchmark) :
  Forall sane bs -> Forall (fun b => ordered (real_time_of b)) bs.
Proof.
  apply Forall_impl. intros c [H _]. now apply moderate_ordered.
Qed.

(** C10, amended.  A record without [real_time] is read as having the
    time 0.  The mean, the median, the minimum and the maximum of its
    category are taken over the times with 0 in its place, so that the
    minimum is at most 0 and the maximum at least 0.  When no [real_time]
    of the category is a NaN, no record with a time above 0 comes before
    it in the table, and it is the first row when every other record has
    a time above 0.  Its severity class is good, and its row holds the
    time cell of 0.00 ns under the class good. *)
Theorem absent_real_time_reads_as_zero
  (b : benchmark) (pre post : list benchmark) :
  real_time b = None ->
  let bs := (pre ++ b :: post)%list in
  let times := (map real_time_of pre ++ PyInt 0 :: map real_time_of post)%list in
  real_time_of b = PyInt 0 /\
  generate_summary_stats bs =
    (avg <- mean times ;;
     med <- median times ;;
     mn <- py_min times ;;
     mx <- py_max times ;;
     Ok (Some {| count := Z.of_nat (List.length bs);
                 avg_time := avg; median_time := med;
                 min_time := mn; max_time := mx;
                 total_tests := Z.of_nat (List.length bs) |})) /\
  (Forall sane bs ->
   exists st,
     generate_summary_stats bs = Ok (Some st) /\
     num_le (min_time st) (PyInt 0) /\ num_le (PyInt 0) (max_time st)) /\
  (Forall (fun c => ordered (real_time_of c)) bs ->
   forall l1 l2,
     sorted_by_time bs = (l1 ++ b :: l2)%list ->
     Forall (fun c => num_ltb (PyInt 0) (real_time_of c) = false) l1) /\
  (Forall (fun c => ordered (real_time_of c)) bs ->
   (forall c, In c (pre ++ post)%list ->
              num_ltb (PyInt 0) (real_time_of c) = true) ->
   exists others, sorted_by_time bs = b :: others) /\
  time_class (real_time_of b) = "good" /\
  format_time (real_time_of b) = Ok "0.00 ns" /\
  (forall row,
      render_row b = Ok row -> occurs_in (time_cell "good" "0.00 ns") row) /\
  (sane b -> exists row, render_row b = Ok row).
Proof.
  intros Hb bs times.
  assert (Hz : real_time_of b = PyInt 0)
    by (unfold real_time_of; now rewrite Hb).
  assert (Htimes : map real_time_of bs = times)
    by (apply times_with_zero; exact Hb).
  assert (Hbefore : Forall (fun c => ordered (real_time_of c)) bs ->
             forall l1 l2,
               sorted_by_time bs = (l1 ++ b :: l2)%list ->
               Forall (fun c => num_ltb (PyInt 0) (real_time_of c) = false) l1).
  { intros Hord l1 l2 Hsplit.
    pose proof (sorted_by_time_sorted bs Hord) as Hs. rewrite Hsplit in Hs.
    apply strongly_sorted_before in Hs.
    unfold time_le, num_le, le_of in Hs. now rewrite Hz in Hs. }
  split; [exact Hz|].
  split.
  { unfold generate_summary_stats. rewrite Htimes.
    unfold bs. destruct pre; reflexivity. }
  split.
  { intros Hsane.
    assert (Hne : exists c cs, bs = c :: cs).
    { unfold bs. destruct pre as [|c pre]; cbn [List.app]; eauto. }
    destruct Hne as [c [cs Hbs]].
    destruct (summary_ok c cs) as [st [Hst _]]; [now rewrite <- Hbs|].
    rewrite <- Hbs in Hst. exists st. split; [exact Hst|].
    apply (summary_bounds bs st (PyInt 0) Hst (sane_ordered bs Hsane)).
    rewrite Htimes. unfold times. apply in_elt. }
  split; [exact Hbefore|].
  split.
  { intros Hord Hpos.
    pose proof (sorted_by_time_perm bs) as Hperm.
    assert (Hin : In b bs) by (unfold bs; apply in_elt).
    assert (Hin' : In b (sorted_by_time bs))
      by (eapply Permutation_in; [symmetry; exact Hperm | exact Hin]).
    destruct (sorted_by_time bs) as [|c others] eqn:Es; [contradiction|].
    destruct Hin' as [-> | Hin']; [now exists others|].
    apply in_split in Hin'. destruct Hin' as [l1 [l2 ->]].
    specialize (Hbefore Hord (c :: l1) l2 eq_refl).
    pose proof (Forall_inv Hbefore) as Hc. cbv beta in Hc.
    assert (Hc' : In c bs)
      by (eapply Permutation_in; [exact Hperm | now left]).
    unfold bs in Hc'. apply in_app_or in Hc'.
    destruct Hc' as [Hc' | [<- | Hc']].
    - rewrite Hpos in Hc; [discriminate | apply in_or_app; now left].
    - eexists. reflexivity.
    - rewrite Hpos in Hc; [discriminate | apply in_or_app; now right]. }
  split; [now rewrite Hz|].
  split; [rewrite Hz; apply format_time_zero|].
  split.
  { intros row Hrow. destruct (row_cells b row Hrow) as [real [Hreal [_ Hcell]]].
    rewrite Hz in Hreal, Hcell. rewrite format_time_zero in Hreal.
    apply ok_inj in Hreal. subst real. exact Hcell. }
  apply render_row_ok.
Qed.

(** A record without [real_time] after two slower ones. *)
Lemma absent_real_time_reads_as_zero_witness :
  let row t := {| name := None; real_time := t; cpu_time := None;
                  iterations := None; items_per_second := None |} in
  let bs := [row (Some (PyInt 7)); row (Some (PyInt 2)); row None] in
  (exists others, sorted_by_time bs = row None :: others) /\
  (exists st,
      generate_summary_stats bs = Ok (Some st) /\
      num_le (min_time st) (PyInt 0) /\ num_le (PyInt 0) (max_time st)) /\
  generate_summary_stats bs
  = Ok (Some {| count := 3; avg_time := PyInt 3;
                median_time := PyInt 2; min_time := PyInt 0;
                max_time := PyInt 7; total_tests := 3 |}) /\
  format_time (real_time_of (row None)) = Ok "0.00 ns".
Proof.
  intros row bs.
  destruct (absent_real_time_reads_as_zero (row None)
              [row (Some (PyInt 7)); row (Some (PyInt 2))] [] eq_refl)
    as [_ [Hstats [Hbounds [_ [Hfirst [_ [Hfmt _]]]]]]].
  assert (Hm : forall z, Z.abs z <= 7 -> moderate (PyInt z)).
  { intros z Hz. exists (inject_Z z). split; [reflexivity|].
    change (Qabs (inject_Z z)) with (inject_Z (Z.abs z)).
    rewrite <- Zle_Qle. eapply Z.le_trans; [exact Hz|]. discriminate. }
  split; [|split; [|split; [|exact Hfmt]]].
  - apply Hfirst.
    + repeat constructor; discriminate.
    + intros c [<- | [<- | []]]; reflexivity.
  - apply Hbounds. repeat constructor; apply Hm; cbn; lia.
  - etransitivity; [exact Hstats | vm_compute; reflexivity].
Defined.

(** C10 is not what the program does when a [real_time] of the category
    is a NaN: the sort leaves the times 5, NaN, 0 as they are, and the
    record without [real_time] is the last row, after the one of 5 ns. *)
Lemma absent_time_can_come_last :
  let row nm t := {| name := Some nm; real_time := t; cpu_time := None;
                     iterations := None; items_per_second := None |} in
  let a := row "a" (Some (PyInt 5)) in
  let b := row "b" (Some (PyFloat S754_nan)) in
  let c := row "c" None in
  sorted_by_time [a; b; c] = [a; b; c] /\
  num_ltb (real_time_of c) (real_time_of a) = true /\
  (forall others, sorted_by_time [a; b; c] <> c :: others) /\
  exists heading ra rb rc,
    section_of ("Other", [a; b; c])
    = Ok (heading ++ join [ra; rb; rc] ++ section_footer) /\
    render_row a = Ok ra /\ render_row b = Ok rb /\ render_row c = Ok rc.
Proof.
  intros row a b c.
  assert (Hs : sorted_by_time [a; b; c] = [a; b; c]) by reflexivity.
  split; [exact Hs|]. split; [reflexivity|]. split.
  { intros others. rewrite Hs. discriminate. }
  rewrite section_of_eq, Hs.
  destruct (generate_summary_stats [a; b; c]) as [[st|]|e] eqn:Est;
    try (vm_compute in Est; discriminate Est).
  cbn [bind].
  destruct (format_time (avg_time st)) as [avg|e] eqn:E1;
    [|vm_compute in Est; apply ok_inj in Est; injection Est as <-;
      vm_compute in E1; discriminate E1].
  destruct (format_time (min_time st)) as [fastest|e] eqn:E2;
    [|vm_compute in Est; apply ok_inj in Est; injection Est as <-;
      vm_compute in E2; discriminate E2].
  destruct (format_time (max_time st)) as [slowest|e] eqn:E3;
    [|vm_compute in Est; apply ok_inj in Est; injection Est as <-;
      vm_compute in E3; discriminate E3].
  cbn [bind collect].
  destruct (render_row a) as [ra|e] eqn:Ea; [|vm_compute in Ea; discriminate Ea].
  destruct (render_row b) as [rb|e] eqn:Eb; [|vm_compute in Eb; discriminate Eb].
  destruct (render_row c) as [rc|e] eqn:Ec; [|vm_compute in Ec; discriminate Ec].
  cbn [bind].
  eexists. exists ra, rb, rc. repeat split; reflexivity.
Qed.

(** ** A page that cannot be encoded *)

Lemma surrogate_at_app (x post : string) :
  surrogate_at x <> None -> surrogate_at (x ++ post) = surrogate_at x.
Proof.
  destruct x as [|c1 [|c2 [|c3 x]]]; cbn [surrogate_at]; try congruence.
  reflexivity.
Qed.

Lemma surrogate_found (x post : string) : forall (pre : string) (pos : nat),
  surrogate_at x <> None -> first_surrogate (pre ++ x ++ post) pos <> None.
Proof.
  intros pre pos Hx. revert pos.
  induction pre as [|c pre IH]; intros pos.
  - change (EmptyString ++ x ++ post) with (x ++ post).
    pose proof (surrogate_at_app x post Hx) as Happ.
    destruct (x ++ post) as [|c s] eqn:E.
    + destruct x as [|c1 x]; [now cbn in Hx | discriminate E].
    + cbn [first_surrogate]. rewrite Happ.
      destruct (surrogate_at x); [discriminate | congruence].
  - change (String c pre ++ x ++ post) with (String c (pre ++ x ++ post)).
    cbn [first_surrogate].
    destruct (surrogate_at (String c (pre ++ x ++ post)));
      [discriminate | apply IH].
Qed.

(** A text that holds a lone surrogate is not encoded. *)
Lemma surrogate_is_not_encoded (x text : string) :
  occurs_in x text -> surrogate_at x <> None ->
  exists e, utf8_error text = Some e.
Proof.
  intros [pre [post ->]] Hx. unfold utf8_error.
  pose proof (surrogate_found x post pre 0%nat Hx) as H.
  destruct (first_surrogate (pre ++ x ++ post) 0) as [[[pos code] run]|];
    [now eexists | congruence].
Qed.

(** X22.  A lone surrogate in the name of a record, which a JSON escape
    can put there, costs the output file: when the input loads, the page
    renders and the output can be opened, the page cannot be encoded;
    [main] prints the failure with the text of the codec's error and
    returns 1, and the output file, created or emptied by the opening, is
    left empty, whatever it held before. *)
Theorem unencodable_page_empties_the_output
  (json_loads : string -> result json) (input output : string) (w : world)
  (d : document) (b : benchmark) (x html : string) :
  (text <- read_file (path_str input) w ;; json_loads text) = Ok (JObject d) ->
  truthy (JObject d) = true ->
  In b (get (benchmarks d) []) ->
  occurs_in x (get (name b) "Unknown") -> surrogate_at x <> None ->
  generate_html_report (JObject d) input (clock w) = Ok html ->
  open_error (path_str output) w = None ->
  exists e,
    utf8_error html = Some e /\
    main json_loads input output w =
      (1, print ("❌ 生成报告失败: " ++ str_exn e)
            (set_node (path_str output) (File EmptyString) w)) /\
    node_at (snd (main json_loads input output w)) (path_str output)
    = Some (File EmptyString).
Proof.
  intros Hload Ht Hin Hx Hsur Hrender Hopen.
  assert (Hocc : occurs_in x html).
  { eapply occurs_in_trans; [exact Hx|].
    eapply name_occurs_in_page; eassumption. }
  destruct (surrogate_is_not_encoded x html Hocc Hsur) as [e He].
  exists e. split; [exact He|].
  assert (Hmain : main json_loads input output w =
            (1, print ("❌ 生成报告失败: " ++ str_exn e)
                  (set_node (path_str output) (File EmptyString) w))).
  { unfold main. pose proof (read_ok_exists _ _ _ _ Hload) as Hex.
    destruct (node_at w (path_str input)); [|congruence].
    unfold generate_report. rewrite (load_data_ok _ _ _ _ Hload), Hrender.
    unfold write_file. now rewrite Hopen, He. }
  split; [exact Hmain|]. rewrite Hmain. cbn [snd print node_at].
  apply set_node_frame.
Qed.

(** A record named with the surrogate D800, and an output that holds an
    earlier report. *)
Lemma unencodable_page_empties_the_output_witness :
  let lone := String (ascii_of_nat 237)
                (String (ascii_of_nat 160)
                   (String (ascii_of_nat 128) EmptyString)) in
  let b := {| name := Some ("BM_" ++ lone); real_time := Some (PyInt 5);
              cpu_time := None; iterations := None;
              items_per_second := None |} in
  let d := {| benchmarks := Some [b]; context_info := None;
              other_keys := false |} in
  let disk := fun p : string =>
    if String.eqb p "in.json" then Some (File "{}")
    else if String.eqb p "out.html" then Some (File "an earlier report")
    else None in
  let w := {| node_at := disk; readable := fun _ => true;
              writable := fun _ => true; cwd := "/tmp";
              clock := "2025-01-01 00:00:00"; stdout := [] |} in
  fst (main (fun _ => Ok (JObject d)) "in.json" "out.html" w) = 1 /\
  node_at w "out.html" = Some (File "an earlier report") /\
  node_at (snd (main (fun _ => Ok (JObject d)) "in.json" "out.html" w))
    "out.html" = Some (File EmptyString).
Proof.
  intros lone b d disk w.
  destruct (generate_html_report (JObject d) "in.json" (clock w))
    as [html|e] eqn:E; [|vm_compute in E; discriminate E].
  destruct (unencodable_page_empties_the_output
              (fun _ => Ok (JObject d)) "in.json" "out.html" w d b lone html
              eq_refl eq_refl ltac:(now left)
              ltac:(exists "BM_", EmptyString; reflexivity)
              ltac:(discriminate) E eq_refl)
    as [e [_ [Hmain Hout]]].
  rewrite Hmain. split; [reflexivity|]. split; [reflexivity|].
  rewrite Hmain in Hout. exact Hout.
Defined.

(** ** The duration formatter on every duration *)

(** C3, amended.  For a duration of [x >= 0] nanoseconds in the range of
    a double (an [int] below [2^1024] or a finite [float]),
    [format_time] picks the unit by the tiers below a thousand, a million
    and a billion, divides by the matching power of 1000 (not at all in
    the first tier), and shows the quotient as digits, a point and
    exactly two decimals, the hundredths nearest to the quotient, then a
    space and the unit; so 999 gives 999.00 ns, 1500 gives 1.50 μs,
    2500000 gives 2.50 ms and 3000000000 gives 3.00 s. *)
Theorem duration_format_by_tier (d : num) (x : Q) :
  num_value d = Vfin x -> (0 <= x)%Q -> representable d ->
  (exists q y s,
     (if fst (spec_tier x) =? 1 then q = d
      else num_truediv d (PyInt (fst (spec_tier x))) = Ok q) /\
     num_value q = Vfin y /\ shows_two_decimals s y /\
     format_time d = Ok (minus_zero d ++ s ++ " " ++ snd (spec_tier x))) /\
  format_time (PyInt 999) = Ok "999.00 ns" /\
  format_time (PyInt 1500) = Ok "1.50 μs" /\
  format_time (PyInt 2500000) = Ok "2.50 ms" /\
  format_time (PyInt 3000000000) = Ok "3.00 s".
Proof.
  intros Hx Hx0 Hrep.
  split; [|repeat split; vm_compute; reflexivity].
  pose proof (representable_in_range d x Hrep Hx) as Hrange.
  rewrite (format_time_tier d x Hx).
  apply (tier_two_decimals d x _ _ Hx Hx0 Hrange).
  unfold spec_tier.
  change 1000%Q with (inject_Z 1000).
  change 1000000%Q with (inject_Z 1000000).
  change 1000000000%Q with (inject_Z 1000000000).
  destruct (Qltb x (inject_Z 1000)) eqn:E1; cbn [fst].
  - left. split; [reflexivity|]. apply Qltb_true in E1.
    eapply Qlt_trans; [exact E1 | reflexivity].
  - right. split; [apply (Qltb_ge_pos x 1000 eq_refl E1)|].
    destruct (Qltb x (inject_Z 1000000)); [cbn; tauto|].
    destruct (Qltb x (inject_Z 1000000000)); cbn; tauto.
Qed.

(** A float of two and a half milliseconds. *)
Lemma duration_format_by_tier_witness :
  exists q y s,
    num_truediv (PyFloat (S754_finite false 5368709120000000 (-31))) (PyInt 1000000)
    = Ok q /\
    num_value q = Vfin y /\ shows_two_decimals s y /\
    format_time (PyFloat (S754_finite false 5368709120000000 (-31))) = Ok (s ++ " ms") /\
    format_time (PyFloat (S754_finite false 5368709120000000 (-31))) = Ok "2.50 ms".
Proof.
  set (d := PyFloat (S754_finite false 5368709120000000 (-31))).
  assert (Hv : exists x, num_value d = Vfin x /\ (0 <= x)%Q
                         /\ snd (spec_tier x) = "ms"
                         /\ fst (spec_tier x) = 1000000).
  { let v := eval vm_compute in (num_value d) in
    match v with
    | Vfin ?x => exists x
    end.
    split; [vm_compute; reflexivity|].
    split; [discriminate|]. split; vm_compute; reflexivity. }
  destruct Hv as [x [Hx [H0 [Hunit Hdiv]]]].
  destruct (duration_format_by_tier d x Hx H0 eq_refl)
    as [[q [y [s [Hq [Hy [Hs Hf]]]]]] _].
  rewrite Hdiv in Hq. rewrite Hunit in Hf.
  exists q, y, s.
  split; [exact Hq|]. split; [exact Hy|]. split; [exact Hs|].
  split; [exact Hf | vm_compute; reflexivity].
Defined.

(** C3 is not what the program does on every non-negative duration: an
    [int] of 400 digits, which a JSON file can hold, is too large for the
    division and raises, and the infinite [float] is shown without
    decimals. *)
Lemma huge_duration_is_not_formatted :
  format_time (PyInt (10 ^ 400))
  = Raise (OverflowError "integer division result too large for a float") /\
  format_time (PyFloat (S754_infinity false)) = Ok "inf s".
Proof. split; vm_compute; reflexivity. Qed.

(** ** The aggregator on every category *)



